(** * Contribution statistics pipeline of [app.py]

    A shallow embedding of the fetch / parse / statistics pipeline of the
    GitHub contribution scraper, with the properties of its specification
    stated and proved over the embedded code.

    Python values are modelled as follows.
    - [int] is [Z]; counters that only count up from [0] and results of
      [len] are [nat].
    - [str] is [string], read as the UTF-8 bytes of the text: byte-wise
      lexicographic order coincides with Python's code point order.
    - a raised exception is the [Raise] branch of [result].
    - the contribution dictionaries are records with the keys as fields. *)

From Stdlib Require Import List ZArith QArith Bool Arith Lia.
From Stdlib Require Import Ascii String.
From Stdlib Require Import Sorted Permutation.
Import ListNotations.

Set Implicit Arguments.

Open Scope string_scope.
Open Scope list_scope.
Open Scope Z_scope.

(** ** Exceptions and fallible computations *)

Inductive exn : Type :=
| ValueError (msg : string)
| KeyError (key : Z)
| StatisticsError (msg : string)
| OverflowError (msg : string).

Inductive result (A : Type) : Type :=
| Ok (a : A)
| Raise (e : exn).

Arguments Ok {A} a.
Arguments Raise {A} e.

Definition bind {A B : Type} (m : result A) (k : A -> result B) : result B :=
  match m with
  | Ok a => k a
  | Raise e => Raise e
  end.

Notation "x <- m ;; k" := (bind m (fun x => k))
  (at level 61, m at next level, right associativity).

Definition raises {A : Type} (m : result A) : Prop :=
  exists e, m = Raise e.

(** ** Data model *)

(** One entry of the list built by [parse_contribution_data]. *)
Record Contribution : Type := mkContribution {
  date : string;
  contributions : Z;
  colorCode : string;
  description : string
}.

Module Streak.
Record t : Type := mk {
  length : nat;
  end_date : option string
}.
End Streak.

(** The populated dictionary returned by [calculate_statistics].  The mean
    and the median are kept as exact rationals: that the conversion to a
    float can raise [OverflowError] is represented, the rounding of the
    float and of the mean to two decimals is not. *)
Record Summary : Type := mkSummary {
  total_contributions : Z;
  average_daily_contributions : Q;
  median_daily_contributions : Q;
  max_contributions_day : Contribution;
  streak : Streak.t;
  active_days : nat;
  inactive_days : nat
}.

(** [calculate_statistics] returns either the empty dictionary or the
    populated one. *)
Inductive Statistics : Type :=
| EmptyStatistics
| FullStatistics (s : Summary).

(** ** Statistics calculator *)

(** *** [calculate_longest_streak] *)

(** Loop state: [current_streak], [longest_streak], [streak_end_date]. *)
Definition streak_state : Type := (nat * nat * option string)%type.

(** One iteration of the [for contrib in contributions] loop. *)
Definition streak_step (st : streak_state) (contrib : Contribution)
  : streak_state :=
  let '(current_streak, longest_streak, streak_end_date) := st in
  if 0 <? contributions contrib then
    let current_streak := S current_streak in
    if (longest_streak <? current_streak)%nat then
      (current_streak, current_streak, Some (date contrib))
    else
      (current_streak, longest_streak, streak_end_date)
  else
    (0%nat, longest_streak, streak_end_date).

Definition calculate_longest_streak (l : list Contribution) : Streak.t :=
  let '(_, longest_streak, streak_end_date) :=
    fold_left streak_step l (0%nat, 0%nat, None) in
  Streak.mk longest_streak streak_end_date.

(** *** Library functions used by [calculate_statistics] *)

(** Built-in [sum] over a list of integers. *)
Definition py_sum (xs : list Z) : Z := fold_left Z.add xs 0.

(** The least magnitude that the division of two integers cannot return
    as a float: the quotient is rounded to the nearest double, and from
    [2^1024 - 2^970] on that would be [2^1024]. *)
Definition float_limit : Z := 2 ^ 1024 - 2 ^ 970.

(** The true division [num / den] of two integers, [den] positive, raises
    [OverflowError]. *)
Definition overflows_float (num den : Z) : bool :=
  float_limit * den <=? Z.abs num.

(** [statistics.mean]: raises [StatisticsError] on empty data.  The mean
    of integers is computed exactly; it is returned as an integer when it
    is one and converted to a float otherwise, which raises
    [OverflowError] when it is too large.  The value is kept as the exact
    rational. *)
Definition statistics_mean (xs : list Z) : result Q :=
  match xs with
  | [] => Raise (StatisticsError "mean requires at least one data point")
  | _ =>
    let total := py_sum xs in
    let n := Z.of_nat (List.length xs) in
    if negb (total mod n =? 0) && overflows_float total n then
      Raise (OverflowError "integer division result too large for a float")
    else Ok (Qdiv (inject_Z total) (inject_Z n))
  end.

Fixpoint insert_sorted (x : Z) (xs : list Z) : list Z :=
  match xs with
  | [] => [x]
  | y :: ys => if x <? y then x :: xs else y :: insert_sorted x ys
  end.

(** Built-in [sorted] on integers. *)
Definition sorted_ints (xs : list Z) : list Z :=
  fold_left (fun acc x => insert_sorted x acc) xs [].

(** [statistics.median]: raises [StatisticsError] on empty data.  For an
    odd length it returns the middle element as it is; for an even length
    it divides the sum of the two middle elements by 2, a true division
    that raises [OverflowError] when the quotient is too large for a
    float. *)
Definition statistics_median (xs : list Z) : result Q :=
  let data := sorted_ints xs in
  let n := List.length data in
  match n with
  | O => Raise (StatisticsError "no median for empty data")
  | _ =>
    if Nat.odd n then Ok (inject_Z (nth (n / 2) data 0))
    else
      let i := (n / 2)%nat in
      if overflows_float (nth (i - 1) data 0 + nth i data 0) 2 then
        Raise (OverflowError "integer division result too large for a float")
      else
      Ok (Qdiv (Qplus (inject_Z (nth (i - 1) data 0)) (inject_Z (nth i data 0)))
                (inject_Z 2))
  end.

(** Built-in [max(iterable, key=...)]: a linear scan that replaces the
    candidate only on a strictly larger key; raises [ValueError] on an
    empty iterable. *)
Definition max_step {A : Type} (key : A -> Z) (best x : A) : A :=
  if key best <? key x then x else best.

Definition py_max {A : Type} (key : A -> Z) (xs : list A) : result A :=
  match xs with
  | [] => Raise (ValueError "max() arg is an empty sequence")
  | x :: rest => Ok (fold_left (max_step key) rest x)
  end.

(** Built-in [len] of a list comprehension with a condition. *)
Definition count_if {A : Type} (p : A -> bool) (xs : list A) : nat :=
  List.length (filter p xs).

(** *** [calculate_statistics] *)

Definition calculate_statistics (l : list Contribution) : result Statistics :=
  match l with
  | [] => Ok EmptyStatistics
  | _ =>
    let contribution_counts := map contributions l in
    let total := py_sum contribution_counts in
    mean <- statistics_mean contribution_counts ;;
    median <- statistics_median contribution_counts ;;
    max_day <- py_max contributions l ;;
    Ok (FullStatistics
          {| total_contributions := total;
             average_daily_contributions := mean;
             median_daily_contributions := median;
             max_contributions_day := max_day;
             streak := calculate_longest_streak l;
             active_days := count_if (fun c => 0 <? c) contribution_counts;
             inactive_days := count_if (fun c => c =? 0) contribution_counts |})
  end.

(** ** Strings *)

(** ASCII code of a character, as an integer. *)
Definition code (a : ascii) : Z := Z.of_nat (nat_of_ascii a).

(** Decimal digits [0-9]; the digits outside ASCII that [\d] and [int]
    also accept in Python are not represented. *)
Definition is_digit (a : ascii) : bool := (48 <=? code a) && (code a <=? 57).

Definition digit_value (a : ascii) : Z := code a - 48.

(** Whitespace removed by [str.strip()], restricted to ASCII. *)
Definition is_space (a : ascii) : bool :=
  ((9 <=? code a) && (code a <=? 13)) || ((28 <=? code a) && (code a <=? 32)).

Fixpoint lstrip (s : string) : string :=
  match s with
  | EmptyString => EmptyString
  | String a t => if is_space a then lstrip t else s
  end.

Fixpoint rstrip (s : string) : string :=
  match s with
  | EmptyString => EmptyString
  | String a t =>
    match rstrip t with
    | EmptyString => if is_space a then EmptyString else String a EmptyString
    | t' => String a t'
    end
  end.

Definition strip (s : string) : string := rstrip (lstrip s).

(** Longest run of digits at the head of [s], read as a decimal number
    continuing [acc], and the rest of [s]. *)
Fixpoint read_digits (acc : Z) (s : string) : Z * string :=
  match s with
  | String a t => if is_digit a then read_digits (10 * acc + digit_value a) t
                  else (acc, s)
  | EmptyString => (acc, s)
  end.

(** A match of [(\d+) contributions?] that starts at the head of [s]: the
    value of group 1.  The greedy digit run is the only candidate, since a
    shorter run is followed by a digit and not by the space. *)
Definition match_count_here (s : string) : option Z :=
  match s with
  | String a _ =>
    if is_digit a then
      let '(n, rest) := read_digits 0 s in
      if prefix " contribution" rest then Some n else None
    else None
  | EmptyString => None
  end.

(** [re.search(r'(\d+) contributions?', s)], then [int(group(1))]: the
    leftmost match wins.  The bound CPython puts on the number of digits
    [int] converts is not represented. *)
Fixpoint search_count (s : string) : option Z :=
  match match_count_here s with
  | Some n => Some n
  | None =>
    match s with
    | EmptyString => None
    | String _ t => search_count t
    end
  end.

(** ** Calendar dates *)

(** A [datetime.date]. *)
Record calendar_date : Type := mkDate {
  year : Z;
  month : Z;
  day : Z
}.

(** The order of [datetime.date]: lexicographic on year, month, day. *)
Definition date_ltb (a b : calendar_date) : bool :=
  (year a <? year b)
  || ((year a =? year b)
      && ((month a <? month b)
          || ((month a =? month b) && (day a <? day b)))).

Definition date_leb (a b : calendar_date) : bool := negb (date_ltb b a).

(** [a] is the day [b] or an earlier day. *)
Definition on_or_before (a b : calendar_date) : Prop :=
  year a < year b
  \/ (year a = year b
      /\ (month a < month b \/ (month a = month b /\ day a <= day b))).

(** ** Parser *)

Definition CONTRIBUTION_COLORS : list (Z * string) :=
  [ (0, "#ebedf0"); (1, "#9be9a8"); (2, "#40c463");
    (3, "#30a14e"); (4, "#216e39") ].

(** Subscription of a dictionary with integer keys: [KeyError] when the
    key is missing. *)
Fixpoint dict_getitem (d : list (Z * string)) (k : Z) : result string :=
  match d with
  | [] => Raise (KeyError k)
  | (k', v) :: rest => if k' =? k then Ok v else dict_getitem rest k
  end.

(** What [parse_contribution_data] reads of one element returned by
    [soup.find_all('td', class_='ContributionCalendar-day')]: the values
    of [td.get('data-date')], [td.get('id')] and [td.get('data-level')],
    [None] for a missing attribute. *)
Record Td : Type := mkTd {
  data_date : option string;
  id : option string;
  data_level : option string
}.

(** The parsed document, given by the answers to the two queries the
    parser makes.  [calendar_days] is the result of
    [soup.find_all('td', class_='ContributionCalendar-day')] in document
    order; [tool_tip i] is the [.text] of
    [soup.find('tool-tip', {'for': i})], [None] when there is no such
    element. *)
Record Soup : Type := mkSoup {
  calendar_days : list Td;
  tool_tip : option string -> option string
}.

(** Stable insertion by the [date] key: the new entry goes after the
    entries whose key is not greater. *)
Fixpoint insert_by_date (c : Contribution) (l : list Contribution)
  : list Contribution :=
  match l with
  | [] => [c]
  | x :: t => if (date c <? date x)%string then c :: l
              else x :: insert_by_date c t
  end.

(** [contributions.sort(key=lambda x: x['date'])]: a stable sort on the
    date strings. *)
Definition sort_by_date (l : list Contribution) : list Contribution :=
  fold_left (fun acc c => insert_by_date c acc) l [].

Section Parser.

(** [datetime.strptime(s, '%Y-%m-%d').date()]; [ValueError] when [s]
    does not match the format. *)
Variable strptime : string -> result calendar_date.

(** Built-in [int] applied to a string; [ValueError] when the string is
    not an integer literal. *)
Variable int_of_str : string -> result Z.

(** [datetime.now().date()], read once per call. *)
Variable current_date : calendar_date.

(** The body of the loop for one element: [Ok None] is [continue],
    [Ok (Some c)] is the entry appended. *)
Definition parse_day (soup : Soup) (td : Td) : result (option Contribution) :=
  match data_date td with
  | None => Ok None
  | Some EmptyString => Ok None
  | Some date =>
    date_obj <- strptime date ;;
    if date_ltb current_date date_obj then Ok None
    else
      let tooltip_id := id td in
      match tool_tip soup tooltip_id with
      | None => Ok None
      | Some text =>
        let count_text := strip text in
        let count :=
          match search_count count_text with
          | Some n => n
          | None => 0
          end in
        level <- match data_level td with
                 | Some s => int_of_str s
                 | None => Ok 0
                 end ;;
        color <- dict_getitem CONTRIBUTION_COLORS level ;;
        Ok (Some {| date := date;
                    contributions := count;
                    colorCode := color;
                    description := count_text |})
      end
  end.

(** The [for td in ...] loop, with the list built so far. *)
Fixpoint parse_days (soup : Soup) (tds : list Td) (acc : list Contribution)
  : result (list Contribution) :=
  match tds with
  | [] => Ok acc
  | td :: rest =>
    r <- parse_day soup td ;;
    match r with
    | Some c => parse_days soup rest (acc ++ [c])
    | None => parse_days soup rest acc
    end
  end.

Definition parse_contribution_data (soup : Soup) : result (list Contribution) :=
  contributions <- parse_days soup (calendar_days soup) [] ;;
  Ok (sort_by_date contributions).

(** The entries one element adds to the list: one or none. *)
Definition day_entries (soup : Soup) (td : Td) : list Contribution :=
  match parse_day soup td with
  | Ok (Some c) => [c]
  | _ => []
  end.

End Parser.

(** The values of the date attributes of the elements that have one, in
    document order. *)
Definition cell_dates (tds : list Td) : list string :=
  flat_map (fun td => match data_date td with
                      | Some d => [d]
                      | None => []
                      end) tds.

(** ** Reference models of the library functions the parser calls

    The parser above is parametric in [strptime] and [int].  The models
    below follow the documented behaviour of CPython on ASCII input and
    are used to run the parser on concrete documents. *)

Definition is_leap (y : Z) : bool :=
  ((y mod 4 =? 0) && negb (y mod 100 =? 0)) || (y mod 400 =? 0).

Definition days_in_month (y m : Z) : Z :=
  if m =? 2 then (if is_leap y then 29 else 28)
  else if (m =? 4) || (m =? 6) || (m =? 9) || (m =? 11) then 30
  else 31.

(** The alternatives of the [%m] pattern [1[0-2]|0[1-9]|[1-9]] at the
    head of [s], in the order the regular expression tries them, each
    with the rest of the string. *)
Definition month_candidates (s : string) : list (Z * string) :=
  let two :=
    match s with
    | String a (String b rest) =>
      if (code a =? 49) && (48 <=? code b) && (code b <=? 50)
      then [(10 + digit_value b, rest)]
      else if (code a =? 48) && (49 <=? code b) && (code b <=? 57)
      then [(digit_value b, rest)]
      else []
    | _ => []
    end in
  let one :=
    match s with
    | String a rest =>
      if (49 <=? code a) && (code a <=? 57) then [(digit_value a, rest)]
      else []
    | _ => []
    end in
  two ++ one.

(** The alternatives of the [%d] pattern
    [3[0-1]|[1-2]\d|0[1-9]|[1-9]| [1-9]]. *)
Definition day_candidates (s : string) : list (Z * string) :=
  let two :=
    match s with
    | String a (String b rest) =>
      if (code a =? 51) && (48 <=? code b) && (code b <=? 49)
      then [(30 + digit_value b, rest)]
      else if (49 <=? code a) && (code a <=? 50) && is_digit b
      then [(10 * digit_value a + digit_value b, rest)]
      else if (code a =? 48) && (49 <=? code b) && (code b <=? 57)
      then [(digit_value b, rest)]
      else []
    | _ => []
    end in
  let one :=
    match s with
    | String a rest =>
      if (49 <=? code a) && (code a <=? 57) then [(digit_value a, rest)]
      else []
    | _ => []
    end in
  let padded :=
    match s with
    | String a (String b rest) =>
      if (code a =? 32) && (49 <=? code b) && (code b <=? 57)
      then [(digit_value b, rest)]
      else []
    | _ => []
    end in
  two ++ one ++ padded.

(** The month and day of a string that matches [%m-%d] up to its end. *)
Definition match_month_day (s : string) : option (Z * Z) :=
  let after_month :=
    flat_map (fun '(m, r) =>
                match r with
                | String a r' => if code a =? 45 then [(m, r')] else []
                | EmptyString => []
                end) (month_candidates s) in
  let whole :=
    flat_map (fun '(m, r) =>
                flat_map (fun '(d, r') =>
                            match r' with
                            | EmptyString => [(m, d)]
                            | _ => []
                            end) (day_candidates r)) after_month in
  hd_error whole.

(** [datetime.strptime(s, '%Y-%m-%d').date()]. *)
Definition strptime_ymd (s : string) : result calendar_date :=
  match s with
  | String y1 (String y2 (String y3 (String y4 (String dash rest)))) =>
    if is_digit y1 && is_digit y2 && is_digit y3 && is_digit y4
       && (code dash =? 45)
    then
      let y := 1000 * digit_value y1 + 100 * digit_value y2
               + 10 * digit_value y3 + digit_value y4 in
      match match_month_day rest with
      | Some (m, d) =>
        if (1 <=? y) && (d <=? days_in_month y m)
        then Ok {| year := y; month := m; day := d |}
        else Raise (ValueError "day is out of range for month")
      | None => Raise (ValueError "time data does not match format")
      end
    else Raise (ValueError "time data does not match format")
  | _ => Raise (ValueError "time data does not match format")
  end.

(** Digits of an integer literal after its first digit: digits, with
    single underscores between them. *)
Fixpoint read_literal (acc : Z) (s : string) : option Z :=
  match s with
  | EmptyString => Some acc
  | String a t =>
    if is_digit a then read_literal (10 * acc + digit_value a) t
    else if code a =? 95 then
      match t with
      | String b t' =>
        if is_digit b then read_literal (10 * acc + digit_value b) t'
        else None
      | EmptyString => None
      end
    else None
  end.

(** Built-in [int] on a string, base 10: surrounding whitespace, an
    optional sign, then digits. *)
Definition int_of_string (s : string) : result Z :=
  let unsigned (t : string) : option Z :=
    match t with
    | String a t' =>
      if is_digit a then read_literal (digit_value a) t' else None
    | EmptyString => None
    end in
  let signed :=
    match strip s with
    | String a t =>
      if code a =? 45 then option_map Z.opp (unsigned t)
      else if code a =? 43 then unsigned t
      else unsigned (String a t)
    | EmptyString => None
    end in
  match signed with
  | Some n => Ok n
  | None => Raise (ValueError "invalid literal for int() with base 10")
  end.

(** ** Fetcher *)

Record Response : Type := mkResponse {
  status_code : Z;
  text : string
}.

(** What the fetcher changes outside the process: the requests sent so
    far, oldest first, and the contents of [response.html]. *)
Record World : Type := mkWorld {
  requests_sent : list string;
  response_html : option string
}.

(** The arguments [(username, from_date, to_date)] of a call, which are
    the key of the memoization cache. *)
Definition Key : Type := (string * string * string)%type.

Definition key_eqb (a b : Key) : bool :=
  let '(u1, f1, t1) := a in
  let '(u2, f2, t2) := b in
  String.eqb u1 u2 && String.eqb f1 f2 && String.eqb t1 t2.

(** Entries of [lru_cache], most recently used first. *)
Definition Cache : Type := list (Key * string).

Definition maxsize : nat := 100.

Fixpoint cache_lookup (k : Key) (c : Cache) : option string :=
  match c with
  | [] => None
  | (k', v) :: rest => if key_eqb k k' then Some v else cache_lookup k rest
  end.

Definition cache_remove (k : Key) (c : Cache) : Cache :=
  filter (fun e => negb (key_eqb k (fst e))) c.

(** A hit makes the entry the most recently used one. *)
Definition cache_touch (k : Key) (v : string) (c : Cache) : Cache :=
  (k, v) :: cache_remove k c.

(** A new entry replaces the least recently used one when the cache is
    full. *)
Definition cache_store (k : Key) (v : string) (c : Cache) : Cache :=
  (k, v) :: (if (maxsize <=? List.length c)%nat then removelast c else c).

Definition contributions_url (k : Key) : string :=
  let '(username, from_date, to_date) := k in
  "https://github.com/users/" ++ username ++ "/contributions?from="
    ++ from_date ++ "&to=" ++ to_date.

Section Fetcher.

(** [requests.get(url)]: the response of the upstream to the [n]-th
    request of the process.  Every request is taken to be answered: a
    transport failure, on which [requests.get] raises, is not
    represented. *)
Variable requests_get : nat -> string -> Response.

(** The function under the [lru_cache] decorator.  The request is
    recorded before the status is tested; writing [response.html] is taken
    to succeed. *)
Definition fetch_uncached (k : Key) (w : World) : result string * World :=
  let url := contributions_url k in
  let response := requests_get (List.length (requests_sent w)) url in
  let w := {| requests_sent := requests_sent w ++ [url];
              response_html := response_html w |} in
  if status_code response =? 404 then
    (Raise (ValueError "GitHub user not found"), w)
  else if negb (status_code response =? 200) then
    (Raise (ValueError "Failed to fetch GitHub data"), w)
  else
    (Ok (text response),
     {| requests_sent := requests_sent w;
        response_html := Some (text response) |}).

(** [fetch_github_data], with its cache: a hit returns the stored
    value without running the body; a miss runs it and stores the
    value it returns; an exception stores nothing. *)
Definition fetch_github_data (k : Key) (st : Cache * World)
  : result string * (Cache * World) :=
  let '(cache, w) := st in
  match cache_lookup k cache with
  | Some v => (Ok v, (cache_touch k v cache, w))
  | None =>
    match fetch_uncached k w with
    | (Ok v, w') => (Ok v, (cache_store k v cache, w'))
    | (Raise e, w') => (Raise e, (cache, w'))
    end
  end.

(** A sequence of calls, one after the other; the state after the last
    one. *)
Definition run_calls (ks : list Key) (st : Cache * World) : Cache * World :=
  fold_left (fun st k => snd (fetch_github_data k st)) ks st.

End Fetcher.

(** ** The streak, as the specification words it

    The running counter after a record is one more than before on a
    record with a positive count, and [0] otherwise.  The streak reports
    the largest value the counter takes and the date of the first record
    at which the counter has that value; no date when the counter never
    leaves [0]. *)

Definition next_counter (c : nat) (r : Contribution) : nat :=
  if 0 <? contributions r then S c else 0%nat.

(** The values of the running counter after each record of [l], starting
    from [c]. *)
Fixpoint running_counters (c : nat) (l : list Contribution) : list nat :=
  match l with
  | [] => []
  | r :: t => next_counter c r :: running_counters (next_counter c r) t
  end.

(** The date of the first record of [l] after which the running counter,
    started from [c], equals [m]. *)
Fixpoint date_reaching (m c : nat) (l : list Contribution) : option string :=
  match l with
  | [] => None
  | r :: t =>
    if (next_counter c r =? m)%nat then Some (date r)
    else date_reaching m (next_counter c r) t
  end.

Definition streak_spec (l : list Contribution) : Streak.t :=
  let m := list_max (running_counters 0 l) in
  Streak.mk m (if (m =? 0)%nat then None else date_reaching m 0 l).

(** ** The streak, as a property of the list

    A run is a block of adjacent records that all have a positive count.
    [longest_run l s] says that no run of [l] is longer than the length
    of [s]; that, when [s] has an end date, some run of [l] has that
    length, ends at a record with that date, and no run of that length
    ends before it; and that [s] has no end date only when its length is
    [0]. *)

Definition positive (r : Contribution) : Prop := 0 < contributions r.

(** The running counter after the records of [l], started from [c]. *)
Definition counter_after (c : nat) (l : list Contribution) : nat :=
  fold_left next_counter l c.

Definition longest_run (l : list Contribution) (s : Streak.t) : Prop :=
  (forall a b c, l = a ++ b ++ c -> Forall positive b ->
                 (List.length b <= Streak.length s)%nat)
  /\ match Streak.end_date s with
     | None => Streak.length s = 0%nat
     | Some d =>
       exists a b r c,
         l = a ++ (b ++ [r]) ++ c
         /\ Forall positive (b ++ [r])
         /\ List.length (b ++ [r]) = Streak.length s
         /\ date r = d
         /\ (forall a' b' c',
               l = a' ++ b' ++ c' -> Forall positive b' ->
               List.length b' = Streak.length s ->
               (List.length (a ++ b ++ [r]) <= List.length (a' ++ b'))%nat)
     end.

(** ** Sample inputs *)

(** The two days of the example of the specification. *)
Definition day_with_five : Contribution :=
  mkContribution "2024-01-01" 5 "#40c463" "5 contributions".

Definition day_with_none : Contribution :=
  mkContribution "2024-01-02" 0 "#ebedf0" "No contributions".

Definition two_days : list Contribution := [day_with_five; day_with_none].

Definition idle_days : list Contribution :=
  [ mkContribution "2024-01-02" 0 "#ebedf0" "No contributions";
    mkContribution "2024-01-03" 0 "#ebedf0" "No contributions" ].

(** Two days, the first with a count of 401 digits. *)
Definition huge_days : list Contribution :=
  [ mkContribution "2024-01-01" (10 ^ 400) "#216e39" "many contributions";
    mkContribution "2024-01-02" 1 "#9be9a8" "1 contribution" ].

(** The day on which the sample documents are parsed. *)
Definition sample_today : calendar_date := mkDate 2024 6 1.

(** The document of the example of the specification: a cell dated
    2024-01-01 with level 2 and tooltip "5 contributions", and a cell
    dated 2024-01-02 with level 0 and tooltip "No contributions". *)
Definition sample_soup : Soup :=
  {| calendar_days :=
       [ mkTd (Some "2024-01-01") (Some "day-1") (Some "2");
         mkTd (Some "2024-01-02") (Some "day-2") (Some "0") ];
     tool_tip := fun i =>
       match i with
       | Some "day-1" => Some "5 contributions"
       | Some "day-2" => Some "No contributions"
       | _ => None
       end |}.

(** A document in which two cells carry the same date. *)
Definition repeated_date_soup : Soup :=
  {| calendar_days :=
       [ mkTd (Some "2024-01-01") (Some "day-1") (Some "2");
         mkTd (Some "2024-01-01") (Some "day-2") (Some "0") ];
     tool_tip := tool_tip sample_soup |}.

(** A document whose only cell has an empty date attribute. *)
Definition empty_date_soup : Soup :=
  {| calendar_days := [ mkTd (Some "") (Some "day-1") (Some "2") ];
     tool_tip := tool_tip sample_soup |}.

(** A document with a cell whose date attribute is not a date. *)
Definition bad_date_soup : Soup :=
  {| calendar_days :=
       [ mkTd (Some "2024-01-01") (Some "day-1") (Some "2");
         mkTd (Some "yesterday") (Some "day-2") (Some "0") ];
     tool_tip := tool_tip sample_soup |}.

(** A document whose dates are written without padding: the first of
    September and the first of October. *)
Definition unpadded_soup : Soup :=
  {| calendar_days :=
       [ mkTd (Some "2023-9-01") (Some "day-1") (Some "2");
         mkTd (Some "2023-10-01") (Some "day-2") (Some "0") ];
     tool_tip := tool_tip sample_soup |}.

(** A document with a cell dated after [sample_today]. *)
Definition future_soup : Soup :=
  {| calendar_days :=
       [ mkTd (Some "2024-01-01") (Some "day-1") (Some "2");
         mkTd (Some "2024-06-02") (Some "day-2") (Some "0") ];
     tool_tip := tool_tip sample_soup |}.

(** The two failures of the fetcher, under the names of the
    specification.  Both are a [ValueError]; the message tells them
    apart. *)
Definition NotFound : exn := ValueError "GitHub user not found".

Definition UpstreamError : exn := ValueError "Failed to fetch GitHub data".

(** The entry of [k] holds [v] and at most [n] entries were used more
    recently. *)
Definition cached_within (n : nat) (k : Key) (v : string) (c : Cache) : Prop :=
  exists pre post,
    c = pre ++ (k, v) :: post
    /\ Forall (fun e => key_eqb k (fst e) = false) pre
    /\ (List.length pre <= n)%nat.

(** An upstream that answers the first request of the process with one
    page and every later request with another. *)
Definition changing_upstream (n : nat) (url : string) : Response :=
  match n with
  | O => mkResponse 200 "first"
  | S _ => mkResponse 200 "later"
  end.

(** An upstream that knows one account only. *)
Definition picky_upstream (n : nat) (url : string) : Response :=
  if String.eqb url
       "https://github.com/users/octocat/contributions?from=2024-01-01&to=2024-12-31"
  then mkResponse 200 "<html>octocat</html>"
  else if prefix "https://github.com/users/ghost/" url
  then mkResponse 404 "Not Found"
  else mkResponse 503 "Service Unavailable".

Definition octocat_key : Key := ("octocat", "2024-01-01", "2024-12-31").

(** The key of the [n]-th of a family of pairwise distinct accounts. *)
Definition other_key (n : nat) : Key :=
  (string_of_list_ascii (repeat "x"%char n), "2024-01-01", "2024-12-31").

(** One call for each of [maxsize] other accounts. *)
Definition hundred_other_calls : list Key := map other_key (seq 1 maxsize).

Definition fresh_process : Cache * World := ([], mkWorld [] None).

(** ** Request handler [get_contributions] *)

(** The query parameters the handler reads with [request.args.get]:
    [None] for a parameter that is not in the query string. *)
Record Args : Type := mkArgs {
  arg_username : option string;
  arg_year : option string;
  arg_from : option string;
  arg_to : option string
}.

(** What the handler passes to [jsonify]: an error object, or the object
    with the keys [username], [period] ([from], [to]), [contributions] and
    [statistics]. *)
Inductive Body : Type :=
| ErrorBody (error : string)
| ContributionsBody (username : string) (period_from period_to : string)
                    (days : list Contribution) (stats : Statistics).

Record HttpResponse : Type := mkHttpResponse {
  http_status : Z;
  http_body : Body
}.

(** Truth value of an optional string: [None] and the empty string are
    false. *)
Definition truthy (o : option string) : bool :=
  match o with
  | Some (String _ _) => true
  | _ => false
  end.

(** The string a truthy parameter holds. *)
Definition string_of (o : option string) : string :=
  match o with
  | Some s => s
  | None => EmptyString
  end.

(** [except ValueError] catches [ValueError] and its subclass
    [StatisticsError]. *)
Definition is_value_error (e : exn) : bool :=
  match e with
  | ValueError _ | StatisticsError _ => true
  | KeyError _ | OverflowError _ => false
  end.

(** [str(e)] for the exceptions that carry one message. *)
Definition exn_message (e : exn) : string :=
  match e with
  | ValueError msg | StatisticsError msg | OverflowError msg => msg
  | KeyError _ => EmptyString
  end.

(** The two [except] clauses that close the handler. *)
Definition on_exception (e : exn) : HttpResponse :=
  if is_value_error e then mkHttpResponse 404 (ErrorBody (exn_message e))
  else mkHttpResponse 500 (ErrorBody "Internal server error").

Section Handler.

Variable strptime : string -> result calendar_date.
Variable int_of_str : string -> result Z.
Variable current_date : calendar_date.
Variable requests_get : nat -> string -> Response.

(** [BeautifulSoup(html_content, 'html.parser')], as the answers the
    parser reads from it. *)
Variable soup_of_html : string -> Soup.

(** The list comprehension that keeps the days of the closed interval
    from [from_date_obj] to [to_date_obj]; it parses each date again. *)
Fixpoint filter_period (from_date_obj to_date_obj : calendar_date)
         (l : list Contribution) : result (list Contribution) :=
  match l with
  | [] => Ok []
  | c :: rest =>
    d <- strptime (date c) ;;
    kept <- filter_period from_date_obj to_date_obj rest ;;
    Ok (if date_leb from_date_obj d && date_leb d to_date_obj
        then c :: kept else kept)
  end.

(** The part of the handler after the call of the fetcher. *)
Definition contributions_body (username from_date to_date : string)
           (from_date_obj to_date_obj : calendar_date) (html_content : string)
  : result Body :=
  contributions <- parse_contribution_data strptime int_of_str current_date
                     (soup_of_html html_content) ;;
  contributions <- filter_period from_date_obj to_date_obj contributions ;;
  statistics <- calculate_statistics contributions ;;
  Ok (ContributionsBody username from_date to_date contributions statistics).

(** The handler.  The exceptions it catches are those the fetcher, the
    parser and the calculator raise here; an exception of the transport or
    of the file system, which the last clause would also answer with
    status 500, is not represented. *)
Definition get_contributions (args : Args) (st : Cache * World)
  : HttpResponse * (Cache * World) :=
  if negb (truthy (arg_username args)) then
    (mkHttpResponse 400 (ErrorBody "Username is required"), st)
  else
    let username := string_of (arg_username args) in
    let period :=
      if truthy (arg_year args) then
        Some ((string_of (arg_year args) ++ "-01-01")%string,
              (string_of (arg_year args) ++ "-12-31")%string)
      else if negb (truthy (arg_from args) && truthy (arg_to args)) then None
      else Some (string_of (arg_from args), string_of (arg_to args)) in
    match period with
    | None =>
      (mkHttpResponse 400
         (ErrorBody "Either year or both from_date and to_date are required"),
       st)
    | Some (from_date, to_date) =>
      match (from_date_obj <- strptime from_date ;;
             to_date_obj <- strptime to_date ;;
             Ok (from_date_obj, to_date_obj)) with
      | Raise e =>
        if is_value_error e then
          (mkHttpResponse 400
             (ErrorBody "Invalid date format. Use YYYY-MM-DD"), st)
        else (on_exception e, st)
      | Ok (from_date_obj, to_date_obj) =>
        match fetch_github_data requests_get (username, from_date, to_date) st
        with
        | (Raise e, st') => (on_exception e, st')
        | (Ok html_content, st') =>
          match contributions_body username from_date to_date
                                   from_date_obj to_date_obj html_content with
          | Ok body => (mkHttpResponse 200 body, st')
          | Raise e => (on_exception e, st')
          end
        end
      end
    end.

End Handler.

(** ** Further definitions used in the statements *)

(** The number a string of decimal digits denotes. *)
Definition decimal_value (s : string) : Z :=
  fold_left (fun acc a => 10 * acc + digit_value a) (list_ascii_of_string s) 0.

Definition all_digits (s : string) : bool :=
  forallb is_digit (list_ascii_of_string s).

Definition no_digit (s : string) : bool :=
  forallb (fun a => negb (is_digit a)) (list_ascii_of_string s).

(** The keys of the cache are pairwise distinct and there are at most
    [maxsize] of them. *)
Definition cache_ok (c : Cache) : Prop :=
  NoDup (map fst c) /\ (List.length c <= maxsize)%nat.

(** Every value in the cache is the text of a response with status 200
    that the upstream gave to a request for the address of its key. *)
Definition served (requests_get : nat -> string -> Response)
           (w : World) (k : Key) (v : string) : Prop :=
  exists n, nth_error (requests_sent w) n = Some (contributions_url k)
            /\ status_code (requests_get n (contributions_url k)) = 200
            /\ text (requests_get n (contributions_url k)) = v.

Definition cache_served (requests_get : nat -> string -> Response)
           (st : Cache * World) : Prop :=
  forall k v, In (k, v) (fst st) -> served requests_get (snd st) k v.

(** The test of the list comprehension of the handler on one record: its
    date is read as a day of the closed interval. *)
Definition in_period (strptime : string -> result calendar_date)
           (from_date_obj to_date_obj : calendar_date) (c : Contribution)
  : bool :=
  match strptime (date c) with
  | Ok d => date_leb from_date_obj d && date_leb d to_date_obj
  | Raise _ => false
  end.

(** The period a request asks for: the whole year when [year] is given,
    else [from] and [to]. *)
Definition requested_period (args : Args) : string * string :=
  if truthy (arg_year args)
  then ((string_of (arg_year args) ++ "-01-01")%string,
        (string_of (arg_year args) ++ "-12-31")%string)
  else (string_of (arg_from args), string_of (arg_to args)).

(** The text has ASCII characters only. *)
Definition is_ascii_text (s : string) : bool :=
  forallb (fun a => code a <? 128) (list_ascii_of_string s).

(** The most digits [int] converts from a string. *)
Definition max_str_digits : nat := 4300.

(** The tooltips of the document are ASCII texts of at most
    [max_str_digits] characters: on such texts the digits of the regular
    expression are the ASCII digits, the whitespace stripped is ASCII
    whitespace, and [int] converts every run of digits. *)
Definition plain_tooltips (soup : Soup) : Prop :=
  forall i tip,
    tool_tip soup i = Some tip ->
    is_ascii_text tip = true
    /\ (String.length tip <= max_str_digits)%nat.

(** The two ways in which the handler fails on a page other than by a
    [ValueError]: an element with a level outside the colour table, or
    statistics that do not fit a float. *)
Definition unknown_level (int_of_str : string -> result Z) (soup : Soup)
  : Prop :=
  exists td ls level,
    In td (calendar_days soup)
    /\ data_level td = Some ls /\ int_of_str ls = Ok level
    /\ (level < 0 \/ 4 < level).

Definition statistics_overflow
           (strptime : string -> result calendar_date)
           (int_of_str : string -> result Z)
           (current_date : calendar_date) (soup : Soup)
           (period : string * string) : Prop :=
  exists recs fo to msg,
    parse_contribution_data strptime int_of_str current_date soup = Ok recs
    /\ strptime (fst period) = Ok fo /\ strptime (snd period) = Ok to
    /\ calculate_statistics (filter (in_period strptime fo to) recs)
       = Raise (OverflowError msg).

(** A document like [sample_soup] whose tooltips are found by comparing
    strings, with a cell whose level is outside the colour table. *)
Definition plain_bad_level_soup : Soup :=
  {| calendar_days :=
       [ mkTd (Some "2024-01-01") (Some "day-1") (Some "7") ];
     tool_tip := fun i =>
       match i with
       | Some s => if String.eqb s "day-1" then Some "5 contributions"
                   else None
       | None => None
       end |}.

(** The same with known levels and two days. *)
Definition plain_soup : Soup :=
  {| calendar_days :=
       [ mkTd (Some "2024-01-01") (Some "day-1") (Some "2");
         mkTd (Some "2024-01-02") (Some "day-2") (Some "0") ];
     tool_tip := fun i =>
       match i with
       | Some s => if String.eqb s "day-1" then Some "5 contributions"
                   else if String.eqb s "day-2" then Some "No contributions"
                   else None
       | None => None
       end |}.

(** Equality of keys is decidable. *)
Definition Key_eq_dec (a b : Key) : {a = b} + {a <> b}.
Proof. repeat decide equality. Defined.

(** A page reader for the sample upstream: the page of the known account
    holds the sample document, every other page holds no calendar. *)
Definition sample_page (html : string) : Soup :=
  if String.eqb html "<html>octocat</html>" then sample_soup
  else {| calendar_days := []; tool_tip := fun _ => None |}.

(** A request for the year 2024 of the known account. *)
Definition sample_request : Args :=
  mkArgs (Some "octocat") (Some "2024") None None.

(** A request whose period ends before it starts. *)
Definition reversed_request : Args :=
  mkArgs (Some "octocat") None (Some "2024-02-01") (Some "2024-01-01").

(** A document with a cell whose level is outside the colour table. *)
Definition bad_level_soup : Soup :=
  {| calendar_days :=
       [ mkTd (Some "2024-01-01") (Some "day-1") (Some "7") ];
     tool_tip := tool_tip sample_soup |}.

(** * Properties of the statistics calculator *)

Section Calculator.

Implicit Types (l : list Contribution) (r : Contribution).

Lemma last_cons_default (A : Type) (xs : list A) : forall x d,
  last (x :: xs) d = last xs x.
Proof.
  induction xs as [|y ys IH]; intros x d; [reflexivity|].
  change (last (x :: y :: ys) d) with (last (y :: ys) d).
  rewrite IH. symmetry. apply IH.
Qed.

(** The loop of [calculate_longest_streak], started in any state, in
    terms of the running counters of the records it reads. *)
Lemma streak_loop l : forall cur best d,
  fold_left streak_step l (cur, best, d) =
  let m := list_max (running_counters cur l) in
  (last (running_counters cur l) cur,
   Nat.max best m,
   if (best <? m)%nat then date_reaching m cur l else d).
Proof.
  induction l as [|r t IH]; intros cur best d.
  - cbn. now rewrite Nat.max_0_r.
  - cbn [fold_left running_counters date_reaching list_max fold_right].
    fold (list_max (running_counters (next_counter cur r) t)).
    assert (Hstep : streak_step (cur, best, d) r =
              (next_counter cur r,
               Nat.max best (next_counter cur r),
               if (best <? next_counter cur r)%nat then Some (date r) else d)).
    { unfold streak_step, next_counter.
      destruct (0 <? contributions r).
      - destruct (Nat.ltb_spec best (S cur)).
        + now rewrite Nat.max_r by lia.
        + now rewrite Nat.max_l by lia.
      - cbn. now rewrite Nat.max_0_r. }
    rewrite Hstep, IH. cbv zeta.
    set (c := next_counter cur r).
    set (m := list_max (running_counters c t)).
    f_equal; [f_equal|].
    + symmetry. apply last_cons_default.
    + lia.
    + destruct (Nat.ltb_spec best c) as [Hbc|Hbc];
        destruct (Nat.ltb_spec (Nat.max best c) m) as [Hm|Hm];
        destruct (Nat.ltb_spec best (Nat.max c m)) as [Hb|Hb];
        destruct (Nat.eqb_spec c (Nat.max c m)) as [He|He];
        try lia; try reflexivity.
      * replace (Nat.max c m) with m by lia. reflexivity.
      * replace (Nat.max c m) with m by lia. reflexivity.
Qed.

Lemma streak_refines_spec l : calculate_longest_streak l = streak_spec l.
Proof.
  unfold calculate_longest_streak, streak_spec.
  rewrite streak_loop. cbv zeta.
  destruct (list_max (running_counters 0 l)); reflexivity.
Qed.

Lemma insert_sorted_length x xs :
  List.length (insert_sorted x xs) = S (List.length xs).
Proof.
  induction xs as [|y ys IH]; cbn; [reflexivity|].
  destruct (x <? y); cbn; [reflexivity | now rewrite IH].
Qed.

Lemma sorted_ints_length xs : List.length (sorted_ints xs) = List.length xs.
Proof.
  unfold sorted_ints.
  enough (H : forall acc,
    List.length (fold_left (fun acc x => insert_sorted x acc) xs acc)
    = (List.length xs + List.length acc)%nat).
  { rewrite H. cbn. lia. }
  induction xs as [|x t IH]; intros acc; cbn; [reflexivity|].
  rewrite IH, insert_sorted_length. lia.
Qed.

Lemma py_sum_shift (xs : list Z) : forall a, fold_left Z.add xs a = a + py_sum xs.
Proof.
  unfold py_sum. induction xs as [|x t IH]; intros a; cbn; [lia|].
  rewrite (IH (a + x)), (IH x). lia.
Qed.

Lemma py_sum_cons (x : Z) (xs : list Z) : py_sum (x :: xs) = x + py_sum xs.
Proof. unfold py_sum at 1. cbn. apply py_sum_shift. Qed.

Lemma py_sum_bounds (xs : list Z) (lo hi : Z) :
  Forall (fun c => lo <= c <= hi) xs ->
  lo * Z.of_nat (List.length xs) <= py_sum xs <= hi * Z.of_nat (List.length xs).
Proof.
  induction 1 as [|x t Hx _ IH].
  - cbn. lia.
  - rewrite py_sum_cons. cbn [List.length]. lia.
Qed.

Lemma insert_sorted_in (x y : Z) (xs : list Z) :
  In y (insert_sorted x xs) -> y = x \/ In y xs.
Proof.
  induction xs as [|z t IH]; cbn.
  - intros [<-|[]]. now left.
  - destruct (x <? z); cbn; intros [H|H]; auto.
    destruct (IH H); auto.
Qed.

Lemma sorted_ints_in (xs : list Z) (y : Z) : In y (sorted_ints xs) -> In y xs.
Proof.
  unfold sorted_ints.
  enough (H : forall acc,
    In y (fold_left (fun acc x => insert_sorted x acc) xs acc) ->
    In y xs \/ In y acc).
  { intros Hin. destruct (H [] Hin) as [?|[]]. assumption. }
  induction xs as [|x t IH]; intros acc; cbn; [auto|].
  intros Hin. apply IH in Hin. destruct Hin as [Hin|Hin]; [auto|].
  apply insert_sorted_in in Hin. destruct Hin; auto.
Qed.

Lemma float_limit_pos : 0 < float_limit.
Proof. reflexivity. Qed.

Lemma overflows_float_bounded (num den : Z) :
  Z.abs num < float_limit * den -> overflows_float num den = false.
Proof. intros H. unfold overflows_float. now apply Z.leb_gt. Qed.

(** Counts below the limit have a sum that is below the limit times their
    number. *)
Lemma py_sum_below_limit (xs : list Z) :
  xs <> [] ->
  Forall (fun c => Z.abs c < float_limit) xs ->
  Z.abs (py_sum xs) < float_limit * Z.of_nat (List.length xs).
Proof.
  intros Hne Hall.
  assert (Hb : Forall (fun c => - (float_limit - 1) <= c <= float_limit - 1) xs).
  { eapply Forall_impl; [|exact Hall]. cbn. intros c Hc. lia. }
  apply py_sum_bounds in Hb.
  assert (Hn : 0 < Z.of_nat (List.length xs)).
  { destruct xs; [congruence | cbn [List.length]; lia]. }
  pose proof float_limit_pos.
  generalize dependent (Z.of_nat (List.length xs)).
  generalize dependent float_limit. intros L HL ? n Hb Hn. nia.
Qed.

Lemma statistics_mean_bounded (xs : list Z) :
  xs <> [] ->
  Forall (fun c => Z.abs c < float_limit) xs ->
  statistics_mean xs
  = Ok (Qdiv (inject_Z (py_sum xs)) (inject_Z (Z.of_nat (List.length xs)))).
Proof.
  intros Hne Hall. pose proof (py_sum_below_limit Hne Hall) as H.
  destruct xs as [|x t]; [congruence|]. unfold statistics_mean.
  rewrite (overflows_float_bounded _ _ H), andb_false_r. reflexivity.
Qed.

Lemma statistics_median_bounded (xs : list Z) :
  xs <> [] ->
  Forall (fun c => Z.abs c < float_limit) xs ->
  exists q, statistics_median xs = Ok q.
Proof.
  intros Hne Hall. rewrite Forall_forall in Hall.
  assert (Hnth : forall i, (i < List.length (sorted_ints xs))%nat ->
                           Z.abs (nth i (sorted_ints xs) 0) < float_limit).
  { intros i Hi. apply Hall, sorted_ints_in, nth_In, Hi. }
  unfold statistics_median.
  remember (List.length (sorted_ints xs)) as n eqn:Hn.
  destruct n as [|n'].
  { rewrite sorted_ints_length in Hn. destruct xs; [congruence|discriminate]. }
  assert (Hhalf : (S n' / 2 < S n')%nat) by (apply Nat.div_lt; lia).
  assert (Hprev : (S n' / 2 - 1 < S n')%nat) by lia.
  pose proof (Hnth _ Hhalf) as H1. pose proof (Hnth _ Hprev) as H2.
  cbv zeta. destruct (Nat.odd (S n')); [eauto|].
  rewrite overflows_float_bounded; [eauto|]. lia.
Qed.

(** The only exception of the mean and of the median of non-empty data
    is [OverflowError]. *)
Lemma statistics_mean_cases (xs : list Z) :
  xs <> [] ->
  (exists q, statistics_mean xs = Ok q)
  \/ (exists msg, statistics_mean xs = Raise (OverflowError msg)).
Proof.
  destruct xs as [|x t]; [congruence|]. intros _. unfold statistics_mean.
  destruct (_ && _); eauto.
Qed.

Lemma statistics_median_cases (xs : list Z) :
  xs <> [] ->
  (exists q, statistics_median xs = Ok q)
  \/ (exists msg, statistics_median xs = Raise (OverflowError msg)).
Proof.
  intros Hne. unfold statistics_median. rewrite sorted_ints_length.
  destruct xs as [|x t]; [congruence|]. cbn [List.length]. cbv zeta.
  destruct (Nat.odd (S (List.length t))); [eauto|].
  destruct (overflows_float _ _); eauto.
Qed.

(** What a populated dictionary holds. *)
Lemma calculate_statistics_inv l s :
  calculate_statistics l = Ok (FullStatistics s) ->
  l <> []
  /\ statistics_mean (map contributions l)
     = Ok (average_daily_contributions s)
  /\ statistics_median (map contributions l)
     = Ok (median_daily_contributions s)
  /\ s = {| total_contributions := py_sum (map contributions l);
            average_daily_contributions := average_daily_contributions s;
            median_daily_contributions := median_daily_contributions s;
            max_contributions_day :=
              fold_left (max_step contributions) (tl l)
                        (hd (mkContribution "" 0 "" "") l);
            streak := calculate_longest_streak l;
            active_days :=
              count_if (fun c => 0 <? c) (map contributions l);
            inactive_days :=
              count_if (fun c => c =? 0) (map contributions l) |}.
Proof.
  destruct l as [|r t]; [discriminate|]. unfold calculate_statistics.
  destruct (statistics_mean (map contributions (r :: t))) as [mean|e];
    cbn [bind]; [|discriminate].
  destruct (statistics_median (map contributions (r :: t))) as [median|e];
    cbn [bind py_max]; [|discriminate].
  intros [= <-]. cbn. repeat split; discriminate.
Qed.

(** On a non-empty list whose counts are below the limit no step of
    [calculate_statistics] raises, and the dictionary it returns holds
    these values. *)
Lemma calculate_statistics_bounded l :
  l <> [] ->
  Forall (fun r => Z.abs (contributions r) < float_limit) l ->
  exists mean median,
    calculate_statistics l =
    Ok (FullStatistics
          {| total_contributions := py_sum (map contributions l);
             average_daily_contributions := mean;
             median_daily_contributions := median;
             max_contributions_day :=
               fold_left (max_step contributions) (tl l)
                         (hd (mkContribution "" 0 "" "") l);
             streak := calculate_longest_streak l;
             active_days :=
               count_if (fun c => 0 <? c) (map contributions l);
             inactive_days :=
               count_if (fun c => c =? 0) (map contributions l) |}).
Proof.
  intros Hne Hall.
  assert (Hne' : map contributions l <> [])
    by (destruct l; [congruence | discriminate]).
  assert (Hall' : Forall (fun c => Z.abs c < float_limit) (map contributions l))
    by (apply Forall_map; exact Hall).
  pose proof (statistics_mean_bounded Hne' Hall') as Hmean.
  destruct (statistics_median_bounded Hne' Hall') as [median Hmedian].
  eexists. exists median.
  destruct l as [|r t]; [congruence|].
  unfold calculate_statistics.
  rewrite Hmean, Hmedian. reflexivity.
Qed.

(** On a non-empty list [calculate_statistics] returns the populated
    dictionary or raises [OverflowError]. *)
Lemma calculate_statistics_cases l :
  l <> [] ->
  (exists s, calculate_statistics l = Ok (FullStatistics s))
  \/ (exists msg, calculate_statistics l = Raise (OverflowError msg)).
Proof.
  intros Hne.
  assert (Hne' : map contributions l <> [])
    by (destruct l; [congruence | discriminate]).
  destruct l as [|r t]; [congruence|]. unfold calculate_statistics.
  destruct (statistics_mean_cases Hne') as [[mean ->]|[msg ->]]; cbn [bind];
    [|eauto].
  destruct (statistics_median_cases Hne') as [[median ->]|[msg ->]];
    cbn [bind py_max]; eauto.
Qed.

(** [fold_left (max_step key)] returns the first element with the
    largest key. *)
Lemma max_scan_first (A : Type) (key : A -> Z) (rest : list A) : forall x,
  exists pre post,
    x :: rest = pre ++ fold_left (max_step key) rest x :: post
    /\ Forall (fun y => key y < key (fold_left (max_step key) rest x)) pre
    /\ Forall (fun y => key y <= key (fold_left (max_step key) rest x)) post.
Proof.
  induction rest as [|y ys IH] using rev_ind; intros x.
  - exists [], []. cbn. repeat split; constructor.
  - destruct (IH x) as (pre & post & Heq & Hpre & Hpost).
    rewrite fold_left_app. cbn [fold_left].
    set (b := fold_left (max_step key) ys x) in *.
    unfold max_step. destruct (Z.ltb_spec (key b) (key y)) as [Hlt|Hge].
    + exists (pre ++ b :: post), [].
      split; [|split].
      * rewrite app_comm_cons, Heq. reflexivity.
      * apply Forall_app. split.
        -- eapply Forall_impl; [|exact Hpre]. cbn. intros; lia.
        -- constructor; [exact Hlt|].
           eapply Forall_impl; [|exact Hpost]. cbn. intros; lia.
      * constructor.
    + exists pre, (post ++ [y]).
      split; [|split].
      * rewrite app_comm_cons, Heq, <- app_assoc. reflexivity.
      * exact Hpre.
      * apply Forall_app. split; [exact Hpost|].
        constructor; [exact Hge | constructor].
Qed.

Lemma count_if_partition (xs : list Z) :
  Forall (fun c => 0 <= c) xs ->
  Nat.add (count_if (fun c => 0 <? c) xs) (count_if (fun c => c =? 0) xs)
  = List.length xs.
Proof.
  unfold count_if. induction 1 as [|c t Hc _ IH]; [reflexivity|].
  cbn [filter List.length].
  destruct (Z.ltb_spec 0 c), (Z.eqb_spec c 0); cbn [List.length]; lia.
Qed.

Lemma py_sum_zeros (xs : list Z) : Forall (fun c => c = 0) xs -> py_sum xs = 0.
Proof.
  unfold py_sum. induction 1 as [|c t Hc _ IH]; [reflexivity|].
  cbn. subst c. exact IH.
Qed.

Lemma count_if_zeros (xs : list Z) :
  Forall (fun c => c = 0) xs ->
  count_if (fun c => 0 <? c) xs = 0%nat
  /\ count_if (fun c => c =? 0) xs = List.length xs.
Proof.
  unfold count_if. induction 1 as [|c t Hc _ [IH1 IH2]]; [split; reflexivity|].
  subst c. cbn. rewrite IH1, IH2. split; reflexivity.
Qed.

Lemma running_counters_zeros l :
  Forall (fun r => contributions r = 0) l ->
  list_max (running_counters 0 l) = 0%nat.
Proof.
  induction 1 as [|r t Hr _ IH]; [reflexivity|].
  cbn [running_counters]. unfold next_counter. rewrite Hr.
  change (0 <? 0) with false. cbv iota.
  change (list_max (0%nat :: running_counters 0 t))
    with (Nat.max 0 (list_max (running_counters 0 t))).
  rewrite IH. reflexivity.
Qed.

(** On non-negative counts every record is either active or inactive. *)
Lemma day_counts_partition l s :
  calculate_statistics l = Ok (FullStatistics s) ->
  Forall (fun r => 0 <= contributions r) l ->
  (active_days s + inactive_days s)%nat = List.length l.
Proof.
  intros H Hpos. apply calculate_statistics_inv in H.
  destruct H as (_ & _ & _ & ->). cbn [active_days inactive_days].
  rewrite count_if_partition; [apply length_map|].
  apply Forall_map. exact Hpos.
Qed.

(** *** The running counter and the runs of the list *)

Lemma counter_after_app l1 l2 c :
  counter_after c (l1 ++ l2) = counter_after (counter_after c l1) l2.
Proof. apply fold_left_app. Qed.

Lemma counter_after_positive l :
  Forall positive l -> forall c, counter_after c l = (c + List.length l)%nat.
Proof.
  induction 1 as [|r t Hr _ IH]; intros c; cbn [counter_after fold_left].
  - cbn. lia.
  - fold (counter_after (next_counter c r) t). rewrite IH.
    unfold next_counter. unfold positive in Hr.
    apply Z.ltb_lt in Hr. rewrite Hr. cbn [List.length]. lia.
Qed.

Lemma counter_in_running l1 : forall c r l2,
  In (counter_after c (l1 ++ [r])) (running_counters c (l1 ++ r :: l2)).
Proof.
  induction l1 as [|x t IH]; intros c r l2.
  - left. reflexivity.
  - right. apply IH.
Qed.

Lemma running_counters_le_max l c x :
  In x (running_counters c l) -> (x <= list_max (running_counters c l))%nat.
Proof.
  intros Hin.
  pose proof (proj1 (list_max_le (running_counters c l) _) (Nat.le_refl _)) as H.
  rewrite Forall_forall in H. now apply H.
Qed.

Lemma list_max_in (xs : list nat) :
  list_max xs <> 0%nat -> In (list_max xs) xs.
Proof.
  induction xs as [|x t IH]; cbn; [congruence|].
  fold (list_max t).
  destruct (Nat.max_spec x (list_max t)) as [[Hlt ->]|[Hle ->]]; intros Hne.
  - right. apply IH. lia.
  - now left.
Qed.

Lemma date_reaching_some m l : forall c,
  In m (running_counters c l) -> exists d, date_reaching m c l = Some d.
Proof.
  induction l as [|r t IH]; intros c; cbn [running_counters date_reaching];
    [contradiction|].
  intros [H|H].
  - rewrite H, Nat.eqb_refl. eauto.
  - destruct (next_counter c r =? m)%nat; eauto.
Qed.

Lemma date_reaching_split m l : forall c d,
  date_reaching m c l = Some d ->
  exists l1 r l2,
    l = l1 ++ r :: l2 /\ date r = d
    /\ counter_after c (l1 ++ [r]) = m
    /\ Forall (fun x => x <> m) (running_counters c l1).
Proof.
  induction l as [|r0 t IH]; intros c d; cbn [date_reaching]; [discriminate|].
  destruct (Nat.eqb_spec (next_counter c r0) m) as [E|E].
  - intros [= <-]. exists [], r0, t. repeat split; auto.
  - intros H. apply IH in H. destruct H as (l1 & r & l2 & -> & Hd & Hc & Hall).
    exists (r0 :: l1), r, l2. repeat split; auto.
    cbn [running_counters]. constructor; assumption.
Qed.

(** The counter counts the positive records at the end of what was
    read. *)
Lemma counter_after_suffix l : forall m,
  counter_after 0 l = m ->
  exists a b, l = a ++ b /\ List.length b = m /\ Forall positive b.
Proof.
  induction l as [|r t IH] using rev_ind; intros m.
  - intros <-. exists [], []. repeat split. constructor.
  - rewrite counter_after_app. cbn [counter_after fold_left].
    unfold next_counter at 1.
    destruct (Z.ltb_spec 0 (contributions r)) as [Hr|Hr]; intros <-.
    + destruct (IH _ eq_refl) as (a & b & -> & Hlen & Hpos).
      exists a, (b ++ [r]). rewrite app_assoc. split; [reflexivity|].
      split.
      * rewrite length_app, Hlen. cbn. unfold counter_after. lia.
      * apply Forall_app. split; [exact Hpos|]. now constructor.
    + exists (t ++ [r]), []. rewrite app_nil_r.
      repeat split. constructor.
Qed.

(** No run is longer than the largest value of the counter. *)
Lemma run_length_le_max l a b c :
  l = a ++ b ++ c -> Forall positive b ->
  (List.length b <= list_max (running_counters 0 l))%nat.
Proof.
  intros -> Hpos.
  destruct b as [|x b'] using rev_ind; [cbn; lia|]. clear IHb'.
  rewrite <- app_assoc, app_assoc. cbn [app].
  etransitivity; [|apply running_counters_le_max; apply counter_in_running].
  rewrite <- app_assoc, counter_after_app, (counter_after_positive Hpos). lia.
Qed.

Lemma streak_spec_longest_run l : longest_run l (streak_spec l).
Proof.
  unfold longest_run, streak_spec. cbn [Streak.length Streak.end_date].
  set (m := list_max (running_counters 0 l)).
  split; [intros a b c; apply run_length_le_max|].
  destruct (Nat.eqb_spec m 0) as [E|E]; [exact E|].
  assert (Hin : In m (running_counters 0 l)) by (apply list_max_in; exact E).
  apply date_reaching_some in Hin. destruct Hin as [d Hd].
  rewrite Hd.
  apply date_reaching_split in Hd.
  destruct Hd as (l1 & r & l2 & Hl & Hdate & Hc & Hall).
  pose proof Hc as Hsuf. apply counter_after_suffix in Hsuf.
  destruct Hsuf as (a & b' & Hab & Hlen & Hpos).
  destruct b' as [|x b] using rev_ind; [cbn in Hlen; congruence|]. clear IHb.
  rewrite app_assoc in Hab. apply app_inj_tail in Hab.
  destruct Hab as [Hl1 <-].
  exists a, b, r, l2. split; [|split; [exact Hpos|split; [exact Hlen|split; [exact Hdate|]]]].
  { rewrite Hl, Hl1, <- !app_assoc. reflexivity. }
  intros a' b' c' Hl' Hpos' Hlen'.
  destruct (Nat.le_gt_cases (List.length (a ++ b ++ [r]))
                            (List.length (a' ++ b'))) as [Hle|Hgt];
    [exact Hle|exfalso].
  destruct b' as [|r0 b0] using rev_ind; [cbn in Hlen'; congruence|].
  clear IHb0.
  assert (Hl'' : l = (a' ++ b0) ++ r0 :: c').
  { rewrite Hl', <- !app_assoc. reflexivity. }
  assert (Hm : counter_after 0 ((a' ++ b0) ++ [r0]) = m).
  { apply Nat.le_antisymm.
    - unfold m. rewrite Hl''.
      apply running_counters_le_max, counter_in_running.
    - rewrite <- app_assoc, counter_after_app, (counter_after_positive Hpos').
      lia. }
  assert (Hsplit : l1 ++ r :: l2 = (a' ++ b0) ++ r0 :: c').
  { rewrite <- Hl. exact Hl''. }
  apply app_eq_app in Hsplit. destruct Hsplit as [z [[H1 H2]|[H1 H2]]].
  - destruct z as [|z0 z'].
    + apply (f_equal (@List.length _)) in H1, Hl1.
      rewrite !length_app in *. cbn [List.length] in *. lia.
    + cbn [app] in H2. injection H2 as -> Hc'.
      rewrite Forall_forall in Hall. apply (Hall m); [|reflexivity].
      rewrite H1, <- Hm. apply counter_in_running.
  - apply (f_equal (@List.length _)) in H1, Hl1.
    rewrite !length_app in *. cbn [List.length] in *. lia.
Qed.

End Calculator.

(** ** The claims about the statistics calculator *)

(** C1.  The streak statistic is the result of the forward pass of the
    specification: its length is the largest value of the running counter
    of consecutive records with a positive count, which restarts from 0 on
    every other record, and its end date is the date of the first record at
    which the counter has that value (no date when the counter stays 0).
    Read on the list itself: no run of adjacent records with a positive
    count is longer than the reported length, the end date is the date of
    the last record of a run of that length, and no run of that length
    ends earlier.  This holds for [calculate_longest_streak] on every list
    and for the [streak] entry of every populated summary. *)
Theorem streak_is_forward_pass (l : list Contribution) :
  calculate_longest_streak l = streak_spec l
  /\ longest_run l (calculate_longest_streak l)
  /\ (forall s, calculate_statistics l = Ok (FullStatistics s) ->
                streak s = streak_spec l).
Proof.
  split; [apply streak_refines_spec|].
  split; [rewrite streak_refines_spec; apply streak_spec_longest_run|].
  intros s Hs. apply calculate_statistics_inv in Hs.
  destruct Hs as (_ & _ & _ & ->). cbn [streak].
  apply streak_refines_spec.
Qed.

Lemma streak_is_forward_pass_witness :
  calculate_longest_streak two_days = Streak.mk 1 (Some "2024-01-01")
  /\ longest_run two_days (Streak.mk 1 (Some "2024-01-01"))
  /\ exists s, calculate_statistics two_days = Ok (FullStatistics s)
               /\ streak s = Streak.mk 1 (Some "2024-01-01").
Proof.
  destruct (streak_is_forward_pass two_days) as (H1 & H2 & H3).
  split; [rewrite H1; reflexivity|].
  split; [exact H2|].
  eexists. split; [reflexivity|].
  rewrite (H3 _ eq_refl). reflexivity.
Defined.

(** C4.  The [max_contributions_day] of a summary is a record of the
    list whose count no record exceeds; every record before it has a
    strictly smaller count, so it is the first record with the largest
    count.  This holds of every summary the calculator returns, and it
    returns one for every non-empty list whose counts are smaller in
    magnitude than [float_limit]. *)
Theorem max_day_is_first_maximum (l : list Contribution) :
  (forall s,
     calculate_statistics l = Ok (FullStatistics s) ->
     exists pre post,
       l = pre ++ max_contributions_day s :: post
       /\ Forall (fun r => contributions r
                           < contributions (max_contributions_day s)) pre
       /\ Forall (fun r => contributions r
                           <= contributions (max_contributions_day s)) post)
  /\ (l <> [] ->
      Forall (fun r => Z.abs (contributions r) < float_limit) l ->
      exists s, calculate_statistics l = Ok (FullStatistics s)).
Proof.
  split.
  - intros s H. apply calculate_statistics_inv in H.
    destruct H as (Hne & _ & _ & ->). cbn [max_contributions_day].
    destruct l as [|x rest]; [congruence|]. cbn [hd tl].
    destruct (max_scan_first contributions rest x)
      as (pre & post & Heq & Hpre & Hpost).
    exists pre, post. auto.
  - intros Hne Hall.
    destruct (calculate_statistics_bounded Hne Hall) as (mean & median & H).
    eexists. exact H.
Qed.

Lemma max_day_is_first_maximum_witness :
  exists s pre post,
    calculate_statistics two_days = Ok (FullStatistics s)
    /\ two_days = pre ++ max_contributions_day s :: post
    /\ Forall (fun r => contributions r
                        < contributions (max_contributions_day s)) pre
    /\ Forall (fun r => contributions r
                        <= contributions (max_contributions_day s)) post.
Proof.
  destruct (max_day_is_first_maximum two_days) as [H1 H2].
  destruct H2 as [s Hs]; [discriminate | repeat constructor; reflexivity |].
  exists s. destruct (H1 s Hs) as (pre & post & H).
  exists pre, post. split; [exact Hs | exact H].
Defined.

(** C6, as far as it holds.  On the empty list [calculate_statistics]
    returns the empty dictionary without raising.  On a non-empty list it
    returns a populated summary whenever every count is smaller in
    magnitude than [float_limit], the least number a float cannot hold;
    and on every non-empty list it returns a populated summary or raises
    [OverflowError], never an error of an empty sequence or of a division
    by zero. *)
Theorem empty_input_gives_empty_summary :
  calculate_statistics [] = Ok EmptyStatistics
  /\ (forall l, l <> [] ->
                Forall (fun r => Z.abs (contributions r) < float_limit) l ->
                exists s, calculate_statistics l = Ok (FullStatistics s))
  /\ (forall l, l <> [] ->
                (exists s, calculate_statistics l = Ok (FullStatistics s))
                \/ (exists msg,
                      calculate_statistics l = Raise (OverflowError msg))).
Proof.
  split; [reflexivity|]. split.
  - intros l Hne Hall.
    destruct (calculate_statistics_bounded Hne Hall) as (mean & median & H).
    eexists. exact H.
  - intros l. apply calculate_statistics_cases.
Qed.

Lemma empty_input_gives_empty_summary_witness :
  calculate_statistics [] = Ok EmptyStatistics
  /\ (exists s, calculate_statistics two_days = Ok (FullStatistics s))
  /\ ((exists s, calculate_statistics huge_days = Ok (FullStatistics s))
      \/ (exists msg,
            calculate_statistics huge_days = Raise (OverflowError msg))).
Proof.
  destruct empty_input_gives_empty_summary as (H0 & H1 & H2).
  split; [exact H0|]. split.
  - apply (H1 two_days); [discriminate|].
    repeat constructor; reflexivity.
  - apply (H2 huge_days). discriminate.
Defined.

(** C6 as stated fails: on a non-empty list with a count of 401 digits
    the conversion of the mean to a float raises [OverflowError], and no
    summary is returned. *)
Lemma huge_count_overflows_statistics :
  huge_days <> []
  /\ calculate_statistics huge_days
     = Raise (OverflowError "integer division result too large for a float")
  /\ ~ exists s, calculate_statistics huge_days = Ok (FullStatistics s).
Proof.
  assert (H : calculate_statistics huge_days
              = Raise (OverflowError
                         "integer division result too large for a float"))
    by (vm_compute; reflexivity).
  split; [discriminate|]. split; [exact H|].
  intros [s Hs]. rewrite H in Hs. discriminate.
Qed.

(** C9.  For a non-empty list in which every record has count 0, the
    summary is populated, its streak has length 0 and no end date, its
    total is 0, it has no active day, and its inactive days are all the
    records. *)
Theorem all_zero_counts_summary (l : list Contribution) :
  l <> [] ->
  Forall (fun r => contributions r = 0) l ->
  exists s, calculate_statistics l = Ok (FullStatistics s)
            /\ Streak.length (streak s) = 0%nat
            /\ Streak.end_date (streak s) = None
            /\ total_contributions s = 0
            /\ active_days s = 0%nat
            /\ inactive_days s = List.length l.
Proof.
  intros Hne Hzero.
  assert (Hsmall : Forall (fun r => Z.abs (contributions r) < float_limit) l).
  { eapply Forall_impl; [|exact Hzero]. cbn. intros r ->. reflexivity. }
  destruct (calculate_statistics_bounded Hne Hsmall) as (mean & median & H).
  assert (Hz : Forall (fun c => c = 0) (map contributions l))
    by (apply Forall_map; exact Hzero).
  destruct (count_if_zeros Hz) as [Hact Hinact].
  eexists. split; [exact H|].
  cbn [streak total_contributions active_days inactive_days].
  rewrite streak_refines_spec. unfold streak_spec.
  rewrite (running_counters_zeros Hzero). cbn.
  rewrite (py_sum_zeros Hz), Hact, Hinact, length_map. auto.
Qed.

Lemma all_zero_counts_summary_witness :
  exists s, calculate_statistics idle_days = Ok (FullStatistics s)
            /\ Streak.length (streak s) = 0%nat
            /\ Streak.end_date (streak s) = None
            /\ total_contributions s = 0
            /\ active_days s = 0%nat
            /\ inactive_days s = 2%nat.
Proof.
  apply (all_zero_counts_summary (l := idle_days)).
  - discriminate.
  - repeat constructor.
Defined.

(** * Properties of the parser *)

(** ** The order on date strings *)

Lemma ascii_compare_refl (a : ascii) : Ascii.compare a a = Eq.
Proof. unfold Ascii.compare. apply N.compare_refl. Qed.

Lemma ascii_compare_lt_trans (a b c : ascii) :
  Ascii.compare a b = Lt -> Ascii.compare b c = Lt -> Ascii.compare a c = Lt.
Proof.
  unfold Ascii.compare. rewrite !N.compare_lt_iff. apply N.lt_trans.
Qed.

Lemma string_compare_refl (s : string) : String.compare s s = Eq.
Proof.
  induction s as [|a s IH]; cbn; [reflexivity|].
  now rewrite ascii_compare_refl.
Qed.

Lemma string_compare_lt_trans (s1 : string) : forall s2 s3,
  String.compare s1 s2 = Lt -> String.compare s2 s3 = Lt ->
  String.compare s1 s3 = Lt.
Proof.
  induction s1 as [|a s1 IH]; intros [|b s2] [|c s3]; cbn;
    try discriminate; try reflexivity.
  destruct (Ascii.compare a b) eqn:Hab; try discriminate;
    destruct (Ascii.compare b c) eqn:Hbc; try discriminate; intros H1 H2.
  - apply Ascii.compare_eq_iff in Hab, Hbc. subst.
    rewrite ascii_compare_refl. eapply IH; eassumption.
  - apply Ascii.compare_eq_iff in Hab. subst. now rewrite Hbc.
  - apply Ascii.compare_eq_iff in Hbc. subst. now rewrite Hab.
  - now rewrite (ascii_compare_lt_trans _ _ _ Hab Hbc).
Qed.

Lemma string_leb_refl (s : string) : String.leb s s = true.
Proof. unfold String.leb. now rewrite string_compare_refl. Qed.

Lemma string_leb_cases (s1 s2 : string) :
  String.leb s1 s2 = true <-> String.ltb s1 s2 = true \/ s1 = s2.
Proof.
  unfold String.leb, String.ltb.
  destruct (String.compare s1 s2) eqn:H; cbn; split; intros H'; auto.
  - right. now apply String.compare_eq_iff.
  - destruct H' as [H'|H']; [discriminate|].
    subst. rewrite string_compare_refl in H. discriminate.
Qed.

Lemma string_ltb_trans (s1 s2 s3 : string) :
  String.ltb s1 s2 = true -> String.ltb s2 s3 = true -> String.ltb s1 s3 = true.
Proof.
  unfold String.ltb.
  destruct (String.compare s1 s2) eqn:H12; try discriminate.
  destruct (String.compare s2 s3) eqn:H23; try discriminate.
  now rewrite (string_compare_lt_trans _ _ _ H12 H23).
Qed.

Lemma string_leb_trans (s1 s2 s3 : string) :
  String.leb s1 s2 = true -> String.leb s2 s3 = true -> String.leb s1 s3 = true.
Proof.
  rewrite !string_leb_cases.
  intros [H1|H1] [H2|H2]; subst; auto.
  left. eapply string_ltb_trans; eassumption.
Qed.

Lemma string_ltb_false_leb (s1 s2 : string) :
  String.ltb s1 s2 = false -> String.leb s2 s1 = true.
Proof.
  unfold String.ltb, String.leb. rewrite (String.compare_antisym s2 s1).
  destruct (String.compare s1 s2); cbn; congruence.
Qed.

Lemma string_ltb_leb (s1 s2 : string) :
  String.ltb s1 s2 = true -> String.leb s1 s2 = true.
Proof. intros H. apply string_leb_cases. now left. Qed.

Lemma string_ltb_irrefl (s : string) : String.ltb s s = false.
Proof. unfold String.ltb. now rewrite string_compare_refl. Qed.

(** ** The sort *)

Definition date_le (a b : Contribution) : Prop :=
  String.leb (date a) (date b) = true.

Definition date_lt (a b : Contribution) : Prop :=
  String.ltb (date a) (date b) = true.

Lemma insert_by_date_perm (c : Contribution) (l : list Contribution) :
  Permutation (insert_by_date c l) (c :: l).
Proof.
  induction l as [|x t IH]; cbn; [reflexivity|].
  destruct (String.ltb (date c) (date x)); [reflexivity|].
  eapply perm_trans; [apply perm_skip; exact IH | apply perm_swap].
Qed.

Lemma insert_by_date_sorted (c : Contribution) (l : list Contribution) :
  StronglySorted date_le l -> StronglySorted date_le (insert_by_date c l).
Proof.
  induction 1 as [|x t Hsorted IH Hx]; cbn.
  - repeat constructor.
  - destruct (String.ltb (date c) (date x)) eqn:Hcx.
    + constructor; [constructor; assumption|].
      constructor; [now apply string_ltb_leb|].
      eapply Forall_impl; [|exact Hx].
      intros y Hy. unfold date_le in *.
      eapply string_leb_trans; [|exact Hy]. now apply string_ltb_leb.
    + constructor; [exact IH|].
      eapply Permutation_Forall.
      { symmetry. apply insert_by_date_perm. }
      constructor; [|exact Hx].
      now apply string_ltb_false_leb.
Qed.

Lemma sort_by_date_fold (l : list Contribution) : forall acc,
  StronglySorted date_le acc ->
  StronglySorted date_le (fold_left (fun acc c => insert_by_date c acc) l acc)
  /\ Permutation (fold_left (fun acc c => insert_by_date c acc) l acc)
                 (acc ++ l).
Proof.
  induction l as [|c t IH]; intros acc Hacc; cbn.
  - split; [exact Hacc|]. now rewrite app_nil_r.
  - destruct (IH (insert_by_date c acc)) as [Hs Hp].
    { now apply insert_by_date_sorted. }
    split; [exact Hs|].
    eapply perm_trans; [exact Hp|].
    eapply perm_trans;
      [apply Permutation_app_tail; apply insert_by_date_perm|].
    apply Permutation_middle.
Qed.

Lemma sort_by_date_sorted (l : list Contribution) :
  StronglySorted date_le (sort_by_date l).
Proof. apply sort_by_date_fold. constructor. Qed.

Lemma sort_by_date_perm (l : list Contribution) :
  Permutation (sort_by_date l) l.
Proof.
  unfold sort_by_date.
  destruct (sort_by_date_fold l (acc := [])) as [_ H]; [constructor|].
  exact H.
Qed.

(** A sorted list without repeated dates is strictly increasing. *)
Lemma sorted_nodup_strict (l : list Contribution) :
  StronglySorted date_le l -> NoDup (map date l) -> StronglySorted date_lt l.
Proof.
  induction 1 as [|x t Hsorted IH Hx]; cbn; intros Hnd; [constructor|].
  inversion Hnd as [|? ? Hnotin Hnd']; subst.
  constructor; [now apply IH|].
  rewrite Forall_forall in *. intros y Hy.
  specialize (Hx y Hy). unfold date_le, date_lt in *.
  apply string_leb_cases in Hx. destruct Hx as [Hx|Hx]; [exact Hx|].
  exfalso. apply Hnotin. rewrite Hx. now apply in_map.
Qed.

(** ** The loop of the parser *)

Lemma read_digits_nonneg (s : string) : forall acc,
  0 <= acc -> 0 <= fst (read_digits acc s).
Proof.
  induction s as [|a t IH]; intros acc Hacc; cbn [read_digits];
    [exact Hacc|].
  destruct (is_digit a) eqn:Ha; [|exact Hacc].
  apply IH. unfold is_digit in Ha. unfold digit_value.
  apply andb_prop in Ha. destruct Ha as [Ha _].
  apply Z.leb_le in Ha. lia.
Qed.

Lemma match_count_here_nonneg (s : string) (n : Z) :
  match_count_here s = Some n -> 0 <= n.
Proof.
  unfold match_count_here. destruct s as [|a t]; [discriminate|].
  destruct (is_digit a); [|discriminate].
  pose proof (read_digits_nonneg (String a t) (acc := 0) (Z.le_refl 0)) as H.
  destruct (read_digits 0 (String a t)) as [m rest]. cbn in H.
  destruct (prefix " contribution" rest); [|discriminate].
  now intros [= <-].
Qed.

Lemma search_count_nonneg (s : string) (n : Z) :
  search_count s = Some n -> 0 <= n.
Proof.
  induction s as [|a t IH]; cbn [search_count].
  - destruct (match_count_here "") eqn:H; [|discriminate].
    intros [= <-]. eapply match_count_here_nonneg; eassumption.
  - destruct (match_count_here (String a t)) eqn:H; [|exact IH].
    intros [= <-]. eapply match_count_here_nonneg; eassumption.
Qed.

Section ParserProperties.

Variable strptime : string -> result calendar_date.
Variable int_of_str : string -> result Z.
Variable current_date : calendar_date.
Variable soup : Soup.

Local Abbreviation loop_body := (parse_day strptime int_of_str current_date soup).
Local Abbreviation loop := (parse_days strptime int_of_str current_date soup).
Local Abbreviation entries := (day_entries strptime int_of_str current_date soup).

(** What holds of an entry the loop body appends. *)
Lemma parse_day_entry (td : Td) (c : Contribution) :
  loop_body td = Ok (Some c) ->
  data_date td = Some (date c)
  /\ date c <> ""
  /\ (exists d, strptime (date c) = Ok d /\ date_ltb current_date d = false)
  /\ 0 <= contributions c.
Proof.
  unfold parse_day.
  destruct (data_date td) as [[|a s]|]; try discriminate.
  destruct (strptime (String a s)) as [d|e] eqn:Hd; cbn [bind]; [|discriminate].
  destruct (date_ltb current_date d) eqn:Hlt; [discriminate|].
  destruct (tool_tip soup (id td)) as [text|]; [|discriminate].
  destruct (match data_level td with Some s0 => int_of_str s0 | None => Ok 0 end)
    as [level|e]; cbn [bind]; [|discriminate].
  destruct (dict_getitem CONTRIBUTION_COLORS level) as [color|e];
    cbn [bind]; [|discriminate].
  intros [= <-]. cbn [date contributions].
  split; [reflexivity|]. split; [discriminate|]. split.
  - exists d. auto.
  - destruct (search_count (strip text)) eqn:Hc; [|lia].
    eapply search_count_nonneg; eassumption.
Qed.

(** An element whose date attribute is present, not empty and rejected by
    [strptime] makes the loop body raise. *)
Lemma parse_day_bad_date (td : Td) (s : string) (e : exn) :
  data_date td = Some s -> s <> "" -> strptime s = Raise e ->
  loop_body td = Raise e.
Proof.
  intros Hs Hne He. unfold parse_day. rewrite Hs.
  destruct s as [|a t]; [congruence|]. rewrite He. reflexivity.
Qed.

(** An element without a date attribute, or with an empty one, is
    skipped. *)
Lemma parse_day_no_date (td : Td) :
  data_date td = None \/ data_date td = Some "" -> loop_body td = Ok None.
Proof.
  intros [H|H]; unfold parse_day; rewrite H; reflexivity.
Qed.

(** The loop appends, in document order, the entries of the elements it
    reads. *)
Lemma parse_days_entries (tds : list Td) : forall acc out,
  loop tds acc = Ok out -> out = acc ++ flat_map entries tds.
Proof.
  induction tds as [|td rest IH]; intros acc out; cbn [parse_days].
  - intros [= <-]. cbn. now rewrite app_nil_r.
  - cbn [flat_map]. unfold day_entries at 1.
    destruct (loop_body td) as [[c|]|e]; cbn [bind]; intros H.
    + apply IH in H. rewrite H, <- app_assoc. reflexivity.
    + apply IH in H. exact H.
    + discriminate.
Qed.

(** The loop raises as soon as its body raises on one element. *)
Lemma parse_days_raises (tds : list Td) : forall acc td,
  In td tds -> raises (loop_body td) -> raises (loop tds acc).
Proof.
  induction tds as [|td0 rest IH]; intros acc td Hin Hr; [contradiction|].
  cbn [parse_days].
  destruct (loop_body td0) as [r|e] eqn:H0; cbn [bind].
  - destruct Hin as [<-|Hin].
    + destruct Hr as [e He]. congruence.
    + destruct r; eapply IH; eassumption.
  - exists e. reflexivity.
Qed.

Lemma day_entries_in (tds : list Td) (c : Contribution) :
  In c (flat_map entries tds) ->
  exists td, In td tds /\ loop_body td = Ok (Some c).
Proof.
  rewrite in_flat_map. intros (td & Hin & Hc). exists td. split; [exact Hin|].
  unfold day_entries in Hc.
  destruct (loop_body td) as [[c'|]|e]; try contradiction.
  destruct Hc as [<-|[]]. reflexivity.
Qed.

Lemma day_entries_dates_in (tds : list Td) (d : string) :
  In d (map date (flat_map entries tds)) -> In d (cell_dates tds).
Proof.
  rewrite in_map_iff. intros (c & <- & Hc).
  apply day_entries_in in Hc. destruct Hc as (td & Hin & Hc).
  apply parse_day_entry in Hc. destruct Hc as (Hd & _).
  unfold cell_dates. apply in_flat_map. exists td. split; [exact Hin|].
  rewrite Hd. now left.
Qed.

(** Distinct date attributes give entries with distinct dates. *)
Lemma day_entries_nodup (tds : list Td) :
  NoDup (cell_dates tds) -> NoDup (map date (flat_map entries tds)).
Proof.
  induction tds as [|td rest IH]; cbn [flat_map map]; [constructor|].
  unfold cell_dates. cbn [flat_map]. fold (cell_dates rest).
  unfold day_entries at 1.
  destruct (loop_body td) as [[c|]|e] eqn:Hc; cbn [app];
    intros Hnd; try (apply IH; eapply NoDup_app_remove_l; exact Hnd).
  apply parse_day_entry in Hc. destruct Hc as (Hd & _).
  rewrite Hd in Hnd. cbn [app] in Hnd.
  inversion Hnd as [|? ? Hnotin Hnd']; subst.
  cbn [map]. constructor; [|now apply IH].
  intros Hin. apply Hnotin. now apply day_entries_dates_in.
Qed.

(** The list returned by the parser is the sorted list of the entries of
    the elements of the document. *)
Lemma parse_contribution_data_entries (recs : list Contribution) :
  parse_contribution_data strptime int_of_str current_date soup = Ok recs ->
  recs = sort_by_date (flat_map entries (calendar_days soup)).
Proof.
  unfold parse_contribution_data.
  destruct (loop (calendar_days soup) []) as [out|e] eqn:H; cbn [bind];
    [|discriminate].
  apply parse_days_entries in H. cbn [app] in H. subst out.
  now intros [= <-].
Qed.

Lemma parse_contribution_data_in (recs : list Contribution) (r : Contribution) :
  parse_contribution_data strptime int_of_str current_date soup = Ok recs ->
  In r recs ->
  exists td, In td (calendar_days soup) /\ loop_body td = Ok (Some r).
Proof.
  intros H Hin. apply parse_contribution_data_entries in H. subst recs.
  apply day_entries_in.
  eapply Permutation_in; [apply sort_by_date_perm | exact Hin].
Qed.

(** Every count the parser reports is non-negative. *)
Lemma parser_counts_nonneg (recs : list Contribution) :
  parse_contribution_data strptime int_of_str current_date soup = Ok recs ->
  Forall (fun r => 0 <= contributions r) recs.
Proof.
  intros H. apply Forall_forall. intros r Hin.
  destruct (@parse_contribution_data_in recs r H Hin) as (td & _ & Hr).
  now apply parse_day_entry in Hr.
Qed.

End ParserProperties.

Lemma date_ltb_false_iff (a b : calendar_date) :
  date_ltb b a = false <-> on_or_before a b.
Proof.
  unfold date_ltb, on_or_before.
  destruct (Z.ltb_spec (year b) (year a)), (Z.eqb_spec (year b) (year a)),
           (Z.ltb_spec (month b) (month a)), (Z.eqb_spec (month b) (month a)),
           (Z.ltb_spec (day b) (day a)); cbn; split; intros; try lia;
    try reflexivity; try discriminate.
Qed.

(** The identity of the day counts holds for every selection of the
    records the parser returns, which is what the request handler passes
    to [calculate_statistics]. *)
Lemma parsed_days_partition
  (strptime : string -> result calendar_date)
  (int_of_str : string -> result Z)
  (current_date : calendar_date) (soup : Soup)
  (recs : list Contribution) (in_range : Contribution -> bool)
  (s : Summary) :
  parse_contribution_data strptime int_of_str current_date soup = Ok recs ->
  calculate_statistics (filter in_range recs) = Ok (FullStatistics s) ->
  (active_days s + inactive_days s)%nat
  = List.length (filter in_range recs).
Proof.
  intros H Hs. apply day_counts_partition; [exact Hs|].
  apply Forall_forall. intros r Hr.
  apply filter_In in Hr. destruct Hr as [Hr _].
  apply parser_counts_nonneg in H. rewrite Forall_forall in H. now apply H.
Qed.

(** C2.  Whenever the statistics calculator returns a summary for a list
    of records with non-negative counts, the active and inactive day
    counts of the summary add up to the number of records.  The counts the
    parser extracts are never negative, so this holds in particular for
    the summary of every selection of the records the parser returns,
    which is what the statistics calculator is given.  A summary is
    returned for every non-empty list whose counts are non-negative and
    below [float_limit]. *)
Theorem active_plus_inactive_is_length :
  (forall (l : list Contribution) (s : Summary),
     calculate_statistics l = Ok (FullStatistics s) ->
     Forall (fun r => 0 <= contributions r) l ->
     (active_days s + inactive_days s)%nat = List.length l)
  /\ (forall (strptime : string -> result calendar_date)
             (int_of_str : string -> result Z)
             (current_date : calendar_date) (soup : Soup)
             (recs : list Contribution) (in_range : Contribution -> bool)
             (s : Summary),
        parse_contribution_data strptime int_of_str current_date soup
        = Ok recs ->
        calculate_statistics (filter in_range recs) = Ok (FullStatistics s) ->
        (active_days s + inactive_days s)%nat
        = List.length (filter in_range recs))
  /\ (forall l : list Contribution,
        l <> [] ->
        Forall (fun r => 0 <= contributions r < float_limit) l ->
        exists s,
          calculate_statistics l = Ok (FullStatistics s)
          /\ (active_days s + inactive_days s)%nat = List.length l).
Proof.
  split; [|split].
  - intros l s. apply day_counts_partition.
  - intros strptime int_of_str current_date soup recs in_range s.
    apply parsed_days_partition.
  - intros l Hne Hall.
    destruct (calculate_statistics_bounded (l := l)) as (mean & median & H);
      [exact Hne| |].
    + eapply Forall_impl; [|exact Hall]. cbn. intros r Hr. lia.
    + eexists. split; [exact H|].
      apply (day_counts_partition H).
      eapply Forall_impl; [|exact Hall]. cbn. intros r Hr. lia.
Qed.

Lemma active_plus_inactive_is_length_witness :
  exists s,
    calculate_statistics two_days = Ok (FullStatistics s)
    /\ (active_days s + inactive_days s)%nat = List.length two_days
    /\ (active_days s + inactive_days s)%nat
       = List.length (filter (fun _ => true) two_days).
Proof.
  destruct active_plus_inactive_is_length as (H1 & H2 & H3).
  destruct (H3 two_days) as (s & Hs & Hsum);
    [discriminate | repeat constructor; (cbn; lia) || reflexivity |].
  exists s. split; [exact Hs|]. split.
  - apply (H1 two_days); [exact Hs|].
    repeat constructor; cbn; lia.
  - apply (H2 strptime_ymd int_of_string sample_today sample_soup two_days
              (fun _ => true)); [reflexivity | exact Hs].
Defined.

(** The example of the specification: the parser on the two-cell
    document, and the statistics of its result. *)
Lemma specification_example :
  parse_contribution_data strptime_ymd int_of_string sample_today sample_soup
  = Ok two_days
  /\ calculate_statistics two_days
     = Ok (FullStatistics
             {| total_contributions := 5;
                average_daily_contributions := 5 # 2;
                median_daily_contributions := 5 # 2;
                max_contributions_day := day_with_five;
                streak := Streak.mk 1 (Some "2024-01-01");
                active_days := 1;
                inactive_days := 1 |}).
Proof. split; reflexivity. Qed.

(** The sort compares the date strings, not the days they denote: with
    dates written without padding, the first of October comes before the
    first of September. *)
Lemma unpadded_dates_sort_as_strings :
  exists r1 r2,
    parse_contribution_data strptime_ymd int_of_string sample_today
                            unpadded_soup = Ok [r1; r2]
    /\ strptime_ymd (date r1) = Ok (mkDate 2023 10 1)
    /\ strptime_ymd (date r2) = Ok (mkDate 2023 9 1)
    /\ date_ltb (mkDate 2023 9 1) (mkDate 2023 10 1) = true.
Proof.
  exists (mkContribution "2023-10-01" 0 "#ebedf0" "No contributions"),
         (mkContribution "2023-9-01" 5 "#40c463" "5 contributions").
  repeat split; reflexivity.
Qed.

(** ** The claims about the parser *)

(** C3, as far as it holds.  The list returned by the parser is sorted in
    ascending order of the date strings; when the date attributes of the
    calendar-day elements of the document are pairwise distinct, the dates
    of the list are pairwise distinct too, and the list is strictly
    increasing. *)
Theorem parser_output_sorted
  (strptime : string -> result calendar_date)
  (int_of_str : string -> result Z)
  (current_date : calendar_date) (soup : Soup) (recs : list Contribution) :
  parse_contribution_data strptime int_of_str current_date soup = Ok recs ->
  StronglySorted date_le recs
  /\ (NoDup (cell_dates (calendar_days soup)) -> StronglySorted date_lt recs).
Proof.
  intros H. apply parse_contribution_data_entries in H. subst recs.
  split; [apply sort_by_date_sorted|].
  intros Hnd. apply sorted_nodup_strict; [apply sort_by_date_sorted|].
  eapply Permutation_NoDup.
  - apply Permutation_map. symmetry. apply sort_by_date_perm.
  - apply day_entries_nodup. exact Hnd.
Qed.

Lemma parser_output_sorted_witness :
  StronglySorted date_le two_days /\ StronglySorted date_lt two_days.
Proof.
  destruct (parser_output_sorted strptime_ymd int_of_string sample_today
              sample_soup (recs := two_days) eq_refl) as [H1 H2].
  split; [exact H1|]. apply H2.
  repeat constructor; cbn; intuition discriminate.
Defined.

(** C3 as stated fails: a document with two cells of the same date gives
    a list in which that date occurs twice. *)
Lemma parser_output_repeats_date :
  exists recs,
    parse_contribution_data strptime_ymd int_of_string sample_today
                            repeated_date_soup = Ok recs
    /\ ~ NoDup (map date recs)
    /\ ~ StronglySorted date_lt recs.
Proof.
  eexists. split; [reflexivity|]. split.
  - intros H. inversion H as [|? ? Hnotin _]; subst.
    apply Hnotin. now left.
  - intros H. inversion H as [|? ? _ Hall]; subst.
    inversion Hall as [|? ? Hlt _]; subst.
    discriminate Hlt.
Qed.

(** C5.  Every record the parser returns carries a date that [strptime]
    reads as the reference day or an earlier day; and the date of a
    calendar-day element that lies after the reference day is the date of
    no record returned. *)
Theorem parser_drops_future_days
  (strptime : string -> result calendar_date)
  (int_of_str : string -> result Z)
  (current_date : calendar_date) (soup : Soup) (recs : list Contribution) :
  parse_contribution_data strptime int_of_str current_date soup = Ok recs ->
  (forall r, In r recs ->
     exists d, strptime (date r) = Ok d /\ on_or_before d current_date)
  /\ (forall td s d,
        In td (calendar_days soup) -> data_date td = Some s ->
        strptime s = Ok d -> date_ltb current_date d = true ->
        ~ In s (map date recs)).
Proof.
  intros H.
  assert (Hrec : forall r, In r recs ->
            exists d, strptime (date r) = Ok d
                      /\ date_ltb current_date d = false).
  { intros r Hin.
    pose proof parse_contribution_data_in as P.
    specialize (P _ _ _ _ _ _ H Hin). destruct P as (td & _ & Hr).
    apply parse_day_entry in Hr. tauto. }
  split.
  - intros r Hin. destruct (Hrec r Hin) as (d & Hd & Hlt).
    exists d. split; [exact Hd|]. now apply date_ltb_false_iff.
  - intros td s d _ _ Hd Hlt Hin.
    apply in_map_iff in Hin. destruct Hin as (r & <- & Hin).
    destruct (Hrec r Hin) as (d' & Hd' & Hlt'). congruence.
Qed.

Lemma parser_drops_future_days_witness :
  (forall r, In r [day_with_five] ->
     exists d, strptime_ymd (date r) = Ok d /\ on_or_before d sample_today)
  /\ ~ In "2024-06-02" (map date [day_with_five]).
Proof.
  destruct (parser_drops_future_days strptime_ymd int_of_string sample_today
              future_soup (recs := [day_with_five]) eq_refl) as [H1 H2].
  split; [exact H1|].
  apply (H2 (mkTd (Some "2024-06-02") (Some "day-2") (Some "0"))
            "2024-06-02" (mkDate 2024 6 2)).
  - right. left. reflexivity.
  - reflexivity.
  - reflexivity.
  - reflexivity.
Defined.

(** C10, as far as it holds.  A calendar-day element whose date attribute
    is present, not empty and rejected by [strptime] makes the whole parse
    raise; an element whose date attribute is absent or empty is skipped
    without an error. *)
Theorem malformed_date_aborts_parse
  (strptime : string -> result calendar_date)
  (int_of_str : string -> result Z)
  (current_date : calendar_date) (soup : Soup) :
  (forall td s e,
     In td (calendar_days soup) -> data_date td = Some s -> s <> "" ->
     strptime s = Raise e ->
     raises (parse_contribution_data strptime int_of_str current_date soup))
  /\ (forall td,
        data_date td = None \/ data_date td = Some "" ->
        parse_day strptime int_of_str current_date soup td = Ok None).
Proof.
  split.
  - intros td s e Hin Hs Hne He.
    assert (Hr : raises (parse_days strptime int_of_str current_date soup
                                    (calendar_days soup) [])).
    { eapply parse_days_raises; [exact Hin|].
      exists e. eapply parse_day_bad_date; eassumption. }
    destruct Hr as [e' He']. exists e'.
    unfold parse_contribution_data. rewrite He'. reflexivity.
  - apply parse_day_no_date.
Qed.

Lemma malformed_date_aborts_parse_witness :
  raises (parse_contribution_data strptime_ymd int_of_string sample_today
                                  bad_date_soup)
  /\ parse_day strptime_ymd int_of_string sample_today empty_date_soup
               (mkTd (Some "") (Some "day-1") (Some "2")) = Ok None.
Proof.
  destruct (malformed_date_aborts_parse strptime_ymd int_of_string
              sample_today bad_date_soup) as [H1 _].
  destruct (malformed_date_aborts_parse strptime_ymd int_of_string
              sample_today empty_date_soup) as [_ H2].
  split.
  - apply (H1 (mkTd (Some "yesterday") (Some "day-2") (Some "0"))
              "yesterday" (ValueError "time data does not match format")).
    + right. left. reflexivity.
    + reflexivity.
    + discriminate.
    + reflexivity.
  - apply H2. right. reflexivity.
Defined.

(** C10 as stated fails: the empty string is not a date, yet a cell whose
    date attribute is the empty string is skipped and the parse returns
    normally. *)
Lemma empty_date_is_skipped :
  data_date (mkTd (Some "") (Some "day-1") (Some "2")) = Some ""
  /\ raises (strptime_ymd "")
  /\ parse_contribution_data strptime_ymd int_of_string sample_today
                             empty_date_soup = Ok []
  /\ ~ raises (parse_contribution_data strptime_ymd int_of_string
                                       sample_today empty_date_soup).
Proof.
  split; [reflexivity|]. split; [eexists; reflexivity|].
  split; [reflexivity|].
  intros [e He]. discriminate He.
Qed.

(** * Properties of the fetcher *)

Lemma key_eqb_refl (k : Key) : key_eqb k k = true.
Proof.
  destruct k as [[u f] t]. cbn. now rewrite !String.eqb_refl.
Qed.

Lemma key_eqb_eq (a b : Key) : key_eqb a b = true -> a = b.
Proof.
  destruct a as [[u1 f1] t1], b as [[u2 f2] t2]. cbn.
  intros H. apply andb_prop in H. destruct H as [H Ht].
  apply andb_prop in H. destruct H as [Hu Hf].
  apply String.eqb_eq in Hu, Hf, Ht. congruence.
Qed.

Lemma key_eqb_sym (a b : Key) : key_eqb a b = key_eqb b a.
Proof.
  destruct a as [[u1 f1] t1], b as [[u2 f2] t2]. cbn.
  now rewrite (String.eqb_sym u1), (String.eqb_sym f1), (String.eqb_sym t1).
Qed.

Lemma cached_within_lookup (n : nat) (k : Key) (v : string) (c : Cache) :
  cached_within n k v c -> cache_lookup k c = Some v.
Proof.
  intros (pre & post & -> & Hpre & _).
  induction Hpre as [|[k' v'] pre Hk _ IH]; cbn.
  - now rewrite key_eqb_refl.
  - cbn in Hk. now rewrite Hk.
Qed.

Lemma cached_within_weaken (n m : nat) (k : Key) (v : string) (c : Cache) :
  cached_within n k v c -> (n <= m)%nat -> cached_within m k v c.
Proof.
  intros (pre & post & Hc & Hpre & Hlen) Hnm.
  exists pre, post. repeat split; auto. lia.
Qed.

Lemma cache_remove_app (k : Key) (a b : Cache) :
  cache_remove k (a ++ b) = cache_remove k a ++ cache_remove k b.
Proof. apply filter_app. Qed.

Lemma cache_remove_length (k : Key) (c : Cache) :
  (List.length (cache_remove k c) <= List.length c)%nat.
Proof. apply filter_length_le. Qed.

(** A hit on another key keeps the entry and moves it back by at most one
    place. *)
Lemma cached_within_touch (n : nat) (k k' : Key) (v v' : string) (c : Cache) :
  cached_within n k v c -> k' <> k ->
  cached_within (S n) k v (cache_touch k' v' c).
Proof.
  intros (pre & post & -> & Hpre & Hlen) Hneq.
  assert (Hkk : key_eqb k' k = false).
  { destruct (key_eqb k' k) eqn:E; [|reflexivity].
    apply key_eqb_eq in E. contradiction. }
  exists ((k', v') :: cache_remove k' pre), (cache_remove k' post).
  split; [|split].
  - unfold cache_touch. rewrite cache_remove_app.
    unfold cache_remove at 2. cbn [filter fst]. rewrite Hkk. reflexivity.
  - constructor.
    + cbn. now rewrite key_eqb_sym.
    + unfold cache_remove. apply Forall_forall. intros e He.
      apply filter_In in He. rewrite Forall_forall in Hpre.
      apply Hpre. tauto.
  - cbn [List.length]. pose proof (cache_remove_length k' pre). lia.
Qed.

(** Storing another key keeps the entry while fewer than [maxsize - 1]
    entries were used more recently. *)
Lemma cached_within_store (n : nat) (k k' : Key) (v v' : string) (c : Cache) :
  cached_within n k v c -> k' <> k -> (S n < maxsize)%nat ->
  cached_within (S n) k v (cache_store k' v' c).
Proof.
  intros (pre & post & -> & Hpre & Hlen) Hneq Hn.
  assert (Hkk : key_eqb k k' = false).
  { destruct (key_eqb k k') eqn:E; [|reflexivity].
    apply key_eqb_eq in E. congruence. }
  unfold cache_store.
  destruct (Nat.leb_spec maxsize (List.length (pre ++ (k, v) :: post)))
    as [Hfull|Hroom].
  - destruct post as [|p post'].
    { rewrite length_app in Hfull. cbn in Hfull. lia. }
    exists ((k', v') :: pre), (removelast (p :: post')).
    split; [|split].
    + rewrite removelast_app by discriminate.
      change (removelast ((k, v) :: p :: post'))
        with ((k, v) :: removelast (p :: post')).
      reflexivity.
    + constructor; [exact Hkk | exact Hpre].
    + cbn [List.length]. lia.
  - exists ((k', v') :: pre), post.
    split; [reflexivity|]. split.
    + constructor; [exact Hkk | exact Hpre].
    + cbn [List.length]. lia.
Qed.

Section FetcherProperties.

Variable requests_get : nat -> string -> Response.

Local Abbreviation fetch := (fetch_github_data requests_get).

(** A call that returns normally leaves its value as the most recently
    used entry. *)
Lemma fetch_ok_cached (k : Key) (st st1 : Cache * World) (v : string) :
  fetch k st = (Ok v, st1) -> cached_within 0 k v (fst st1).
Proof.
  destruct st as [cache w]. unfold fetch_github_data.
  destruct (cache_lookup k cache) as [v0|].
  - intros [= <- <-]. exists [], (cache_remove k cache).
    repeat split; auto.
  - destruct (fetch_uncached requests_get k w) as [[v0|e] w'].
    + intros [= <- <-]. eexists [], _.
      split; [reflexivity|]. split; [constructor | cbn; lia].
    + discriminate.
Qed.

(** A hit returns the stored value and leaves the world as it is. *)
Lemma fetch_hit (n : nat) (k : Key) (v : string) (st : Cache * World) :
  cached_within n k v (fst st) ->
  fetch k st = (Ok v, (cache_touch k v (fst st), snd st)).
Proof.
  destruct st as [cache w]. cbn [fst snd]. intros H.
  unfold fetch_github_data. now rewrite (cached_within_lookup H).
Qed.

(** One call, for any key, moves the entry back by at most one place. *)
Lemma fetch_keeps_entry (n : nat) (k k' : Key) (v : string)
      (st : Cache * World) :
  cached_within n k v (fst st) -> (S n < maxsize)%nat ->
  cached_within (S n) k v (fst (snd (fetch k' st))).
Proof.
  destruct st as [cache w]. cbn [fst]. intros H Hn.
  pose proof (cached_within_lookup H) as Hk.
  unfold fetch_github_data.
  destruct (cache_lookup k' cache) as [v'|] eqn:Hk'.
  - cbn [fst snd].
    destruct (key_eqb k' k) eqn:E.
    + apply key_eqb_eq in E. subst k'.
      assert (v' = v) by congruence. subst v'.
      exists [], (cache_remove k cache).
      split; [reflexivity|]. split; [constructor | cbn; lia].
    + apply cached_within_touch; [exact H|].
      intros ->. rewrite key_eqb_refl in E. discriminate.
  - assert (Hneq : k' <> k) by (intros ->; congruence).
    destruct (fetch_uncached requests_get k' w) as [[v'|e] w']; cbn [fst snd].
    + now apply cached_within_store.
    + eapply cached_within_weaken; [exact H | lia].
Qed.

Lemma run_calls_keeps_entry (mid : list Key) : forall n k v st,
  cached_within n k v (fst st) -> (n + List.length mid < maxsize)%nat ->
  cached_within (n + List.length mid) k v (fst (run_calls requests_get mid st)).
Proof.
  induction mid as [|k' rest IH]; intros n k v st H Hlen;
    cbn [run_calls fold_left List.length] in *.
  - now rewrite Nat.add_0_r.
  - replace (n + S (List.length rest))%nat
      with (S n + List.length rest)%nat by lia.
    apply IH; [|lia].
    apply fetch_keeps_entry; [exact H | lia].
Qed.

End FetcherProperties.

(** ** The claims about the fetcher *)

(** C7, as far as it holds.  When a call returns normally, a later call
    with the same arguments returns the same markup from the cache and
    sends no request, provided fewer than [maxsize] calls were made in
    between. *)
Theorem repeated_fetch_uses_cache
  (requests_get : nat -> string -> Response)
  (k : Key) (v : string) (st st1 : Cache * World) (mid : list Key) :
  fetch_github_data requests_get k st = (Ok v, st1) ->
  (List.length mid < maxsize)%nat ->
  let st2 := run_calls requests_get mid st1 in
  fetch_github_data requests_get k st2
  = (Ok v, (cache_touch k v (fst st2), snd st2)).
Proof.
  intros Hfirst Hlen st2.
  apply fetch_hit with (n := (0 + List.length mid)%nat).
  apply run_calls_keeps_entry; [|exact Hlen].
  eapply fetch_ok_cached. exact Hfirst.
Qed.

Lemma repeated_fetch_uses_cache_witness :
  let st1 := snd (fetch_github_data changing_upstream octocat_key
                                    fresh_process) in
  let st2 := run_calls changing_upstream [other_key 1; other_key 2] st1 in
  fetch_github_data changing_upstream octocat_key st2
  = (Ok "first", (cache_touch octocat_key "first" (fst st2), snd st2)).
Proof.
  apply repeated_fetch_uses_cache with (st := fresh_process).
  - reflexivity.
  - cbn. unfold maxsize. lia.
Defined.

(** C7 as stated fails: after a call that returns normally, [maxsize]
    calls for other accounts push the entry out of the cache, and the next
    call with the first arguments sends a second request for the same
    address and returns what the upstream answers then. *)
Lemma evicted_entry_is_fetched_again :
  let first := fetch_github_data changing_upstream octocat_key fresh_process in
  let st2 := run_calls changing_upstream hundred_other_calls (snd first) in
  let second := fetch_github_data changing_upstream octocat_key st2 in
  fst first = Ok "first"
  /\ fst second = Ok "later"
  /\ requests_sent (snd (snd second))
     = requests_sent (snd st2) ++ [contributions_url octocat_key]
  /\ count_occ string_dec (requests_sent (snd (snd second)))
               (contributions_url octocat_key) = 2%nat.
Proof.
  vm_compute. repeat split; reflexivity.
Qed.

(** C8.  The function under the cache raises [NotFound] exactly when the
    status of the upstream response is 404, raises [UpstreamError] for
    every other status that is not 200, and returns the text of the
    response when the status is 200; a call whose arguments are not in the
    cache has the result of that function. *)
Theorem fetch_outcome_by_status
  (requests_get : nat -> string -> Response) (k : Key) (w : World) :
  let response :=
    requests_get (List.length (requests_sent w)) (contributions_url k) in
  let outcome := fst (fetch_uncached requests_get k w) in
  (outcome = Raise NotFound <-> status_code response = 404)
  /\ (status_code response <> 404 -> status_code response <> 200 ->
      outcome = Raise UpstreamError)
  /\ (status_code response = 200 -> outcome = Ok (text response))
  /\ (forall cache, cache_lookup k cache = None ->
        fst (fetch_github_data requests_get k (cache, w)) = outcome).
Proof.
  cbv zeta. unfold fetch_uncached.
  set (response := requests_get (List.length (requests_sent w))
                                (contributions_url k)).
  repeat split.
  - destruct (Z.eqb_spec (status_code response) 404) as [E|E]; [auto|].
    destruct (Z.eqb_spec (status_code response) 200); cbn; discriminate.
  - intros E. rewrite E. reflexivity.
  - intros H404 H200.
    destruct (Z.eqb_spec (status_code response) 404); [contradiction|].
    destruct (Z.eqb_spec (status_code response) 200); [contradiction|].
    reflexivity.
  - intros E. rewrite E. reflexivity.
  - intros cache Hmiss. unfold fetch_github_data. rewrite Hmiss.
    unfold fetch_uncached. fold response.
    destruct (Z.eqb_spec (status_code response) 404); [reflexivity|].
    destruct (Z.eqb_spec (status_code response) 200); reflexivity.
Qed.

Lemma fetch_outcome_by_status_witness :
  fst (fetch_github_data picky_upstream ("ghost", "2024-01-01", "2024-12-31")
                         fresh_process) = Raise NotFound
  /\ fst (fetch_uncached picky_upstream ("hubot", "2024-01-01", "2024-12-31")
                         (snd fresh_process)) = Raise UpstreamError
  /\ fst (fetch_uncached picky_upstream octocat_key (snd fresh_process))
     = Ok "<html>octocat</html>".
Proof.
  split; [|split].
  - destruct (fetch_outcome_by_status picky_upstream
                ("ghost", "2024-01-01", "2024-12-31") (snd fresh_process))
      as (H404 & _ & _ & Hmiss).
    unfold fresh_process. rewrite Hmiss by reflexivity.
    apply H404. reflexivity.
  - destruct (fetch_outcome_by_status picky_upstream
                ("hubot", "2024-01-01", "2024-12-31") (snd fresh_process))
      as (_ & Hother & _ & _).
    apply Hother; discriminate.
  - destruct (fetch_outcome_by_status picky_upstream octocat_key
                (snd fresh_process)) as (_ & _ & H200 & _).
    apply H200. reflexivity.
Defined.

(** * Further properties of the statistics calculator *)

Section CalculatorFacts.

Implicit Types (l : list Contribution) (r : Contribution) (xs : list Z).

Lemma full_statistics_inv l s :
  calculate_statistics l = Ok (FullStatistics s) ->
  l <> []
  /\ total_contributions s = py_sum (map contributions l)
  /\ max_contributions_day s
     = fold_left (max_step contributions) (tl l)
                 (hd (mkContribution "" 0 "" "") l)
  /\ streak s = streak_spec l
  /\ active_days s = count_if (fun c => 0 <? c) (map contributions l)
  /\ inactive_days s = count_if (fun c => c =? 0) (map contributions l)
  /\ statistics_median (map contributions l)
     = Ok (median_daily_contributions s).
Proof.
  intros H. apply calculate_statistics_inv in H.
  destruct H as (Hne & _ & Hmedian & Hs).
  rewrite Hs at 1 2 3 4 5. cbn.
  rewrite streak_refines_spec. repeat split; auto.
Qed.

Lemma count_if_app (A : Type) (p : A -> bool) (a b : list A) :
  count_if p (a ++ b) = (count_if p a + count_if p b)%nat.
Proof. unfold count_if. now rewrite filter_app, length_app. Qed.

Lemma active_count_positive l :
  Forall positive l ->
  count_if (fun c => 0 <? c) (map contributions l) = List.length l.
Proof.
  unfold count_if. induction 1 as [|r t Hr _ IH]; [reflexivity|].
  cbn [map filter]. apply Z.ltb_lt in Hr. rewrite Hr.
  cbn [List.length]. now rewrite IH.
Qed.

Lemma active_count_none l :
  (forall r, In r l -> ~ positive r) ->
  count_if (fun c => 0 <? c) (map contributions l) = 0%nat.
Proof.
  unfold count_if. induction l as [|r t IH]; intros H; [reflexivity|].
  cbn [map filter].
  destruct (Z.ltb_spec 0 (contributions r)) as [Hr|Hr].
  - exfalso. apply (H r); [now left | exact Hr].
  - apply IH. intros r' Hin. apply H. now right.
Qed.

(** A run of [l] is not longer than the number of records of [l] with a
    positive count. *)
Lemma run_le_active l a b c :
  l = a ++ b ++ c -> Forall positive b ->
  Nat.le (List.length b) (count_if (fun c => 0 <? c) (map contributions l)).
Proof.
  intros -> Hpos. rewrite !map_app, !count_if_app.
  rewrite (active_count_positive Hpos). lia.
Qed.

Lemma streak_spec_le_active l :
  Nat.le (Streak.length (streak_spec l))
         (count_if (fun c => 0 <? c) (map contributions l)).
Proof.
  destruct (streak_spec_longest_run l) as [_ H].
  destruct (Streak.end_date (streak_spec l)) as [d|].
  - destruct H as (a & b & r & c & Hl & Hpos & Hlen & _).
    rewrite <- Hlen. eapply run_le_active; eassumption.
  - rewrite H. lia.
Qed.

Lemma streak_spec_no_date l :
  Streak.end_date (streak_spec l) = None
  <-> Streak.length (streak_spec l) = 0%nat.
Proof.
  destruct (streak_spec_longest_run l) as [_ H].
  destruct (Streak.end_date (streak_spec l)) as [d|].
  - destruct H as (a & b & r & c & _ & _ & Hlen & _).
    rewrite length_app in Hlen. cbn in Hlen.
    split; [discriminate|]. intros Hz.
    unfold streak_spec in Hz. cbn [Streak.length] in Hz. lia.
  - tauto.
Qed.

Lemma streak_spec_zero_iff l :
  Streak.length (streak_spec l) = 0%nat
  <-> count_if (fun c => 0 <? c) (map contributions l) = 0%nat.
Proof.
  split.
  - intros Hz. apply active_count_none. intros r Hin Hr.
    apply in_split in Hin. destruct Hin as (a & c & ->).
    destruct (streak_spec_longest_run (a ++ r :: c)) as [Hmax _].
    specialize (Hmax a [r] c eq_refl (Forall_cons r Hr (Forall_nil _))).
    rewrite Hz in Hmax. cbn in Hmax. lia.
  - pose proof (streak_spec_le_active l). lia.
Qed.

Lemma py_sum_nonneg xs : Forall (fun c => 0 <= c) xs -> 0 <= py_sum xs.
Proof.
  induction 1 as [|x t Hx _ IH]; [cbn; lia|]. rewrite py_sum_cons. lia.
Qed.

Lemma py_sum_ge_member xs x :
  Forall (fun c => 0 <= c) xs -> In x xs -> x <= py_sum xs.
Proof.
  induction 1 as [|y t Hy Ht IH]; intros Hin; [contradiction|].
  rewrite py_sum_cons. pose proof (py_sum_nonneg Ht).
  destruct Hin as [->|Hin]; [lia|]. specialize (IH Hin). lia.
Qed.

Lemma active_le_sum xs :
  Forall (fun c => 0 <= c) xs ->
  Z.of_nat (count_if (fun c => 0 <? c) xs) <= py_sum xs.
Proof.
  unfold count_if. induction 1 as [|x t Hx _ IH]; [cbn; lia|].
  rewrite py_sum_cons. cbn [filter].
  destruct (Z.ltb_spec 0 x); cbn [List.length]; lia.
Qed.

Lemma median_odd_member xs (q : Q) :
  statistics_median xs = Ok q ->
  Nat.odd (List.length xs) = true ->
  exists c, In c xs /\ q = inject_Z c.
Proof.
  intros Hq Hodd. unfold statistics_median in Hq.
  rewrite sorted_ints_length in Hq.
  rewrite Hodd in Hq.
  destruct (List.length xs) as [|n'] eqn:Hn; [discriminate|].
  assert (Hlt : (S n' / 2 < S n')%nat) by (apply Nat.div_lt; lia).
  injection Hq as <-.
  eexists. split; [|reflexivity].
  apply sorted_ints_in, nth_In. rewrite sorted_ints_length, Hn.
  exact Hlt.
Qed.

End CalculatorFacts.

(** X1.  In every populated summary the streak is not longer than the
    number of active days. *)
Theorem streak_at_most_active_days (l : list Contribution) (s : Summary) :
  calculate_statistics l = Ok (FullStatistics s) ->
  (Streak.length (streak s) <= active_days s)%nat.
Proof.
  intros H. apply full_statistics_inv in H.
  destruct H as (_ & _ & _ & Hstreak & Hactive & _).
  rewrite Hstreak, Hactive. apply streak_spec_le_active.
Qed.

Lemma streak_at_most_active_days_witness :
  exists s, calculate_statistics two_days = Ok (FullStatistics s)
            /\ (Streak.length (streak s) <= active_days s)%nat.
Proof.
  eexists. split; [reflexivity|].
  apply streak_at_most_active_days with (l := two_days). reflexivity.
Defined.

(** X2.  In every populated summary the streak has no end date exactly
    when its length is 0, and that is exactly when there is no active
    day. *)
Theorem streak_absent_iff_no_active_day (l : list Contribution) (s : Summary) :
  calculate_statistics l = Ok (FullStatistics s) ->
  (Streak.end_date (streak s) = None <-> active_days s = 0%nat)
  /\ (Streak.length (streak s) = 0%nat <-> active_days s = 0%nat).
Proof.
  intros H. apply full_statistics_inv in H.
  destruct H as (_ & _ & _ & Hstreak & Hactive & _).
  rewrite Hstreak, Hactive.
  split; [rewrite streak_spec_no_date|]; apply streak_spec_zero_iff.
Qed.

Lemma streak_absent_iff_no_active_day_witness :
  exists s, calculate_statistics idle_days = Ok (FullStatistics s)
            /\ Streak.end_date (streak s) = None
            /\ active_days s = 0%nat.
Proof.
  eexists. split; [reflexivity|].
  destruct (@streak_absent_iff_no_active_day idle_days _ eq_refl)
    as [[H _] _].
  split; [reflexivity|]. apply H. reflexivity.
Defined.

(** X3.  For records with non-negative counts, the total is at least the
    number of active days and at least the count of the maximal day, and at
    most that count times the number of records. *)
Theorem total_between_max_and_product (l : list Contribution) (s : Summary) :
  calculate_statistics l = Ok (FullStatistics s) ->
  Forall (fun r => 0 <= contributions r) l ->
  Z.of_nat (active_days s) <= total_contributions s
  /\ contributions (max_contributions_day s) <= total_contributions s
  /\ total_contributions s
     <= contributions (max_contributions_day s) * Z.of_nat (List.length l).
Proof.
  intros H Hpos. apply full_statistics_inv in H.
  destruct H as (Hne & Htotal & Hmax & _ & Hactive & _).
  rewrite Htotal, Hactive, Hmax.
  assert (Hcounts : Forall (fun c => 0 <= c) (map contributions l))
    by (apply Forall_map; exact Hpos).
  destruct l as [|x rest]; [congruence|]. cbn [hd tl].
  destruct (max_scan_first contributions rest x)
    as (pre & post & Heq & Hpre & Hpost).
  set (m := fold_left (max_step contributions) rest x) in *.
  split; [now apply active_le_sum|]. split.
  - apply py_sum_ge_member; [exact Hcounts|].
    apply in_map. rewrite Heq. apply in_elt.
  - rewrite <- (length_map contributions).
    apply (@py_sum_bounds (map contributions (x :: rest)) 0 (contributions m)).
    apply Forall_map. rewrite Heq. rewrite Heq in Hpos.
    apply Forall_app in Hpos. destruct Hpos as [Hp1 Hp2].
    apply Forall_app. split.
    + rewrite Forall_forall in *. intros r Hr.
      specialize (Hpre r Hr). specialize (Hp1 r Hr). cbn in *. lia.
    + inversion Hp2 as [|? ? Hm Hp3]; subst. constructor; [lia|].
      rewrite Forall_forall in *. intros r Hr.
      specialize (Hpost r Hr). specialize (Hp3 r Hr). cbn in *. lia.
Qed.

Lemma total_between_max_and_product_witness :
  exists s, calculate_statistics two_days = Ok (FullStatistics s)
            /\ Z.of_nat (active_days s) <= total_contributions s
            /\ contributions (max_contributions_day s) <= total_contributions s
            /\ total_contributions s
               <= contributions (max_contributions_day s) * 2.
Proof.
  eexists. split; [reflexivity|].
  apply total_between_max_and_product with (l := two_days).
  - reflexivity.
  - repeat constructor; cbn; lia.
Defined.

(** X4.  For an odd number of records, the median of the summary is the
    count of one of the records. *)
Theorem median_of_odd_list_is_a_count (l : list Contribution) (s : Summary) :
  calculate_statistics l = Ok (FullStatistics s) ->
  Nat.odd (List.length l) = true ->
  exists r, In r l
            /\ median_daily_contributions s = inject_Z (contributions r).
Proof.
  intros H Hodd. apply full_statistics_inv in H.
  destruct H as (_ & _ & _ & _ & _ & _ & Hmedian).
  apply median_odd_member in Hmedian;
    [|now rewrite length_map].
  destruct Hmedian as (c & Hc & ->).
  apply in_map_iff in Hc. destruct Hc as (r & <- & Hr). eauto.
Qed.

Lemma median_of_odd_list_is_a_count_witness :
  exists s r,
    calculate_statistics [day_with_five] = Ok (FullStatistics s)
    /\ In r [day_with_five]
    /\ median_daily_contributions s = inject_Z (contributions r).
Proof.
  eexists.
  destruct (@median_of_odd_list_is_a_count [day_with_five] _ eq_refl eq_refl)
    as (r & Hr & Hm).
  exists r. split; [reflexivity|]. split; [exact Hr | exact Hm].
Defined.

(** X5.  The streak of a block of adjacent records is not longer than the
    streak of the list that contains the block. *)
Theorem streak_of_part_is_shorter (a b c : list Contribution) :
  (Streak.length (calculate_longest_streak b)
   <= Streak.length (calculate_longest_streak (a ++ b ++ c)))%nat.
Proof.
  rewrite !streak_refines_spec.
  destruct (streak_spec_longest_run b) as [_ Hb].
  destruct (streak_spec_longest_run (a ++ b ++ c)) as [Hmax _].
  destruct (Streak.end_date (streak_spec b)) as [d|].
  - destruct Hb as (a' & b' & r & c' & Hl & Hpos & Hlen & _).
    rewrite <- Hlen.
    apply (Hmax (a ++ a') (b' ++ [r]) (c' ++ c)); [|exact Hpos].
    rewrite Hl, <- !app_assoc. reflexivity.
  - rewrite Hb. lia.
Qed.

(** * Further properties of the parser *)

Lemma dict_getitem_colors_in (level : Z) (color : string) :
  dict_getitem CONTRIBUTION_COLORS level = Ok color ->
  0 <= level <= 4 /\ In color (map snd CONTRIBUTION_COLORS).
Proof.
  unfold CONTRIBUTION_COLORS. cbn [dict_getitem map snd].
  repeat match goal with
         | |- context [?a =? level] =>
           destruct (Z.eqb_spec a level);
             [intros [= <-]; split; [lia | cbn; tauto]|]
         end.
  discriminate.
Qed.

Lemma dict_getitem_colors_missing (level : Z) :
  level < 0 \/ 4 < level ->
  dict_getitem CONTRIBUTION_COLORS level = Raise (KeyError level).
Proof.
  intros H. unfold CONTRIBUTION_COLORS. cbn [dict_getitem].
  repeat match goal with
         | |- context [?a =? level] =>
           destruct (Z.eqb_spec a level); [lia|]
         end.
  reflexivity.
Qed.

Lemma read_digits_all (ds : string) : forall acc c rest,
  all_digits ds = true -> is_digit c = false ->
  read_digits acc (ds ++ String c rest)
  = (fold_left (fun acc a => 10 * acc + digit_value a)
               (list_ascii_of_string ds) acc,
     String c rest).
Proof.
  induction ds as [|a t IH]; intros acc c rest Hall Hc.
  - cbn. now rewrite Hc.
  - unfold all_digits in Hall. cbn [list_ascii_of_string forallb] in Hall.
    apply andb_prop in Hall. destruct Hall as [Ha Ht].
    cbn [String.append read_digits list_ascii_of_string fold_left].
    rewrite Ha. now apply IH.
Qed.

Lemma search_count_skip (p s : string) :
  no_digit p = true -> search_count (p ++ s) = search_count s.
Proof.
  induction p as [|a t IH]; intros Hp; [reflexivity|].
  unfold no_digit in Hp. cbn [list_ascii_of_string forallb] in Hp.
  apply andb_prop in Hp. destruct Hp as [Ha Ht].
  apply negb_true_iff in Ha.
  cbn [String.append search_count]. unfold match_count_here at 1.
  rewrite Ha. now apply IH.
Qed.

Lemma search_count_no_digit (s : string) :
  no_digit s = true -> search_count s = None.
Proof.
  induction s as [|a t IH]; intros H; [reflexivity|].
  unfold no_digit in H. cbn [list_ascii_of_string forallb] in H.
  apply andb_prop in H. destruct H as [Ha Ht].
  apply negb_true_iff in Ha.
  cbn [search_count]. unfold match_count_here. rewrite Ha. now apply IH.
Qed.

Lemma filter_none (A : Type) (p : A -> bool) (l : list A) :
  (forall y, In y l -> p y = false) -> filter p l = [].
Proof.
  induction l as [|x t IH]; intros H; [reflexivity|].
  cbn. rewrite (H x) by now left. apply IH. intros y Hy. apply H. now right.
Qed.

Lemma string_ltb_not_leb (s1 s2 : string) :
  String.ltb s1 s2 = true -> String.leb s2 s1 = true -> False.
Proof.
  unfold String.ltb, String.leb. rewrite (String.compare_antisym s2 s1).
  destruct (String.compare s1 s2); cbn; congruence.
Qed.

(** In a sorted list the new entry goes behind the entries of its own
    date. *)
Lemma insert_by_date_filter (d : string) (c : Contribution)
      (l : list Contribution) :
  StronglySorted date_le l ->
  filter (fun x => String.eqb (date x) d) (insert_by_date c l)
  = filter (fun x => String.eqb (date x) d) l
    ++ filter (fun x => String.eqb (date x) d) [c].
Proof.
  induction 1 as [|x t Hsorted IH Hx].
  - reflexivity.
  - cbn [insert_by_date].
    destruct (String.ltb (date c) (date x)) eqn:Hcx.
    + change (c :: x :: t) with ([c] ++ x :: t). rewrite filter_app.
      destruct (String.eqb (date c) d) eqn:E.
      * apply String.eqb_eq in E.
        rewrite (@filter_none _ _ (x :: t)); [now rewrite app_nil_r|].
        intros y Hy. apply String.eqb_neq. intros Ey.
        assert (Hxy : String.leb (date x) (date y) = true).
        { destruct Hy as [<-|Hy]; [apply string_leb_refl|].
          rewrite Forall_forall in Hx. now apply Hx. }
        apply (@string_ltb_not_leb (date c) (date y)).
        -- apply string_leb_cases in Hxy. destruct Hxy as [Hxy|Hxy].
           ++ eapply string_ltb_trans; eassumption.
           ++ now rewrite <- Hxy.
        -- rewrite Ey, E. apply string_leb_refl.
      * assert (Hc : filter (fun x0 => String.eqb (date x0) d) [c] = []).
        { cbn [filter]. now rewrite E. }
        rewrite Hc. cbn [app]. now rewrite app_nil_r.
    + cbn [filter]. rewrite IH.
      destruct (String.eqb (date x) d); reflexivity.
Qed.

Lemma sort_by_date_fold_filter (d : string) (l : list Contribution) :
  forall acc, StronglySorted date_le acc ->
  filter (fun x => String.eqb (date x) d)
         (fold_left (fun acc c => insert_by_date c acc) l acc)
  = filter (fun x => String.eqb (date x) d) acc
    ++ filter (fun x => String.eqb (date x) d) l.
Proof.
  induction l as [|c t IH]; intros acc Hacc; cbn [fold_left].
  - now rewrite app_nil_r.
  - rewrite IH by now apply insert_by_date_sorted.
    rewrite insert_by_date_filter by exact Hacc.
    rewrite <- app_assoc. f_equal.
    change (c :: t) with ([c] ++ t). now rewrite filter_app.
Qed.

Lemma insert_by_date_last (c : Contribution) (l : list Contribution) :
  Forall (fun x => date_le x c) l -> insert_by_date c l = l ++ [c].
Proof.
  induction 1 as [|x t Hx _ IH]; [reflexivity|].
  cbn [insert_by_date app].
  destruct (String.ltb (date c) (date x)) eqn:Hcx.
  - exfalso. eapply string_ltb_not_leb; [exact Hcx | exact Hx].
  - now rewrite IH.
Qed.

Lemma sorted_app_le (acc : list Contribution) (c : Contribution)
      (t : list Contribution) :
  StronglySorted date_le (acc ++ c :: t) ->
  Forall (fun x => date_le x c) acc.
Proof.
  induction acc as [|a acc' IH]; cbn [app]; intros H; [constructor|].
  inversion H as [|? ? Hs Ha]; subst.
  constructor; [|now apply IH].
  rewrite Forall_forall in Ha. apply Ha. apply in_elt.
Qed.

Lemma sort_by_date_fold_sorted (l : list Contribution) :
  forall acc, StronglySorted date_le (acc ++ l) ->
  fold_left (fun acc c => insert_by_date c acc) l acc = acc ++ l.
Proof.
  induction l as [|c t IH]; intros acc H; cbn [fold_left].
  - now rewrite app_nil_r.
  - rewrite (insert_by_date_last (sorted_app_le _ _ _ H)).
    rewrite IH; rewrite <- app_assoc; [reflexivity | exact H].
Qed.

(** X9.  The sort is stable: the records of one date come out in the
    order in which they went in. *)
Theorem sort_keeps_order_of_equal_dates (d : string) (l : list Contribution) :
  filter (fun x => String.eqb (date x) d) (sort_by_date l)
  = filter (fun x => String.eqb (date x) d) l.
Proof.
  unfold sort_by_date.
  rewrite sort_by_date_fold_filter by constructor. reflexivity.
Qed.

(** X10.  A list that is already in ascending order of its dates is
    returned as it is. *)
Theorem sort_leaves_sorted_list (l : list Contribution) :
  StronglySorted date_le l -> sort_by_date l = l.
Proof.
  intros H. unfold sort_by_date.
  now rewrite sort_by_date_fold_sorted.
Qed.

Lemma sort_leaves_sorted_list_witness : sort_by_date two_days = two_days.
Proof.
  apply sort_leaves_sorted_list.
  repeat constructor.
Defined.

Lemma search_count_here (s : string) (n : Z) :
  match_count_here s = Some n -> search_count s = Some n.
Proof. intros H. destruct s; cbn [search_count]; now rewrite H. Qed.

Lemma match_count_here_digits (ds rest : string) :
  all_digits ds = true -> ds <> EmptyString ->
  match_count_here (ds ++ String " "%char ("contribution" ++ rest))
  = Some (decimal_value ds).
Proof.
  intros Hds Hne. unfold match_count_here.
  rewrite read_digits_all by (exact Hds || reflexivity).
  destruct ds as [|a t]; [congruence|].
  assert (Ha : is_digit a = true).
  { unfold all_digits in Hds. cbn [list_ascii_of_string forallb] in Hds.
    now apply andb_prop in Hds. }
  cbn [String.append]. rewrite Ha. destruct rest; reflexivity.
Qed.

(** X8.  For an ASCII text that has no digit in front of a run of at most
    [max_str_digits] digits followed by " contribution", the count read
    from it is the number those digits denote, whatever follows; an ASCII
    text without any digit gives no match, which the parser counts as
    0. *)
Theorem count_is_number_before_contribution :
  (forall p ds rest : string,
     is_ascii_text p = true -> no_digit p = true ->
     all_digits ds = true -> ds <> EmptyString ->
     (String.length ds <= max_str_digits)%nat ->
     search_count (p ++ ds ++ " contribution" ++ rest)%string
     = Some (decimal_value ds))
  /\ (forall s : string,
        is_ascii_text s = true -> no_digit s = true ->
        search_count s = None).
Proof.
  split; [|intros s _; apply search_count_no_digit].
  intros p ds rest _ Hp Hds Hne _.
  rewrite search_count_skip by exact Hp.
  apply search_count_here.
  change (" contribution" ++ rest)%string
    with (String " "%char ("contribution" ++ rest)%string).
  now apply match_count_here_digits.
Qed.

Lemma count_is_number_before_contribution_witness :
  search_count "On Monday: 12 contributions, 3 of them on 1 repository"
  = Some 12
  /\ search_count "No contributions" = None.
Proof.
  destruct count_is_number_before_contribution as [H1 H2].
  split.
  - apply (H1 "On Monday: " "12" "s, 3 of them on 1 repository");
      [reflexivity | reflexivity | reflexivity | discriminate
       | apply Nat.leb_le; reflexivity].
  - apply H2; reflexivity.
Defined.

Section ParserFacts.

Variable strptime : string -> result calendar_date.
Variable int_of_str : string -> result Z.
Variable current_date : calendar_date.
Variable soup : Soup.

Local Abbreviation loop_body := (parse_day strptime int_of_str current_date soup).
Local Abbreviation parse :=
  (parse_contribution_data strptime int_of_str current_date soup).

(** What the loop body computes for an element that passes the tests on
    its date and has a tooltip. *)
Lemma parse_day_passes (td : Td) (s : string) (d : calendar_date)
      (tip : string) :
  data_date td = Some s -> s <> "" -> strptime s = Ok d ->
  date_ltb current_date d = false -> tool_tip soup (id td) = Some tip ->
  loop_body td =
  (level <- match data_level td with
            | Some ls => int_of_str ls
            | None => Ok 0
            end ;;
   color <- dict_getitem CONTRIBUTION_COLORS level ;;
   Ok (Some {| date := s;
               contributions := match search_count (strip tip) with
                                | Some n => n
                                | None => 0
                                end;
               colorCode := color;
               description := strip tip |})).
Proof.
  intros Hs Hne Hd Hlt Htip. unfold parse_day. rewrite Hs.
  destruct s as [|a t]; [congruence|].
  rewrite Hd. cbn [bind]. rewrite Hlt, Htip. reflexivity.
Qed.

(** Where the fields of an appended entry come from. *)
Lemma parse_day_entry_fields (td : Td) (c : Contribution) :
  loop_body td = Ok (Some c) ->
  exists tip level,
    tool_tip soup (id td) = Some tip
    /\ description c = strip tip
    /\ contributions c = match search_count (strip tip) with
                         | Some n => n
                         | None => 0
                         end
    /\ match data_level td with
       | Some ls => int_of_str ls
       | None => Ok 0
       end = Ok level
    /\ dict_getitem CONTRIBUTION_COLORS level = Ok (colorCode c).
Proof.
  intros H. pose proof H as H'. apply parse_day_entry in H'.
  destruct H' as (Hd & Hne & (d & Hp & Hlt) & _).
  destruct (tool_tip soup (id td)) as [tip|] eqn:Htip.
  - rewrite (@parse_day_passes td _ d tip Hd Hne Hp Hlt Htip) in H.
    destruct (match data_level td with
              | Some ls => int_of_str ls
              | None => Ok 0
              end) as [level|e]; cbn [bind] in H; [|discriminate].
    destruct (dict_getitem CONTRIBUTION_COLORS level) as [color|e] eqn:Hcol;
      cbn [bind] in H; [|discriminate].
    injection H as <-. exists tip, level. cbn. auto.
  - unfold parse_day in H. rewrite Hd in H.
    destruct (date c) as [|a t]; [congruence|].
    rewrite Hp in H. cbn [bind] in H. rewrite Hlt, Htip in H. discriminate.
Qed.

(** A parse that returns read every element without an exception, and
    its result holds every entry the loop body appended. *)
Lemma parse_ok_in (recs : list Contribution) (td : Td) (c : Contribution) :
  parse = Ok recs -> In td (calendar_days soup) ->
  loop_body td = Ok (Some c) -> In c recs.
Proof.
  intros H Hin Hc. apply parse_contribution_data_entries in H. subst recs.
  eapply Permutation_in; [symmetry; apply sort_by_date_perm|].
  apply in_flat_map. exists td. split; [exact Hin|].
  unfold day_entries. rewrite Hc. now left.
Qed.

Lemma parse_ok_no_raise (recs : list Contribution) (td : Td) :
  parse = Ok recs -> In td (calendar_days soup) -> ~ raises (loop_body td).
Proof.
  intros H Hin Hr.
  pose proof parse_days_raises as P.
  specialize (P strptime int_of_str current_date soup
                (calendar_days soup) [] td Hin Hr). destruct P as [e He].
  unfold parse_contribution_data in H. rewrite He in H. discriminate.
Qed.

Lemma parse_length (recs : list Contribution) :
  parse = Ok recs -> (List.length recs <= List.length (calendar_days soup))%nat.
Proof.
  intros H. apply parse_contribution_data_entries in H. subst recs.
  rewrite (Permutation_length (sort_by_date_perm _)).
  induction (calendar_days soup) as [|td t IH]; [cbn; lia|].
  cbn [flat_map]. rewrite length_app. unfold day_entries at 1.
  destruct (loop_body td) as [[c|]|e]; cbn [List.length]; lia.
Qed.

End ParserFacts.

(** X6.  Every record the parser returns carries one of the five colours
    of the table; and a calendar-day element that passes the tests on its
    date and has a tooltip, but whose level is an integer outside 0..4,
    makes the whole parse raise. *)
Theorem unknown_level_aborts_parse
  (strptime : string -> result calendar_date)
  (int_of_str : string -> result Z)
  (current_date : calendar_date) (soup : Soup) :
  (forall recs r,
     parse_contribution_data strptime int_of_str current_date soup = Ok recs ->
     In r recs -> In (colorCode r) (map snd CONTRIBUTION_COLORS))
  /\ (forall td s d tip ls level,
        In td (calendar_days soup) ->
        data_date td = Some s -> s <> "" -> strptime s = Ok d ->
        date_ltb current_date d = false ->
        tool_tip soup (id td) = Some tip ->
        data_level td = Some ls -> int_of_str ls = Ok level ->
        level < 0 \/ 4 < level ->
        raises (parse_contribution_data strptime int_of_str current_date soup)).
Proof.
  split.
  - intros recs r H Hin.
    pose proof parse_contribution_data_in as P.
    specialize (P _ _ _ _ _ _ H Hin). destruct P as (td & _ & Hr).
    apply parse_day_entry_fields in Hr.
    destruct Hr as (tip & level & _ & _ & _ & _ & Hcol).
    now apply dict_getitem_colors_in in Hcol.
  - intros td s d tip ls level Hin Hs Hne Hd Hlt Htip Hls Hlevel Hout.
    assert (Hr : raises (parse_days strptime int_of_str current_date soup
                                    (calendar_days soup) [])).
    { eapply parse_days_raises; [exact Hin|].
      exists (KeyError level).
      rewrite (@parse_day_passes strptime int_of_str current_date soup
                 td s d tip Hs Hne Hd Hlt Htip).
      rewrite Hls, Hlevel. cbn [bind].
      now rewrite dict_getitem_colors_missing. }
    destruct Hr as [e He]. exists e.
    unfold parse_contribution_data. rewrite He. reflexivity.
Qed.

Lemma unknown_level_aborts_parse_witness :
  In (colorCode day_with_five) (map snd CONTRIBUTION_COLORS)
  /\ raises (parse_contribution_data strptime_ymd int_of_string sample_today
                                     bad_level_soup).
Proof.
  split.
  - destruct (unknown_level_aborts_parse strptime_ymd int_of_string
                sample_today sample_soup) as [H _].
    apply (H two_days day_with_five); [reflexivity | now left].
  - destruct (unknown_level_aborts_parse strptime_ymd int_of_string
                sample_today bad_level_soup) as [_ H].
    apply (H (mkTd (Some "2024-01-01") (Some "day-1") (Some "7"))
             "2024-01-01" (mkDate 2024 1 1) "5 contributions" "7" 7).
    + now left.
    + reflexivity.
    + discriminate.
    + reflexivity.
    + reflexivity.
    + reflexivity.
    + reflexivity.
    + reflexivity.
    + right. lia.
Defined.

(** X7.  The parser neither invents nor loses days.  It returns at most
    one record per calendar-day element; every record has the date of an
    element that has a tooltip, the stripped text of the tooltip as its
    description and the number read from that text (0 when there is none)
    as its count; and, when the parse returns, every element whose date is
    read as a day that is not after the reference day and that has a
    tooltip is reported by a record with its date and description. *)
Theorem parser_keeps_the_dated_days
  (strptime : string -> result calendar_date)
  (int_of_str : string -> result Z)
  (current_date : calendar_date) (soup : Soup) (recs : list Contribution) :
  parse_contribution_data strptime int_of_str current_date soup = Ok recs ->
  (List.length recs <= List.length (calendar_days soup))%nat
  /\ (forall r, In r recs ->
        exists td tip,
          In td (calendar_days soup)
          /\ data_date td = Some (date r)
          /\ tool_tip soup (id td) = Some tip
          /\ description r = strip tip
          /\ contributions r = match search_count (strip tip) with
                               | Some n => n
                               | None => 0
                               end)
  /\ (forall td s d tip,
        In td (calendar_days soup) ->
        data_date td = Some s -> s <> "" -> strptime s = Ok d ->
        date_ltb current_date d = false ->
        tool_tip soup (id td) = Some tip ->
        exists r, In r recs /\ date r = s /\ description r = strip tip).
Proof.
  intros H. split; [now apply parse_length in H|]. split.
  - intros r Hin.
    pose proof parse_contribution_data_in as P.
    specialize (P _ _ _ _ _ _ H Hin). destruct P as (td & Htd & Hr).
    pose proof Hr as Hr'. apply parse_day_entry in Hr'.
    destruct Hr' as (Hd & _).
    apply parse_day_entry_fields in Hr.
    destruct Hr as (tip & level & Htip & Hdesc & Hcount & _).
    exists td, tip. auto.
  - intros td s d tip Hin Hs Hne Hd Hlt Htip.
    pose proof (@parse_ok_no_raise strptime int_of_str current_date soup
                  recs td H Hin) as Hnr.
    pose proof (@parse_day_passes strptime int_of_str current_date soup
                  td s d tip Hs Hne Hd Hlt Htip) as Hbody.
    destruct (match data_level td with
              | Some ls => int_of_str ls
              | None => Ok 0
              end) as [level|e]; cbn [bind] in Hbody;
      [|exfalso; apply Hnr; exists e; exact Hbody].
    destruct (dict_getitem CONTRIBUTION_COLORS level) as [color|e];
      cbn [bind] in Hbody;
      [|exfalso; apply Hnr; exists e; exact Hbody].
    eexists. split; [|split].
    + eapply parse_ok_in; [exact H | exact Hin | exact Hbody].
    + reflexivity.
    + reflexivity.
Qed.

Lemma parser_keeps_the_dated_days_witness :
  (List.length two_days <= List.length (calendar_days sample_soup))%nat
  /\ exists r, In r two_days /\ date r = "2024-01-02"
               /\ description r = strip "No contributions".
Proof.
  destruct (parser_keeps_the_dated_days strptime_ymd int_of_string
              sample_today sample_soup (recs := two_days) eq_refl)
    as (H1 & _ & H3).
  split; [exact H1|].
  apply (H3 (mkTd (Some "2024-01-02") (Some "day-2") (Some "0"))
            "2024-01-02" (mkDate 2024 1 2) "No contributions").
  - right. now left.
  - reflexivity.
  - discriminate.
  - reflexivity.
  - reflexivity.
  - reflexivity.
Defined.

(** * Further properties of the fetcher *)

Lemma cache_lookup_in (k : Key) (v : string) (c : Cache) :
  cache_lookup k c = Some v -> In (k, v) c.
Proof.
  induction c as [|[k' v'] t IH]; cbn; [discriminate|].
  destruct (key_eqb k k') eqn:E.
  - intros [= <-]. apply key_eqb_eq in E. subst. now left.
  - intros H. right. now apply IH.
Qed.

Lemma cache_lookup_none (k : Key) (c : Cache) :
  cache_lookup k c = None <-> ~ In k (map fst c).
Proof.
  induction c as [|[k' v'] t IH]; cbn; [tauto|].
  destruct (key_eqb k k') eqn:E.
  - apply key_eqb_eq in E. subst. split; [discriminate|]. tauto.
  - rewrite IH. split; [|tauto].
    intros H [Heq|Hin]; [|tauto].
    subst. rewrite key_eqb_refl in E. discriminate.
Qed.

Lemma cache_remove_keys (k : Key) (c : Cache) (x : Key) :
  In x (map fst (cache_remove k c)) <-> In x (map fst c) /\ x <> k.
Proof.
  unfold cache_remove. rewrite !in_map_iff. split.
  - intros ([k' v'] & <- & Hin). apply filter_In in Hin.
    destruct Hin as [Hin Hneq]. cbn in *. split.
    + exists (k', v'). auto.
    + intros ->. rewrite key_eqb_refl in Hneq. discriminate.
  - intros (([k' v'] & <- & Hin) & Hneq). exists (k', v'). split; [reflexivity|].
    apply filter_In. split; [exact Hin|]. cbn in *.
    destruct (key_eqb k k') eqn:E; [|reflexivity].
    apply key_eqb_eq in E. congruence.
Qed.

Lemma cache_remove_nodup (k : Key) (c : Cache) :
  NoDup (map fst c) -> NoDup (map fst (cache_remove k c)).
Proof.
  unfold cache_remove. induction c as [|[k' v'] t IH]; cbn [map filter fst];
    intros H; [constructor|].
  inversion H as [|? ? Hnotin Hnd]; subst.
  destruct (negb (key_eqb k k')); [|now apply IH].
  cbn [map fst]. constructor; [|now apply IH].
  intros Hin. apply Hnotin.
  apply (proj1 (cache_remove_keys k t k')) in Hin. tauto.
Qed.

Lemma removelast_keys_nodup (c : Cache) :
  NoDup (map fst c) -> NoDup (map fst (removelast c)).
Proof.
  destruct c as [|e t] using rev_ind; [auto|]. clear IHt.
  rewrite removelast_last, map_app. apply NoDup_app_remove_r.
Qed.

Lemma removelast_in (A : Type) (l : list A) (x : A) :
  In x (removelast l) -> In x l.
Proof.
  destruct l as [|e t] using rev_ind; [auto|]. clear IHt.
  rewrite removelast_last. intros H. apply in_or_app. now left.
Qed.

Lemma removelast_length (A : Type) (l : list A) :
  l <> [] -> S (List.length (removelast l)) = List.length l.
Proof.
  destruct l as [|e t] using rev_ind; [congruence|]. clear IHt. intros _.
  rewrite removelast_last, length_app. cbn. lia.
Qed.

Lemma cache_touch_ok (k : Key) (v : string) (c : Cache) :
  cache_ok c -> cache_lookup k c = Some v -> cache_ok (cache_touch k v c).
Proof.
  intros [Hnd Hlen] Hk. unfold cache_ok, cache_touch. cbn [map fst].
  split.
  - constructor; [|now apply cache_remove_nodup].
    rewrite cache_remove_keys. tauto.
  - apply cache_lookup_in in Hk. apply in_split in Hk.
    destruct Hk as (a & b & ->).
    rewrite cache_remove_app. cbn [List.length].
    unfold cache_remove at 2. cbn [filter fst]. rewrite key_eqb_refl.
    cbn [negb]. fold (cache_remove k b).
    rewrite length_app in *. cbn [List.length] in Hlen.
    pose proof (cache_remove_length k a).
    pose proof (cache_remove_length k b). lia.
Qed.

Lemma cache_store_ok (k : Key) (v : string) (c : Cache) :
  cache_ok c -> cache_lookup k c = None -> cache_ok (cache_store k v c).
Proof.
  intros [Hnd Hlen] Hk. apply cache_lookup_none in Hk.
  unfold cache_ok, cache_store. cbn [map fst List.length].
  destruct (Nat.leb_spec maxsize (List.length c)) as [Hfull|Hroom].
  - split.
    + constructor; [|now apply removelast_keys_nodup].
      intros Hin. apply Hk. apply in_map_iff in Hin.
      destruct Hin as (e & <- & He). apply in_map. now apply removelast_in.
    + assert (Hne : c <> []).
      { intros ->. cbn in Hfull. unfold maxsize in Hfull. lia. }
      rewrite (removelast_length Hne). exact Hlen.
  - split; [now constructor | lia].
Qed.

Section FetcherFacts.

Variable requests_get : nat -> string -> Response.

Local Abbreviation fetch := (fetch_github_data requests_get).
Local Abbreviation run := (run_calls requests_get).

Lemma fetch_cache_ok (k : Key) (st : Cache * World) :
  cache_ok (fst st) -> cache_ok (fst (snd (fetch k st))).
Proof.
  destruct st as [c w]. cbn [fst]. intros H. unfold fetch_github_data.
  destruct (cache_lookup k c) as [v|] eqn:Hk; cbn [fst snd].
  - now apply cache_touch_ok.
  - destruct (fetch_uncached requests_get k w) as [[v|e] w']; cbn [fst snd].
    + now apply cache_store_ok.
    + exact H.
Qed.

Lemma run_cache_ok (ks : list Key) : forall st,
  cache_ok (fst st) -> cache_ok (fst (run ks st)).
Proof.
  induction ks as [|k t IH]; intros st H; cbn [run_calls fold_left];
    [exact H|].
  apply IH. now apply fetch_cache_ok.
Qed.

(** What a call that raises did. *)
Lemma fetch_raise_inv (k : Key) (st st1 : Cache * World) (e : exn) :
  fetch k st = (Raise e, st1) ->
  fst st1 = fst st
  /\ cache_lookup k (fst st1) = None
  /\ requests_sent (snd st1)
     = requests_sent (snd st) ++ [contributions_url k]
  /\ response_html (snd st1) = response_html (snd st)
  /\ (e = NotFound \/ e = UpstreamError).
Proof.
  destruct st as [c w]. unfold fetch_github_data.
  destruct (cache_lookup k c) as [v|] eqn:Hk; [discriminate|].
  unfold fetch_uncached.
  destruct (status_code _ =? 404).
  - intros [= <- <-]. cbn. repeat split; auto.
  - destruct (negb (status_code _ =? 200)).
    + intros [= <- <-]. cbn. repeat split; auto.
    + discriminate.
Qed.

End FetcherFacts.

(** X11.  The cache never holds two entries for the same arguments and
    never more than [maxsize] entries: every call keeps both properties,
    so they hold after any sequence of calls of a process. *)
Theorem cache_stays_bounded_and_duplicate_free
  (requests_get : nat -> string -> Response) :
  (forall k st, cache_ok (fst st) ->
                cache_ok (fst (snd (fetch_github_data requests_get k st))))
  /\ (forall ks, cache_ok (fst (run_calls requests_get ks fresh_process))).
Proof.
  split.
  - intros k st. apply fetch_cache_ok.
  - intros ks. apply run_cache_ok. split; [constructor | cbn; lia].
Qed.

Lemma cache_stays_bounded_and_duplicate_free_witness :
  cache_ok (fst (snd (fetch_github_data changing_upstream octocat_key
                                        fresh_process)))
  /\ cache_ok (fst (run_calls changing_upstream
                              (octocat_key :: hundred_other_calls)
                              fresh_process)).
Proof.
  destruct (cache_stays_bounded_and_duplicate_free changing_upstream)
    as [H1 H2].
  split.
  - apply H1. split; [constructor | cbn; lia].
  - apply H2.
Defined.

(** X12.  A call that raises one of the two [ValueError]s of the fetcher
    leaves the cache as it was, with no entry for its arguments; it sent
    exactly one request, to the address of its arguments; and it did not
    write [response.html]. *)
Theorem failed_fetch_is_not_cached
  (requests_get : nat -> string -> Response)
  (k : Key) (st st1 : Cache * World) (e : exn) :
  fetch_github_data requests_get k st = (Raise e, st1) ->
  is_value_error e = true ->
  fst st1 = fst st
  /\ cache_lookup k (fst st1) = None
  /\ requests_sent (snd st1)
     = requests_sent (snd st) ++ [contributions_url k]
  /\ response_html (snd st1) = response_html (snd st).
Proof.
  intros H _. apply fetch_raise_inv in H. tauto.
Qed.

Lemma failed_fetch_is_not_cached_witness :
  let st1 := snd (fetch_github_data picky_upstream
                    ("ghost", "2024-01-01", "2024-12-31") fresh_process) in
  fst st1 = []
  /\ requests_sent (snd st1)
     = ["https://github.com/users/ghost/contributions?from=2024-01-01&to=2024-12-31"]
  /\ response_html (snd st1) = None.
Proof.
  destruct (@failed_fetch_is_not_cached picky_upstream
              ("ghost", "2024-01-01", "2024-12-31") fresh_process
              _ NotFound eq_refl eq_refl) as (H1 & _ & H3 & H4).
  cbv zeta. split; [exact H1|]. split; [exact H3 | exact H4].
Defined.

Section FetcherHistory.

Variable requests_get : nat -> string -> Response.

Local Abbreviation fetch := (fetch_github_data requests_get).
Local Abbreviation run := (run_calls requests_get).

Lemma run_calls_snoc (ks : list Key) (k : Key) (st : Cache * World) :
  run (ks ++ [k]) st = snd (fetch k (run ks st)).
Proof. unfold run_calls. now rewrite fold_left_app. Qed.

Lemma served_later (w w' : World) (k : Key) (v : string) (extra : list string) :
  requests_sent w' = requests_sent w ++ extra ->
  served requests_get w k v -> served requests_get w' k v.
Proof.
  intros Hw (n & Hn & Hs & Ht). exists n. split; [|auto].
  rewrite Hw, nth_error_app1; [exact Hn|].
  apply nth_error_Some. congruence.
Qed.

(** What a call that returns normally returned, and how it left the
    state. *)
Lemma fetch_ok_inv (k : Key) (st st1 : Cache * World) (v : string) :
  fetch k st = (Ok v, st1) ->
  (cache_lookup k (fst st) = Some v
   /\ st1 = (cache_touch k v (fst st), snd st))
  \/ (cache_lookup k (fst st) = None
      /\ fst st1 = cache_store k v (fst st)
      /\ requests_sent (snd st1)
         = requests_sent (snd st) ++ [contributions_url k]
      /\ status_code (requests_get (List.length (requests_sent (snd st)))
                                   (contributions_url k)) = 200
      /\ text (requests_get (List.length (requests_sent (snd st)))
                            (contributions_url k)) = v
      /\ response_html (snd st1) = Some v).
Proof.
  destruct st as [c w]. unfold fetch_github_data. cbn [fst snd].
  destruct (cache_lookup k c) as [v0|] eqn:Hk.
  - intros [= <- <-]. left. auto.
  - unfold fetch_uncached.
    destruct (status_code _ =? 404); [discriminate|].
    destruct (Z.eqb_spec (status_code
                (requests_get (List.length (requests_sent w))
                              (contributions_url k))) 200) as [E|E];
      cbn [negb]; [|discriminate].
    intros [= <- <-]. right. cbn. repeat split; auto.
Qed.

Lemma fetch_keeps_served (k : Key) (st : Cache * World) :
  cache_served requests_get st ->
  cache_served requests_get (snd (fetch k st)).
Proof.
  intros Hinv. destruct (fetch k st) as [[v|e] st1] eqn:H; cbn [snd].
  - apply fetch_ok_inv in H. destruct H as [[Hk ->]|(Hk & Hc & Hw & Hs & Ht & _)].
    + intros k' v' [[= <- <-]|Hin]; cbn [snd].
      * apply Hinv. now apply cache_lookup_in.
      * apply Hinv. cbn [fst] in Hin. unfold cache_remove in Hin.
        apply filter_In in Hin. tauto.
    + intros k' v' Hin. rewrite Hc in Hin.
      destruct Hin as [[= <- <-]|Hin].
      * exists (List.length (requests_sent (snd st))).
        split; [|auto]. rewrite Hw, nth_error_app2, Nat.sub_diag by lia.
        reflexivity.
      * eapply served_later; [exact Hw|]. apply Hinv.
        destruct (maxsize <=? List.length (fst st))%nat; [|exact Hin].
        now apply removelast_in.
  - apply fetch_raise_inv in H. destruct H as (Hc & _ & Hw & _).
    intros k' v' Hin. rewrite Hc in Hin.
    eapply served_later; [exact Hw|]. now apply Hinv.
Qed.

Lemma run_keeps_served (ks : list Key) : forall st,
  cache_served requests_get st -> cache_served requests_get (run ks st).
Proof.
  induction ks as [|k t IH]; intros st H; cbn [run_calls fold_left];
    [exact H|].
  apply IH. now apply fetch_keeps_served.
Qed.

Lemma fetch_result_served (k : Key) (st st1 : Cache * World) (v : string) :
  cache_served requests_get st ->
  fetch k st = (Ok v, st1) -> served requests_get (snd st1) k v.
Proof.
  intros Hinv H.
  pose proof (fetch_keeps_served k Hinv) as Hinv1. rewrite H in Hinv1.
  cbn [snd] in Hinv1. apply Hinv1.
  apply fetch_ok_inv in H. destruct H as [[_ ->]|(_ & -> & _)]; now left.
Qed.

End FetcherHistory.

(** X13.  The fetcher never returns markup the upstream did not serve:
    whatever a call returns, in a process that started with an empty
    cache, is the text of a response with status 200 that the upstream
    gave to an earlier or to the present request for the address of the
    arguments of the call. *)
Theorem returned_markup_was_served
  (requests_get : nat -> string -> Response)
  (ks : list Key) (k : Key) (v : string) (st1 : Cache * World) :
  fetch_github_data requests_get k
                    (run_calls requests_get ks fresh_process) = (Ok v, st1) ->
  exists n,
    nth_error (requests_sent (snd st1)) n = Some (contributions_url k)
    /\ status_code (requests_get n (contributions_url k)) = 200
    /\ text (requests_get n (contributions_url k)) = v.
Proof.
  intros H. eapply fetch_result_served; [|exact H].
  apply run_keeps_served. intros k' v' [].
Qed.

Lemma returned_markup_was_served_witness :
  exists n,
    nth_error
      (requests_sent
         (snd (snd (fetch_github_data changing_upstream octocat_key
                      (run_calls changing_upstream
                                 [octocat_key; other_key 1] fresh_process)))))
      n = Some (contributions_url octocat_key)
    /\ status_code (changing_upstream n (contributions_url octocat_key)) = 200
    /\ text (changing_upstream n (contributions_url octocat_key)) = "first".
Proof.
  apply (@returned_markup_was_served changing_upstream
           [octocat_key; other_key 1] octocat_key "first" _ eq_refl).
Defined.

Lemma nodup_length_snoc_old (ks : list Key) (k : Key) :
  In k ks ->
  List.length (nodup Key_eq_dec (ks ++ [k]))
  = List.length (nodup Key_eq_dec ks).
Proof.
  intros Hin. apply Permutation_length. apply NoDup_Permutation.
  - apply NoDup_nodup.
  - apply NoDup_nodup.
  - intros x. rewrite !nodup_In, in_app_iff. cbn. intuition congruence.
Qed.

Lemma nodup_length_snoc_new (ks : list Key) (k : Key) :
  ~ In k ks ->
  List.length (nodup Key_eq_dec (ks ++ [k]))
  = S (List.length (nodup Key_eq_dec ks)).
Proof.
  intros Hnew.
  change (S (List.length (nodup Key_eq_dec ks)))
    with (List.length (k :: nodup Key_eq_dec ks)).
  apply Permutation_length. apply NoDup_Permutation.
  - apply NoDup_nodup.
  - constructor; [now rewrite nodup_In | apply NoDup_nodup].
  - intros x. cbn [In]. rewrite !nodup_In, in_app_iff. cbn. intuition.
Qed.

Section WorkingSet.

Variable requests_get : nat -> string -> Response.
Hypothesis always_ok : forall n url, status_code (requests_get n url) = 200.

Local Abbreviation fetch := (fetch_github_data requests_get).
Local Abbreviation run := (run_calls requests_get).

Lemma fetch_uncached_ok (k : Key) (w : World) :
  fetch_uncached requests_get k w
  = (Ok (text (requests_get (List.length (requests_sent w))
                            (contributions_url k))),
     {| requests_sent := requests_sent w ++ [contributions_url k];
        response_html :=
          Some (text (requests_get (List.length (requests_sent w))
                                   (contributions_url k))) |}).
Proof. unfold fetch_uncached. rewrite always_ok. reflexivity. Qed.

(** While the calls made so far used at most [maxsize] distinct keys,
    the cache holds exactly those keys and one request was sent for each
    of them. *)
Lemma working_set_invariant (ks : list Key) :
  (List.length (nodup Key_eq_dec ks) <= maxsize)%nat ->
  NoDup (map fst (fst (run ks fresh_process)))
  /\ (forall k, In k (map fst (fst (run ks fresh_process))) <-> In k ks)
  /\ List.length (requests_sent (snd (run ks fresh_process)))
     = List.length (nodup Key_eq_dec ks).
Proof.
  induction ks as [|k ks IH] using rev_ind; intros Hbound.
  - cbn. repeat split; try tauto. constructor.
  - assert (Hprev : (List.length (nodup Key_eq_dec ks) <= maxsize)%nat).
    { destruct (in_dec Key_eq_dec k ks) as [Hin|Hnew].
      - now rewrite <- (nodup_length_snoc_old ks k Hin).
      - rewrite (nodup_length_snoc_new ks k Hnew) in Hbound. lia. }
    destruct (IH Hprev) as (Hnd & Hkeys & Hreq). clear IH.
    rewrite run_calls_snoc.
    destruct (run ks fresh_process) as [c w] eqn:Hst. cbn [fst snd] in *.
    assert (Hlen : List.length c = List.length (nodup Key_eq_dec ks)).
    { rewrite <- (length_map fst). apply Permutation_length.
      apply NoDup_Permutation; [exact Hnd | apply NoDup_nodup|].
      intros x. rewrite nodup_In. apply Hkeys. }
    unfold fetch_github_data.
    destruct (cache_lookup k c) as [v|] eqn:Hk.
    + assert (Hin : In k ks).
      { apply Hkeys. apply cache_lookup_in in Hk.
        apply (in_map fst) in Hk. exact Hk. }
      cbn [fst snd]. split; [|split].
      * apply cache_touch_ok; [|exact Hk]. split; [exact Hnd | lia].
      * intros x. unfold cache_touch. cbn [map fst In].
        rewrite cache_remove_keys, Hkeys, in_app_iff. cbn.
        destruct (Key_eq_dec x k); intuition congruence.
      * rewrite Hreq. symmetry. now apply nodup_length_snoc_old.
    + assert (Hnew : ~ In k ks).
      { intros Hin. apply Hkeys in Hin.
        now apply (proj1 (cache_lookup_none k c)) in Hin. }
      rewrite (nodup_length_snoc_new ks k Hnew) in *.
      rewrite fetch_uncached_ok. cbn [fst snd requests_sent].
      unfold cache_store.
      destruct (Nat.leb_spec maxsize (List.length c)); [lia|].
      cbn [map fst In]. split; [|split].
      * constructor; [|exact Hnd]. now apply cache_lookup_none.
      * intros x. rewrite Hkeys, in_app_iff. cbn. intuition.
      * rewrite length_app. cbn. lia.
Qed.

End WorkingSet.

(** X14.  While a process uses at most [maxsize] distinct argument
    triples and the upstream answers every request with status 200, each
    triple is fetched exactly once: the number of requests sent equals the
    number of distinct triples, however often and in whatever order they
    are used. *)
Theorem one_request_per_distinct_key
  (requests_get : nat -> string -> Response) (ks : list Key) :
  (forall n url, status_code (requests_get n url) = 200) ->
  (List.length (nodup Key_eq_dec ks) <= maxsize)%nat ->
  List.length (requests_sent (snd (run_calls requests_get ks fresh_process)))
  = List.length (nodup Key_eq_dec ks).
Proof.
  intros Hok Hbound. now apply working_set_invariant.
Qed.

Lemma one_request_per_distinct_key_witness :
  List.length
    (requests_sent
       (snd (run_calls changing_upstream
               [octocat_key; other_key 1; octocat_key; other_key 1;
                octocat_key] fresh_process))) = 2%nat.
Proof.
  apply (@one_request_per_distinct_key changing_upstream
           [octocat_key; other_key 1; octocat_key; other_key 1; octocat_key]).
  - intros [|n] url; reflexivity.
  - vm_compute. lia.
Defined.

(** * Properties of the request handler *)

Lemma date_leb_iff (a b : calendar_date) :
  date_leb a b = true <-> on_or_before a b.
Proof.
  unfold date_leb. rewrite negb_true_iff. apply date_ltb_false_iff.
Qed.

Lemma on_or_before_trans (a b c : calendar_date) :
  on_or_before a b -> on_or_before b c -> on_or_before a c.
Proof. unfold on_or_before. lia. Qed.

Lemma strongly_sorted_filter (A : Type) (R : A -> A -> Prop)
      (p : A -> bool) (l : list A) :
  StronglySorted R l -> StronglySorted R (filter p l).
Proof.
  induction 1 as [|x t Hs IH Hx]; cbn; [constructor|].
  destruct (p x); [|exact IH].
  constructor; [exact IH|].
  rewrite Forall_forall in *. intros y Hy. apply filter_In in Hy.
  apply Hx. tauto.
Qed.

Lemma calculate_statistics_raise (l : list Contribution) (e : exn) :
  calculate_statistics l = Raise e -> exists msg, e = OverflowError msg.
Proof.
  destruct l as [|r t]; [discriminate|]. intros H.
  destruct (calculate_statistics_cases (l := r :: t))
    as [[s Hs]|[msg Hmsg]]; [discriminate| |]; rewrite H in *.
  - discriminate.
  - injection Hmsg as ->. eauto.
Qed.

Lemma on_exception_status (e : exn) :
  http_status (on_exception e) = 404 /\ is_value_error e = true
  \/ http_status (on_exception e) = 500 /\ is_value_error e = false.
Proof. unfold on_exception. destruct (is_value_error e); cbn; auto. Qed.

Section HandlerFacts.

Variable strptime : string -> result calendar_date.
Variable int_of_str : string -> result Z.
Variable current_date : calendar_date.
Variable requests_get : nat -> string -> Response.
Variable soup_of_html : string -> Soup.

Local Abbreviation handler :=
  (get_contributions strptime int_of_str current_date requests_get
                     soup_of_html).
Local Abbreviation parse_page :=
  (fun html => parse_contribution_data strptime int_of_str current_date
                                       (soup_of_html html)).

(** The list comprehension keeps the records that pass its test, when no
    date fails to parse. *)
Lemma filter_period_ok (fo to : calendar_date) (l : list Contribution) :
  forall days,
  filter_period strptime fo to l = Ok days ->
  days = filter (in_period strptime fo to) l.
Proof.
  induction l as [|c t IH]; intros days; cbn [filter_period filter].
  - now intros [= <-].
  - unfold in_period at 1.
    destruct (strptime (date c)) as [d|e]; cbn [bind]; [|discriminate].
    destruct (filter_period strptime fo to t) as [kept|e]; cbn [bind];
      [|discriminate].
    intros [= <-]. rewrite (IH kept eq_refl).
    destruct (date_leb fo d && date_leb d to); reflexivity.
Qed.

Lemma filter_period_parsed (fo to : calendar_date) (l : list Contribution) :
  Forall (fun c => exists d, strptime (date c) = Ok d) l ->
  filter_period strptime fo to l = Ok (filter (in_period strptime fo to) l).
Proof.
  induction 1 as [|c t [d Hd] _ IH]; [reflexivity|].
  cbn [filter_period filter]. unfold in_period at 1.
  rewrite Hd, IH. cbn [bind].
  destruct (date_leb fo d && date_leb d to); reflexivity.
Qed.

Lemma filter_period_raise (fo to : calendar_date) (l : list Contribution)
      (e : exn) :
  filter_period strptime fo to l = Raise e ->
  exists s, strptime s = Raise e.
Proof.
  induction l as [|c t IH]; cbn [filter_period]; [discriminate|].
  destruct (strptime (date c)) as [d|e'] eqn:Hd; cbn [bind].
  - destruct (filter_period strptime fo to t) as [kept|e'']; cbn [bind];
      [discriminate|].
    intros [= <-]. now apply IH.
  - intros [= <-]. eauto.
Qed.

(** The only way to an answer with status 200. *)
Lemma handler_ok_inv (args : Args) (st st1 : Cache * World)
      (resp : HttpResponse) :
  handler args st = (resp, st1) -> http_status resp = 200 ->
  exists fo to html recs days stats,
    truthy (arg_username args) = true
    /\ (truthy (arg_year args) = true
        \/ truthy (arg_from args) && truthy (arg_to args) = true)
    /\ strptime (fst (requested_period args)) = Ok fo
    /\ strptime (snd (requested_period args)) = Ok to
    /\ fetch_github_data requests_get
         (string_of (arg_username args),
          fst (requested_period args), snd (requested_period args)) st
       = (Ok html, st1)
    /\ parse_page html = Ok recs
    /\ filter_period strptime fo to recs = Ok days
    /\ calculate_statistics days = Ok stats
    /\ resp = mkHttpResponse 200
                (ContributionsBody (string_of (arg_username args))
                                   (fst (requested_period args))
                                   (snd (requested_period args)) days stats).
Proof.
  unfold get_contributions, requested_period.
  destruct (truthy (arg_username args)); cbn [negb];
    [|intros [= <- _]; discriminate].
  assert (Hexc : forall e st', (on_exception e, st') = (resp, st1) ->
                               http_status resp = 200 -> False).
  { intros e st' [= <- _] Hs.
    destruct (on_exception_status e) as [[H _]|[H _]]; congruence. }
  destruct (truthy (arg_year args)) eqn:Hy.
  - cbn [fst snd].
    destruct (strptime (string_of (arg_year args) ++ "-01-01")) as [fo|e];
      cbn [bind].
    2:{ destruct (is_value_error e); [intros [= <- _]; discriminate|].
        intros H Hs. exfalso. eapply Hexc; eassumption. }
    destruct (strptime (string_of (arg_year args) ++ "-12-31")) as [to|e];
      cbn [bind].
    2:{ destruct (is_value_error e); [intros [= <- _]; discriminate|].
        intros H Hs. exfalso. eapply Hexc; eassumption. }
    destruct (fetch_github_data requests_get _ st) as [[html|e] st'] eqn:Hf.
    2:{ intros H Hs. exfalso. eapply Hexc; eassumption. }
    unfold contributions_body.
    destruct (parse_contribution_data strptime int_of_str current_date
                (soup_of_html html)) as [recs|e] eqn:Hp; cbn [bind].
    2:{ intros H Hs. exfalso. eapply Hexc; eassumption. }
    destruct (filter_period strptime fo to recs) as [days|e] eqn:Hfp;
      cbn [bind].
    2:{ intros H Hs. exfalso. eapply Hexc; eassumption. }
    destruct (calculate_statistics days) as [stats|e] eqn:Hst; cbn [bind].
    2:{ intros H Hs. exfalso. eapply Hexc; eassumption. }
    intros [= <- <-] _.
    exists fo, to, html, recs, days, stats. repeat split; auto.
  - destruct (truthy (arg_from args) && truthy (arg_to args)) eqn:Hft;
      cbn [negb fst snd]; [|intros [= <- _]; discriminate].
    destruct (strptime (string_of (arg_from args))) as [fo|e]; cbn [bind].
    2:{ destruct (is_value_error e); [intros [= <- _]; discriminate|].
        intros H Hs. exfalso. eapply Hexc; eassumption. }
    destruct (strptime (string_of (arg_to args))) as [to|e]; cbn [bind].
    2:{ destruct (is_value_error e); [intros [= <- _]; discriminate|].
        intros H Hs. exfalso. eapply Hexc; eassumption. }
    destruct (fetch_github_data requests_get _ st) as [[html|e] st'] eqn:Hf.
    2:{ intros H Hs. exfalso. eapply Hexc; eassumption. }
    unfold contributions_body.
    destruct (parse_contribution_data strptime int_of_str current_date
                (soup_of_html html)) as [recs|e] eqn:Hp; cbn [bind].
    2:{ intros H Hs. exfalso. eapply Hexc; eassumption. }
    destruct (filter_period strptime fo to recs) as [days|e] eqn:Hfp;
      cbn [bind].
    2:{ intros H Hs. exfalso. eapply Hexc; eassumption. }
    destruct (calculate_statistics days) as [stats|e] eqn:Hst; cbn [bind].
    2:{ intros H Hs. exfalso. eapply Hexc; eassumption. }
    intros [= <- <-] _.
    exists fo, to, html, recs, days, stats. repeat split; auto.
Qed.

End HandlerFacts.

Lemma dict_getitem_colors_raise (level : Z) (e : exn) :
  dict_getitem CONTRIBUTION_COLORS level = Raise e ->
  e = KeyError level /\ (level < 0 \/ 4 < level).
Proof.
  unfold CONTRIBUTION_COLORS. cbn [dict_getitem].
  repeat match goal with
         | |- context [?a =? level] =>
           destruct (Z.eqb_spec a level); [discriminate|]
         end.
  intros [= <-]. split; [reflexivity | lia].
Qed.

Section HandlerCases.

Variable strptime : string -> result calendar_date.
Variable int_of_str : string -> result Z.
Variable current_date : calendar_date.
Variable requests_get : nat -> string -> Response.
Variable soup_of_html : string -> Soup.

Local Abbreviation handler :=
  (get_contributions strptime int_of_str current_date requests_get
                     soup_of_html).
Local Abbreviation page_body :=
  (contributions_body strptime int_of_str current_date soup_of_html).

(** The handler on a request whose parameters pass the validation. *)
Lemma handler_valid (args : Args) (st : Cache * World)
      (fo to : calendar_date) :
  truthy (arg_username args) = true ->
  truthy (arg_year args) = true
  \/ truthy (arg_from args) && truthy (arg_to args) = true ->
  strptime (fst (requested_period args)) = Ok fo ->
  strptime (snd (requested_period args)) = Ok to ->
  handler args st =
  match fetch_github_data requests_get
          (string_of (arg_username args),
           fst (requested_period args), snd (requested_period args)) st with
  | (Raise e, st') => (on_exception e, st')
  | (Ok html, st') =>
    match page_body (string_of (arg_username args))
                    (fst (requested_period args))
                    (snd (requested_period args)) fo to html with
    | Ok body => (mkHttpResponse 200 body, st')
    | Raise e => (on_exception e, st')
    end
  end.
Proof.
  intros Hu Hper Hfo Hto. unfold get_contributions.
  rewrite Hu. cbn [negb].
  unfold requested_period in *.
  destruct (truthy (arg_year args)) eqn:Hy; cbn [fst snd] in *.
  - rewrite Hfo, Hto. reflexivity.
  - destruct Hper as [Hper|Hper]; [discriminate|].
    rewrite Hper. cbn [negb]. rewrite Hfo, Hto. reflexivity.
Qed.

(** An answer with status 400 is given before anything else is done. *)
Lemma handler_400_state (args : Args) (st : Cache * World) :
  http_status (fst (handler args st)) = 400 -> snd (handler args st) = st.
Proof.
  unfold get_contributions.
  destruct (truthy (arg_username args)); cbn [negb]; [|reflexivity].
  assert (Hexc : forall e st', http_status (on_exception e) = 400 ->
                               st' = st).
  { intros e st' H.
    destruct (on_exception_status e) as [[H' _]|[H' _]]; congruence. }
  match goal with
  | |- context [match ?p with Some _ => _ | None => _ end] =>
    destruct p as [[f t]|]; [|reflexivity]
  end.
  destruct (strptime f) as [fo|e]; cbn [bind].
  2:{ destruct (is_value_error e); cbn [fst snd]; [reflexivity|].
      intros H. reflexivity. }
  destruct (strptime t) as [to|e]; cbn [bind].
  2:{ destruct (is_value_error e); cbn [fst snd]; reflexivity. }
  destruct (fetch_github_data requests_get _ st) as [[html|e] st'].
  - destruct (page_body _ f t fo to html) as [body|e]; cbn [fst snd].
    + discriminate.
    + apply Hexc.
  - cbn [fst snd]. apply Hexc.
Qed.

(** Under the assumption that [strptime] and [int] raise nothing but
    [ValueError], an exception of the parser that is not a [ValueError]
    comes from a level outside the colour table. *)
Hypothesis strptime_value_error :
  forall s e, strptime s = Raise e -> is_value_error e = true.
Hypothesis int_value_error :
  forall s e, int_of_str s = Raise e -> is_value_error e = true.

Lemma parse_day_other_error (soup : Soup) (td : Td) (e : exn) :
  parse_day strptime int_of_str current_date soup td = Raise e ->
  is_value_error e = false ->
  exists ls level,
    data_level td = Some ls /\ int_of_str ls = Ok level
    /\ (level < 0 \/ 4 < level).
Proof.
  unfold parse_day.
  destruct (data_date td) as [[|a s]|]; try discriminate.
  destruct (strptime (String a s)) as [d|e'] eqn:Hd; cbn [bind].
  2:{ intros [= <-] He. apply strptime_value_error in Hd. congruence. }
  destruct (date_ltb current_date d); [discriminate|].
  destruct (tool_tip soup (id td)) as [tip|]; [|discriminate].
  destruct (data_level td) as [ls|].
  - destruct (int_of_str ls) as [level|e'] eqn:Hl; cbn [bind].
    2:{ intros [= <-] He. apply int_value_error in Hl. congruence. }
    destruct (dict_getitem CONTRIBUTION_COLORS level) as [color|e'] eqn:Hc;
      cbn [bind]; [discriminate|].
    intros [= <-] _. apply dict_getitem_colors_raise in Hc.
    exists ls, level. tauto.
  - cbn [bind]. change (dict_getitem CONTRIBUTION_COLORS 0) with (Ok "#ebedf0").
    discriminate.
Qed.

Lemma parse_days_raise_inv (soup : Soup) (tds : list Td) : forall acc e,
  parse_days strptime int_of_str current_date soup tds acc = Raise e ->
  exists td, In td tds
             /\ parse_day strptime int_of_str current_date soup td = Raise e.
Proof.
  induction tds as [|td rest IH]; intros acc e; cbn [parse_days];
    [discriminate|].
  destruct (parse_day strptime int_of_str current_date soup td)
    as [r|e'] eqn:Hd; cbn [bind].
  - intros H. destruct r; apply IH in H; destruct H as (td' & Hin & H);
      exists td'; split; auto; now right.
  - intros [= <-]. exists td. split; [now left | exact Hd].
Qed.

Lemma page_body_other_error (u f t : string) (fo to : calendar_date)
      (html : string) (e : exn) :
  page_body u f t fo to html = Raise e -> is_value_error e = false ->
  unknown_level int_of_str (soup_of_html html)
  \/ (exists recs msg,
        parse_contribution_data strptime int_of_str current_date
                                (soup_of_html html) = Ok recs
        /\ calculate_statistics (filter (in_period strptime fo to) recs)
           = Raise (OverflowError msg)).
Proof.
  unfold contributions_body.
  destruct (parse_contribution_data strptime int_of_str current_date
              (soup_of_html html)) as [recs|e'] eqn:Hp; cbn [bind].
  - destruct (filter_period strptime fo to recs) as [days|e2] eqn:Hf;
      cbn [bind].
    + apply filter_period_ok in Hf. subst days.
      destruct (calculate_statistics
                  (filter (in_period strptime fo to) recs))
        as [stats|e3] eqn:Hs; cbn [bind]; [discriminate|].
      intros [= <-] _. right.
      destruct (calculate_statistics_raise _ Hs) as [msg ->].
      exists recs, msg. auto.
    + intros [= <-] He. apply filter_period_raise in Hf.
      destruct Hf as [s Hs]. apply strptime_value_error in Hs. congruence.
  - intros [= <-] He. left. unfold parse_contribution_data in Hp.
    destruct (parse_days strptime int_of_str current_date
                (soup_of_html html) (calendar_days (soup_of_html html)) [])
      as [out|e3] eqn:Hd; cbn [bind] in Hp; [discriminate|].
    injection Hp as <-. apply parse_days_raise_inv in Hd.
    destruct Hd as (td & Hin & Hd).
    destruct (parse_day_other_error _ _ Hd He) as (ls & level & H).
    exists td, ls, level. tauto.
Qed.

Lemma handler_500_inv (args : Args) (st : Cache * World) :
  http_status (fst (handler args st)) = 500 ->
  exists html,
    fst (fetch_github_data requests_get
           (string_of (arg_username args),
            fst (requested_period args), snd (requested_period args)) st)
    = Ok html
    /\ (unknown_level int_of_str (soup_of_html html)
        \/ statistics_overflow strptime int_of_str current_date
                               (soup_of_html html) (requested_period args)).
Proof.
  unfold get_contributions, requested_period, statistics_overflow.
  destruct (truthy (arg_username args)); cbn [negb fst];
    [|cbn; discriminate].
  assert (Hexc : forall e, http_status (on_exception e) = 500 ->
                           is_value_error e = false).
  { intros e H.
    destruct (on_exception_status e) as [[H' _]|[_ H']]; congruence. }
  assert (Hbody : forall f t fo to,
    strptime f = Ok fo -> strptime t = Ok to ->
    http_status
      (fst (match fetch_github_data requests_get
                    (string_of (arg_username args), f, t) st with
            | (Raise e, st') => (on_exception e, st')
            | (Ok html, st') =>
              match page_body (string_of (arg_username args)) f t fo to html
              with
              | Ok body => (mkHttpResponse 200 body, st')
              | Raise e => (on_exception e, st')
              end
            end)) = 500 ->
    exists html,
      fst (fetch_github_data requests_get
             (string_of (arg_username args), f, t) st) = Ok html
      /\ (unknown_level int_of_str (soup_of_html html)
          \/ (exists recs msg,
                parse_contribution_data strptime int_of_str current_date
                                        (soup_of_html html) = Ok recs
                /\ calculate_statistics
                     (filter (in_period strptime fo to) recs)
                   = Raise (OverflowError msg)))).
  { intros f t fo to Hf Ht.
    destruct (fetch_github_data requests_get
                (string_of (arg_username args), f, t) st)
      as [[html|e] st'] eqn:Hfetch; cbn [fst].
    - destruct (page_body _ f t fo to html) as [body|e] eqn:Hb; cbn [fst].
      + cbn. discriminate.
      + intros H. apply Hexc in H.
        exists html. split; [reflexivity|].
        destruct (page_body_other_error _ _ _ _ _ _ Hb H)
          as [Hx|(recs & msg & Hp & Hs)]; [now left|].
        right. exists recs, msg. auto.
    - intros H. apply Hexc in H.
      apply fetch_raise_inv in Hfetch.
      destruct Hfetch as (_ & _ & _ & _ & [-> | ->]); discriminate. }
  destruct (truthy (arg_year args)); cbn [fst snd].
  - destruct (strptime (string_of (arg_year args) ++ "-01-01"))
      as [fo|e] eqn:Hf; cbn [bind].
    2:{ rewrite (strptime_value_error Hf). cbn. discriminate. }
    destruct (strptime (string_of (arg_year args) ++ "-12-31"))
      as [to|e] eqn:Ht; cbn [bind].
    2:{ rewrite (strptime_value_error Ht). cbn. discriminate. }
    intros H.
    destruct (Hbody _ _ _ _ Hf Ht H)
      as (html & Hfetch & [Hx|(recs & msg & Hp & Hs)]);
      exists html; (split; [exact Hfetch|]);
      [left; exact Hx | right; exists recs, fo, to, msg; auto].
  - destruct (truthy (arg_from args) && truthy (arg_to args)); cbn [negb];
      [|cbn; discriminate].
    destruct (strptime (string_of (arg_from args))) as [fo|e] eqn:Hf;
      cbn [bind].
    2:{ rewrite (strptime_value_error Hf). cbn. discriminate. }
    destruct (strptime (string_of (arg_to args))) as [to|e] eqn:Ht;
      cbn [bind].
    2:{ rewrite (strptime_value_error Ht). cbn. discriminate. }
    intros H.
    destruct (Hbody _ _ _ _ Hf Ht H)
      as (html & Hfetch & [Hx|(recs & msg & Hp & Hs)]);
      exists html; (split; [exact Hfetch|]);
      [left; exact Hx | right; exists recs, fo, to, msg; auto].
Qed.

End HandlerCases.

Lemma strptime_ymd_value_error (s : string) (e : exn) :
  strptime_ymd s = Raise e -> is_value_error e = true.
Proof.
  unfold strptime_ymd.
  repeat match goal with
         | |- context [match ?x with _ => _ end] => destruct x
         end;
    try discriminate; now intros [= <-].
Qed.

Lemma int_of_string_value_error (s : string) (e : exn) :
  int_of_string s = Raise e -> is_value_error e = true.
Proof.
  unfold int_of_string.
  match goal with
  | |- context [match ?x with Some _ => _ | None => _ end] => destruct x
  end; [discriminate | now intros [= <-]].
Qed.

(** X15.  A request without a user name is answered with status 400 and
    the message "Username is required"; and whenever the answer has status
    400, the cache and the world are as before: no request was sent. *)
Theorem rejected_request_sends_nothing
  (strptime : string -> result calendar_date)
  (int_of_str : string -> result Z)
  (current_date : calendar_date)
  (requests_get : nat -> string -> Response)
  (soup_of_html : string -> Soup) (args : Args) (st : Cache * World) :
  (truthy (arg_username args) = false ->
   get_contributions strptime int_of_str current_date requests_get
                     soup_of_html args st
   = (mkHttpResponse 400 (ErrorBody "Username is required"), st))
  /\ (http_status
        (fst (get_contributions strptime int_of_str current_date requests_get
                                soup_of_html args st)) = 400 ->
      snd (get_contributions strptime int_of_str current_date requests_get
                             soup_of_html args st) = st).
Proof.
  split.
  - intros H. unfold get_contributions. rewrite H. reflexivity.
  - apply handler_400_state.
Qed.

Lemma rejected_request_sends_nothing_witness :
  get_contributions strptime_ymd int_of_string sample_today picky_upstream
                    sample_page (mkArgs (Some "") (Some "2024") None None)
                    fresh_process
  = (mkHttpResponse 400 (ErrorBody "Username is required"), fresh_process)
  /\ snd (get_contributions strptime_ymd int_of_string sample_today
                            picky_upstream sample_page
                            (mkArgs (Some "octocat") (Some "24") None None)
                            fresh_process) = fresh_process.
Proof.
  split.
  - apply (rejected_request_sends_nothing strptime_ymd int_of_string
             sample_today picky_upstream sample_page
             (mkArgs (Some "") (Some "2024") None None) fresh_process).
    reflexivity.
  - apply (rejected_request_sends_nothing strptime_ymd int_of_string
             sample_today picky_upstream sample_page
             (mkArgs (Some "octocat") (Some "24") None None) fresh_process).
    reflexivity.
Defined.

(** X16.  A request that gives a year is answered exactly like the
    request for the first of January to the thirty-first of December of
    that year, whatever [from] and [to] it carries. *)
Theorem year_means_whole_year
  (strptime : string -> result calendar_date)
  (int_of_str : string -> result Z)
  (current_date : calendar_date)
  (requests_get : nat -> string -> Response)
  (soup_of_html : string -> Soup)
  (username given_from given_to : option string) (y : string)
  (st : Cache * World) :
  y <> EmptyString ->
  get_contributions strptime int_of_str current_date requests_get soup_of_html
                    (mkArgs username (Some y) given_from given_to) st
  = get_contributions strptime int_of_str current_date requests_get
                      soup_of_html
                      (mkArgs username None (Some (y ++ "-01-01")%string)
                              (Some (y ++ "-12-31")%string)) st.
Proof.
  intros Hy. destruct y as [|a y']; [congruence|].
  unfold get_contributions. cbn [arg_username arg_year arg_from arg_to].
  destruct (truthy username); reflexivity.
Qed.

Lemma year_means_whole_year_witness :
  get_contributions strptime_ymd int_of_string sample_today picky_upstream
                    sample_page
                    (mkArgs (Some "octocat") (Some "2024")
                            (Some "1999-01-01") None) fresh_process
  = get_contributions strptime_ymd int_of_string sample_today picky_upstream
                      sample_page
                      (mkArgs (Some "octocat") None (Some "2024-01-01")
                              (Some "2024-12-31")) fresh_process.
Proof.
  apply (@year_means_whole_year strptime_ymd int_of_string sample_today
           picky_upstream sample_page (Some "octocat") (Some "1999-01-01")
           None "2024" fresh_process).
  discriminate.
Defined.

(** X17.  An answer with status 200 carries the user name and the period
    of the request, and a list of days that is sorted by date, in which
    every day has a non-negative count and a date that is read as a day of
    the period and not after the reference day; its statistics are those
    of that list. *)
Theorem successful_answer_is_in_period
  (strptime : string -> result calendar_date)
  (int_of_str : string -> result Z)
  (current_date : calendar_date)
  (requests_get : nat -> string -> Response)
  (soup_of_html : string -> Soup)
  (args : Args) (st st1 : Cache * World) (resp : HttpResponse) :
  get_contributions strptime int_of_str current_date requests_get soup_of_html
                    args st = (resp, st1) ->
  http_status resp = 200 ->
  exists fo to days stats,
    resp = mkHttpResponse 200
             (ContributionsBody (string_of (arg_username args))
                                (fst (requested_period args))
                                (snd (requested_period args)) days stats)
    /\ strptime (fst (requested_period args)) = Ok fo
    /\ strptime (snd (requested_period args)) = Ok to
    /\ StronglySorted date_le days
    /\ (forall r, In r days ->
          0 <= contributions r
          /\ exists d, strptime (date r) = Ok d
                       /\ on_or_before fo d /\ on_or_before d to
                       /\ on_or_before d current_date)
    /\ calculate_statistics days = Ok stats.
Proof.
  intros H Hs.
  pose proof handler_ok_inv as P.
  specialize (P _ _ _ _ _ _ _ _ _ H Hs). cbv beta in P.
  destruct P as (fo & to & html & recs & days & stats
                 & _ & _ & Hfo & Hto & _ & Hp & Hf & Hst & ->).
  exists fo, to, days, stats.
  apply filter_period_ok in Hf. subst days.
  split; [reflexivity|]. split; [exact Hfo|]. split; [exact Hto|].
  split; [|split; [|exact Hst]].
  - apply strongly_sorted_filter.
    apply parse_contribution_data_entries in Hp. rewrite Hp.
    apply sort_by_date_sorted.
  - intros r Hr. apply filter_In in Hr. destruct Hr as [Hin Hper].
    pose proof parse_contribution_data_in as P.
    specialize (P _ _ _ _ _ _ Hp Hin). destruct P as (td & _ & Hr).
    apply parse_day_entry in Hr.
    destruct Hr as (_ & _ & (d & Hd & Hlt) & Hcount).
    split; [exact Hcount|]. exists d. split; [exact Hd|].
    unfold in_period in Hper. rewrite Hd in Hper.
    apply andb_prop in Hper. destruct Hper as [H1 H2].
    rewrite date_leb_iff in H1, H2.
    repeat split; auto. now apply date_ltb_false_iff.
Qed.

Lemma successful_answer_is_in_period_witness :
  exists fo to days stats,
    fst (get_contributions strptime_ymd int_of_string sample_today
                           picky_upstream sample_page sample_request
                           fresh_process)
    = mkHttpResponse 200
        (ContributionsBody "octocat" "2024-01-01" "2024-12-31" days stats)
    /\ strptime_ymd "2024-01-01" = Ok fo
    /\ strptime_ymd "2024-12-31" = Ok to
    /\ StronglySorted date_le days
    /\ (forall r, In r days ->
          0 <= contributions r
          /\ exists d, strptime_ymd (date r) = Ok d
                       /\ on_or_before fo d /\ on_or_before d to
                       /\ on_or_before d sample_today)
    /\ calculate_statistics days = Ok stats.
Proof.
  destruct (@successful_answer_is_in_period strptime_ymd int_of_string
              sample_today picky_upstream sample_page sample_request
              fresh_process _ _ eq_refl eq_refl)
    as (fo & to & days & stats & H).
  exists fo, to, days, stats. exact H.
Defined.

Lemma plain_soup_tooltips : plain_tooltips plain_soup.
Proof.
  intros i tip H. destruct i as [s|]; [|discriminate]. cbn in H.
  destruct (String.eqb s "day-1").
  - injection H as <-. split; [reflexivity | apply Nat.leb_le; reflexivity].
  - destruct (String.eqb s "day-2"); [|discriminate].
    injection H as <-. split; [reflexivity | apply Nat.leb_le; reflexivity].
Qed.

Lemma plain_bad_level_soup_tooltips : plain_tooltips plain_bad_level_soup.
Proof.
  intros i tip H. destruct i as [s|]; [|discriminate]. cbn in H.
  destruct (String.eqb s "day-1"); [|discriminate].
  injection H as <-. split; [reflexivity | apply Nat.leb_le; reflexivity].
Qed.

(** X18.  When the parameters of a request pass the validation, the
    fetcher returns a page whose tooltips are plain, the parser returns a
    list for it and every count of the list is below [float_limit], the
    answer has status 200 and carries exactly the records of that list
    whose date is read as a day of the period, in the order of the list,
    together with their statistics: reading the dates again cannot fail,
    and the statistics of such counts are computed without an error. *)
Theorem valid_request_is_answered
  (strptime : string -> result calendar_date)
  (int_of_str : string -> result Z)
  (current_date : calendar_date)
  (requests_get : nat -> string -> Response)
  (soup_of_html : string -> Soup)
  (args : Args) (st st1 : Cache * World) (fo to : calendar_date)
  (html : string) (recs : list Contribution) :
  truthy (arg_username args) = true ->
  truthy (arg_year args) = true
  \/ truthy (arg_from args) && truthy (arg_to args) = true ->
  strptime (fst (requested_period args)) = Ok fo ->
  strptime (snd (requested_period args)) = Ok to ->
  fetch_github_data requests_get
    (string_of (arg_username args),
     fst (requested_period args), snd (requested_period args)) st
  = (Ok html, st1) ->
  plain_tooltips (soup_of_html html) ->
  parse_contribution_data strptime int_of_str current_date (soup_of_html html)
  = Ok recs ->
  Forall (fun r => contributions r < float_limit) recs ->
  exists stats,
    calculate_statistics (filter (in_period strptime fo to) recs) = Ok stats
    /\ get_contributions strptime int_of_str current_date requests_get
                         soup_of_html args st
       = (mkHttpResponse 200
            (ContributionsBody (string_of (arg_username args))
                               (fst (requested_period args))
                               (snd (requested_period args))
                               (filter (in_period strptime fo to) recs) stats),
          st1).
Proof.
  intros Hu Hper Hfo Hto Hfetch _ Hparse Hsmall.
  assert (Hstats : exists stats,
            calculate_statistics (filter (in_period strptime fo to) recs)
            = Ok stats).
  { destruct (filter (in_period strptime fo to) recs) as [|r t] eqn:Hdays.
    - exists EmptyStatistics. reflexivity.
    - destruct (calculate_statistics_bounded (l := r :: t))
        as (mean & median & H); [discriminate| |eauto].
      rewrite <- Hdays. apply Forall_forall. intros x Hx.
      apply filter_In in Hx. destruct Hx as [Hx _].
      pose proof (parser_counts_nonneg _ _ _ _ Hparse) as Hpos.
      rewrite Forall_forall in Hpos, Hsmall.
      specialize (Hpos x Hx). specialize (Hsmall x Hx). cbn in Hpos. lia. }
  destruct Hstats as [stats Hstats].
  exists stats. split; [exact Hstats|].
  rewrite (@handler_valid strptime int_of_str current_date requests_get
             soup_of_html args st fo to Hu Hper Hfo Hto).
  rewrite Hfetch. unfold contributions_body. rewrite Hparse. cbn [bind].
  rewrite filter_period_parsed.
  - cbn [bind]. rewrite Hstats. reflexivity.
  - apply Forall_forall. intros r Hin.
    pose proof parse_contribution_data_in as P.
    specialize (P _ _ _ _ _ _ Hparse Hin). destruct P as (td & _ & Hr).
    apply parse_day_entry in Hr.
    destruct Hr as (_ & _ & (d & Hd & _) & _). eauto.
Qed.

Lemma valid_request_is_answered_witness :
  exists stats,
    calculate_statistics
      (filter (in_period strptime_ymd (mkDate 2024 1 1) (mkDate 2024 12 31))
              two_days) = Ok stats
    /\ fst (get_contributions strptime_ymd int_of_string sample_today
                              picky_upstream (fun _ => plain_soup)
                              sample_request fresh_process)
       = mkHttpResponse 200
           (ContributionsBody "octocat" "2024-01-01" "2024-12-31"
              (filter (in_period strptime_ymd (mkDate 2024 1 1)
                                 (mkDate 2024 12 31)) two_days) stats).
Proof.
  destruct (@valid_request_is_answered strptime_ymd int_of_string sample_today
              picky_upstream (fun _ => plain_soup) sample_request
              fresh_process
              _ (mkDate 2024 1 1) (mkDate 2024 12 31)
              "<html>octocat</html>" two_days
              eq_refl (or_introl eq_refl) eq_refl eq_refl eq_refl
              plain_soup_tooltips eq_refl)
    as (stats & H1 & H2).
  - repeat constructor; reflexivity.
  - exists stats. split; [exact H1|]. rewrite H2. reflexivity.
Defined.

(** X19.  When the parameters of a request pass the validation, its
    arguments are not in the cache and the upstream answers with a status
    other than 200, the answer has status 404, whatever that status is,
    with the message of the exception of the fetcher; nothing is added to
    the cache. *)
Theorem upstream_failure_is_answered_404
  (strptime : string -> result calendar_date)
  (int_of_str : string -> result Z)
  (current_date : calendar_date)
  (requests_get : nat -> string -> Response)
  (soup_of_html : string -> Soup)
  (args : Args) (st : Cache * World) (fo to : calendar_date) :
  let key := (string_of (arg_username args),
              fst (requested_period args), snd (requested_period args)) in
  let status :=
    status_code (requests_get (List.length (requests_sent (snd st)))
                              (contributions_url key)) in
  truthy (arg_username args) = true ->
  truthy (arg_year args) = true
  \/ truthy (arg_from args) && truthy (arg_to args) = true ->
  strptime (fst (requested_period args)) = Ok fo ->
  strptime (snd (requested_period args)) = Ok to ->
  cache_lookup key (fst st) = None ->
  status <> 200 ->
  fst (get_contributions strptime int_of_str current_date requests_get
                         soup_of_html args st)
  = mkHttpResponse 404
      (ErrorBody (if status =? 404 then "GitHub user not found"
                  else "Failed to fetch GitHub data"))
  /\ fst (snd (get_contributions strptime int_of_str current_date requests_get
                                 soup_of_html args st)) = fst st.
Proof.
  intros key status Hu Hper Hfo Hto Hmiss Hstatus.
  rewrite (@handler_valid strptime int_of_str current_date requests_get
             soup_of_html args st fo to Hu Hper Hfo Hto).
  fold key. destruct st as [c w]. cbn [fst snd] in *.
  unfold fetch_github_data. rewrite Hmiss. unfold fetch_uncached.
  fold status.
  destruct (Z.eqb_spec status 404) as [E|E]; [cbn; auto|].
  destruct (Z.eqb_spec status 200) as [E'|E']; [contradiction|].
  cbn. auto.
Qed.

Lemma upstream_failure_is_answered_404_witness :
  fst (get_contributions strptime_ymd int_of_string sample_today
                         picky_upstream sample_page
                         (mkArgs (Some "hubot") (Some "2024") None None)
                         fresh_process)
  = mkHttpResponse 404 (ErrorBody "Failed to fetch GitHub data")
  /\ fst (snd (get_contributions strptime_ymd int_of_string sample_today
                                 picky_upstream sample_page
                                 (mkArgs (Some "hubot") (Some "2024") None None)
                                 fresh_process)) = [].
Proof.
  apply (@upstream_failure_is_answered_404 strptime_ymd int_of_string
           sample_today picky_upstream sample_page
           (mkArgs (Some "hubot") (Some "2024") None None) fresh_process
           (mkDate 2024 1 1) (mkDate 2024 12 31)).
  - reflexivity.
  - left. reflexivity.
  - reflexivity.
  - reflexivity.
  - reflexivity.
  - discriminate.
Defined.

(** X20.  When [strptime] and [int] raise nothing but [ValueError] and the
    fetcher returned a page whose tooltips are plain, an answer with
    status 500 has one of two causes: the page has a calendar-day element
    whose level is an integer outside 0..4, or the statistics of the days
    of the period raised [OverflowError]. *)
Theorem internal_error_has_two_causes
  (strptime : string -> result calendar_date)
  (int_of_str : string -> result Z)
  (current_date : calendar_date)
  (requests_get : nat -> string -> Response)
  (soup_of_html : string -> Soup)
  (args : Args) (st st1 : Cache * World) (html : string) :
  (forall s e, strptime s = Raise e -> is_value_error e = true) ->
  (forall s e, int_of_str s = Raise e -> is_value_error e = true) ->
  fetch_github_data requests_get
    (string_of (arg_username args),
     fst (requested_period args), snd (requested_period args)) st
  = (Ok html, st1) ->
  plain_tooltips (soup_of_html html) ->
  http_status
    (fst (get_contributions strptime int_of_str current_date requests_get
                            soup_of_html args st)) = 500 ->
  unknown_level int_of_str (soup_of_html html)
  \/ statistics_overflow strptime int_of_str current_date
                         (soup_of_html html) (requested_period args).
Proof.
  intros Hstrptime Hint Hfetch _ Hstatus.
  destruct (@handler_500_inv strptime int_of_str current_date requests_get
              soup_of_html Hstrptime Hint args st Hstatus)
    as (html' & Hhtml & Hcause).
  rewrite Hfetch in Hhtml. cbn [fst] in Hhtml. injection Hhtml as <-.
  exact Hcause.
Qed.

Lemma internal_error_has_two_causes_witness :
  http_status
    (fst (get_contributions strptime_ymd int_of_string sample_today
                            picky_upstream (fun _ => plain_bad_level_soup)
                            sample_request fresh_process)) = 500
  /\ (unknown_level int_of_string plain_bad_level_soup
      \/ statistics_overflow strptime_ymd int_of_string sample_today
                             plain_bad_level_soup
                             (requested_period sample_request)).
Proof.
  split; [reflexivity|].
  apply (@internal_error_has_two_causes strptime_ymd int_of_string
           sample_today picky_upstream (fun _ => plain_bad_level_soup)
           sample_request fresh_process
           (snd (fetch_github_data picky_upstream octocat_key fresh_process))
           "<html>octocat</html>").
  - apply strptime_ymd_value_error.
  - apply int_of_string_value_error.
  - reflexivity.
  - apply plain_bad_level_soup_tooltips.
  - reflexivity.
Defined.

(** X21.  A request whose period ends before it starts is not rejected:
    when it is answered with status 200, the list of days is empty and the
    statistics are the empty dictionary. *)
Theorem reversed_period_gives_empty_answer
  (strptime : string -> result calendar_date)
  (int_of_str : string -> result Z)
  (current_date : calendar_date)
  (requests_get : nat -> string -> Response)
  (soup_of_html : string -> Soup)
  (args : Args) (st st1 : Cache * World) (resp : HttpResponse)
  (fo to : calendar_date) :
  get_contributions strptime int_of_str current_date requests_get soup_of_html
                    args st = (resp, st1) ->
  http_status resp = 200 ->
  strptime (fst (requested_period args)) = Ok fo ->
  strptime (snd (requested_period args)) = Ok to ->
  date_ltb to fo = true ->
  resp = mkHttpResponse 200
           (ContributionsBody (string_of (arg_username args))
                              (fst (requested_period args))
                              (snd (requested_period args))
                              [] EmptyStatistics).
Proof.
  intros H Hs Hfo Hto Hrev.
  pose proof handler_ok_inv as P.
  specialize (P _ _ _ _ _ _ _ _ _ H Hs). cbv beta in P.
  destruct P as (fo' & to' & html & recs & days & stats
                 & _ & _ & Hfo' & Hto' & _ & _ & Hf & Hst & ->).
  assert (fo' = fo) by congruence. assert (to' = to) by congruence.
  subst fo' to'.
  apply filter_period_ok in Hf.
  assert (Hnil : days = []).
  { subst days. apply filter_none. intros r _. unfold in_period.
    destruct (strptime (date r)) as [d|e]; [|reflexivity].
    apply andb_false_iff.
    destruct (date_leb fo d) eqn:H1; [|now left]. right.
    destruct (date_leb d to) eqn:H2; [|reflexivity].
    rewrite date_leb_iff in H1, H2.
    pose proof (on_or_before_trans H1 H2) as H3.
    apply date_ltb_false_iff in H3. congruence. }
  subst days. rewrite Hnil in *. cbn in Hst. injection Hst as <-.
  reflexivity.
Qed.

Lemma reversed_period_gives_empty_answer_witness :
  fst (get_contributions strptime_ymd int_of_string sample_today
                         changing_upstream (fun _ => sample_soup)
                         reversed_request fresh_process)
  = mkHttpResponse 200
      (ContributionsBody "octocat" "2024-02-01" "2024-01-01"
                         [] EmptyStatistics).
Proof.
  apply (@reversed_period_gives_empty_answer strptime_ymd int_of_string
           sample_today changing_upstream (fun _ => sample_soup)
           reversed_request fresh_process
           (snd (get_contributions strptime_ymd int_of_string sample_today
                   changing_upstream (fun _ => sample_soup)
                   reversed_request fresh_process))
           _ (mkDate 2024 2 1) (mkDate 2024 1 1)).
  - apply surjective_pairing.
  - reflexivity.
  - reflexivity.
  - reflexivity.
  - reflexivity.
Defined.
